(** * Athena database and Route53 health-check resources

    A shallow embedding of [aws/resource_aws_athena_database.go] and of the
    handlers of the Route53 health check, together with the
    wait-for-terminal poller the Athena resource drives its queries with.

    Conventions.
    - A Go pointer field is an [option]; [aws.String s] is [Some s] and
      [aws.StringValue] is [default ""].
    - A Go [interface{}] value coming out of the resource schema is a [Value];
      a failed type assertion panics, which the embedding writes as [None].
    - A [time.Duration] is a [Z] counting nanoseconds.
    - Remote calls are answered by a scripted connection: the answer to a
      status request depends on how many status requests were made before. *)

From stdpp Require Import base option list strings gmap.
From Stdlib Require Import ZArith Lia Ascii.

#[local] Set Warnings "-register-all".

(** ** Go values and errors *)

(** Values of type [interface{}] as the schema layer hands them over. *)
Inductive Value : Type :=
  | VNil
  | VString (s : string)
  | VBool (b : bool)
  | VInt (z : Z)
  | VList (l : list Value)
  | VMap (m : gmap string Value).

(** [v.(string)], [v.(bool)], [v.([]interface{})], [v.(map[string]interface{})]:
    [None] is the run-time panic of a failed assertion. *)
Definition asString (v : Value) : option string :=
  match v with VString s => Some s | _ => None end.

Definition asBool (v : Value) : option bool :=
  match v with VBool b => Some b | _ => None end.

Definition asList (v : Value) : option (list Value) :=
  match v with VList l => Some l | _ => None end.

Definition asMap (v : Value) : option (gmap string Value) :=
  match v with VMap m => Some m | _ => None end.

(** [m[k]] on a Go map: the nil interface when the key is missing. *)
Definition index (m : gmap string Value) (k : string) : Value :=
  default VNil (m !! k).

(** Go errors.  [Errorf] is an error built by [fmt.Errorf] from a formatted
    text, [Wrapf] one built with a trailing [%w] verb ([msg] is the text in
    front of the wrapped error), [AwsErr] an [awserr.Error] of the SDK.  The
    last two are the poller's own failures. *)
Inductive error : Type :=
  | AwsErr (code message : string)
  | Errorf (msg : string)
  | Wrapf (msg : string) (cause : error)
  | UnexpectedStateError (status : string) (detail : option error)
  | TimeoutError (lastStatus : string) (elapsed : Z).

(** The text of an error.  For the poller's two failures the text is the
    status they carry, followed by the attached detail if there is one. *)
Fixpoint Error (e : error) : string :=
  match e with
  | AwsErr code message => code +:+ ": " +:+ message
  | Errorf msg => msg
  | Wrapf msg cause => msg +:+ Error cause
  | UnexpectedStateError status None => status
  | UnexpectedStateError status (Some d) => status +:+ ": " +:+ Error d
  | TimeoutError lastStatus _ => lastStatus
  end.

(** [strings.Contains s sub], as a proposition. *)
Definition Contains (s sub : string) : Prop :=
  ∃ pre post : string, s = pre +:+ sub +:+ post.

(** [aws.StringValue]. *)
Definition StringValue (p : option string) : string := default "" p.

(** ** The SDK's Athena types (the fields the resource touches) *)

Module athena.

Module EncryptionConfiguration.
Record t : Type := mk {
  EncryptionOption : option string;
  KmsKey : option string
}.
End EncryptionConfiguration.

Module ResultConfiguration.
Record t : Type := mk {
  OutputLocation : option string;
  EncryptionConfiguration : option EncryptionConfiguration.t
}.
End ResultConfiguration.

Module StartQueryExecutionInput.
Record t : Type := mk {
  QueryString : option string;
  ResultConfiguration : option ResultConfiguration.t
}.
End StartQueryExecutionInput.

Module StartQueryExecutionOutput.
Record t : Type := mk { QueryExecutionId : option string }.
End StartQueryExecutionOutput.

Module QueryExecutionStatus.
Record t : Type := mk {
  State : option string;
  StateChangeReason : option string
}.
End QueryExecutionStatus.

Module QueryExecution.
Record t : Type := mk { Status : option QueryExecutionStatus.t }.
End QueryExecution.

Module GetQueryExecutionInput.
Record t : Type := mk { QueryExecutionId : option string }.
End GetQueryExecutionInput.

Module GetQueryExecutionOutput.
Record t : Type := mk { QueryExecution : option QueryExecution.t }.
End GetQueryExecutionOutput.

Module Datum.
Record t : Type := mk { VarCharValue : option string }.
End Datum.

Module Row.
Record t : Type := mk { Data : list (option Datum.t) }.
End Row.

Module ResultSet.
Record t : Type := mk { Rows : list (option Row.t) }.
End ResultSet.

Module GetQueryResultsInput.
Record t : Type := mk { QueryExecutionId : option string }.
End GetQueryResultsInput.

Module GetQueryResultsOutput.
Record t : Type := mk { ResultSet : option ResultSet.t }.
End GetQueryResultsOutput.

(** Modelled from the spec: the SDK's query-state constants, which the
    resource names but does not declare; the spec gives their texts
    (QUEUED, RUNNING, SUCCEEDED, FAILED) and the service adds CANCELLED. *)
Definition QueryExecutionStateQueued : string := "QUEUED".
Definition QueryExecutionStateRunning : string := "RUNNING".
Definition QueryExecutionStateSucceeded : string := "SUCCEEDED".
Definition QueryExecutionStateFailed : string := "FAILED".
Definition QueryExecutionStateCancelled : string := "CANCELLED".

End athena.

Import athena.

(** ** [expandAthenaResultConfiguration] *)

Definition expandAthenaResultConfiguration
    (bucket : string) (encryptionConfigurationList : list Value)
    : option ResultConfiguration.t :=
  let resultConfig :=
    ResultConfiguration.mk (Some ("s3://" +:+ bucket)) None in
  if (length encryptionConfigurationList <=? 0)%nat then Some resultConfig
  else
    first ← encryptionConfigurationList !! 0%nat;
    data ← asMap first;
    keyType ← asString (index data "encryption_option");
    keyID ← asString (index data "kms_key");
    let encryptionConfig :=
      EncryptionConfiguration.mk (Some keyType) None in
    let encryptionConfig :=
      if (0 <? String.length keyID)%nat
      then EncryptionConfiguration.mk
             (EncryptionConfiguration.EncryptionOption encryptionConfig)
             (Some keyID)
      else encryptionConfig in
    Some (ResultConfiguration.mk
            (ResultConfiguration.OutputLocation resultConfig)
            (Some encryptionConfig)).

(** What the schema of [encryption_configuration] guarantees of each element
    of the list: a map holding a string under both keys (an unset optional
    string is the empty string). *)
Definition encryptionConfigurationElem (v : Value) : Prop :=
  ∃ (data : gmap string Value) (keyType keyID : string),
    v = VMap data
    ∧ data !! "encryption_option" = Some (VString keyType)
    ∧ data !! "kms_key" = Some (VString keyID).

(** The [kms_key] string of the list's configuration block. *)
Definition kmsKeyOf (l : list Value) : option string :=
  first ← l !! 0%nat; data ← asMap first; asString (index data "kms_key").

(** ** The operation poller *)

(** [time.Second] and [time.Minute], in nanoseconds. *)
Module time.
Definition Second : Z := 1000000000.
Definition Minute : Z := 60 * Second.
End time.

(** Configuration of one polling session. *)
Record PollSpec : Type := mkPollSpec {
  pendingStatuses : list string;
  targetStatuses : list string;
  timeout : Z;
  initialDelay : Z;
  pollInterval : Z
}.

(** A probe is scripted: its answer [(result, status, err)] is a function of
    the number of probe calls made before it in the session. *)
Definition StatusProbe (R : Type) : Type := nat → R * string * option error.

(** What a finished session leaves behind: the number of probe calls made,
    the wall-clock time elapsed since the session began, and the pair
    [(result, error)] handed to the caller. *)
Record PollRun (R : Type) : Type := mkPollRun {
  probeCalls : nat;
  elapsed : Z;
  returned : R + error
}.
Arguments mkPollRun {R} _ _ _.
Arguments probeCalls {R} _.
Arguments elapsed {R} _.
Arguments returned {R} _.

Inductive StatusClass : Type := Pending | Target | Unexpected.

(** Membership of a status in a list of statuses. *)
Definition stringInSlice (s : string) (l : list string) : bool :=
  existsb (String.eqb s) l.

(** Modelled from the spec: the classification of one observed status (the
    poller itself is not in the repository's files).  A target status ends
    the wait, a pending status continues it, an empty status with no error
    is "not yet available" and so pending, anything else is unexpected. *)
Definition classify (spec : PollSpec) (status : string) : StatusClass :=
  if stringInSlice status (targetStatuses spec) then Target
  else if stringInSlice status (pendingStatuses spec) then Pending
  else if String.eqb status "" then Pending
  else Unexpected.

(** Sleeping [d] moves the clock by [d]; a non-positive [d] returns at once. *)
Definition sleep (now d : Z) : Z := now + Z.max 0 d.

Section Poller.

Context {R : Type}.
Variable spec : PollSpec.
Variable probe : StatusProbe R.
(** Wall-clock time the probe call after [k] earlier ones takes. *)
Variable latency : nat → N.

(** Modelled from the spec: steps 2 to 4 of [WaitForTerminal], started
    with [calls] probe calls made and the clock at [now].  [fuel] bounds
    the number of iterations; [None] means the bound was reached. *)
Fixpoint pollLoop (fuel calls : nat) (now : Z) : option (PollRun R) :=
  match fuel with
  | O => None
  | S fuel' =>
      let '(result, status, err) := probe calls in
      let calls' := S calls in
      let now' := now + Z.of_N (latency calls) in
      match err with
      | Some e => Some (mkPollRun calls' now' (inr e))
      | None =>
          match classify spec status with
          | Target => Some (mkPollRun calls' now' (inl result))
          | Unexpected =>
              Some (mkPollRun calls' now'
                      (inr (UnexpectedStateError status err)))
          | Pending =>
              if timeout spec <? now'
              then Some (mkPollRun calls' now'
                           (inr (TimeoutError status now')))
              else pollLoop fuel' calls' (sleep now' (pollInterval spec))
          end
      end
  end%Z.

(** Modelled from the spec: [WaitForTerminal], the plugin SDK's
    [WaitForState], which is not in the repository's files.  Step 1 sleeps
    the initial delay, then the loop runs. *)
Definition WaitForTerminal (fuel : nat) : option (PollRun R) :=
  pollLoop fuel 0 (sleep 0 (initialDelay spec)).

(** The clock just before the probe call that follows [k] earlier ones,
    when all of those were followed by a sleep. *)
Fixpoint clockBefore (k : nat) : Z :=
  match k with
  | O => sleep 0 (initialDelay spec)
  | S k' =>
      sleep (clockBefore k' + Z.of_N (latency k')) (pollInterval spec)
  end.

(** The clock at the timeout check that follows that probe call. *)
Definition clockAfter (k : nat) : Z := clockBefore k + Z.of_N (latency k).

(** The probe call after [k] earlier ones keeps the session polling: no
    error, a status classified pending, and the timeout not exceeded at
    the check that follows. *)
Definition keepsPolling (k : nat) : bool :=
  let '(_, status, err) := probe k in
  match err, classify spec status with
  | None, Pending => negb (timeout spec <? clockAfter k)%Z
  | _, _ => false
  end.

End Poller.

(** ** The plugin SDK's [resource.StateChangeConf] *)

Module resource.

Module StateChangeConf.
Record t (R : Type) : Type := mk {
  Pending : list string;
  Target : list string;
  Refresh : StatusProbe R;
  Timeout : Z;
  Delay : Z;
  MinTimeout : Z
}.
Arguments mk {R} _ _ _ _ _ _.
Arguments Pending {R} _.
Arguments Target {R} _.
Arguments Refresh {R} _.
Arguments Timeout {R} _.
Arguments Delay {R} _.
Arguments MinTimeout {R} _.
End StateChangeConf.

(** The [PollSpec] a [StateChangeConf] stands for. *)
Definition pollSpec {R} (conf : StateChangeConf.t R) : PollSpec :=
  mkPollSpec (StateChangeConf.Pending conf) (StateChangeConf.Target conf)
             (StateChangeConf.Timeout conf) (StateChangeConf.Delay conf)
             (StateChangeConf.MinTimeout conf).

(** Modelled from the spec: [WaitForState] is the spec's [WaitForTerminal]
    on the configuration's statuses, durations and refresh function. *)
Definition WaitForState {R} (latency : nat → N) (fuel : nat)
    (conf : StateChangeConf.t R) : option (PollRun R) :=
  WaitForTerminal (pollSpec conf) (StateChangeConf.Refresh conf) latency fuel.

End resource.

(** ** The Athena connection and the handlers' effects *)

(** The remote service as the resource sees it.  Each call returns the SDK's
    pair [(output, err)].  [GetQueryExecution k] answers the status request
    that follows [k] earlier ones and [GetQueryExecutionTime k] is the
    wall-clock time that request takes. *)
Record AthenaConn : Type := mkAthenaConn {
  StartQueryExecution :
    StartQueryExecutionInput.t →
    option StartQueryExecutionOutput.t * option error;
  GetQueryExecution :
    nat → GetQueryExecutionInput.t →
    option GetQueryExecutionOutput.t * option error;
  GetQueryExecutionTime : nat → N;
  GetQueryResults :
    GetQueryResultsInput.t → option GetQueryResultsOutput.t * option error
}.

(** How a piece of handler code ends: it returns, it panics (a failed type
    assertion or a nil dereference), or the poll budget of the model ran
    out. *)
Inductive Exec (A : Type) : Type :=
  | Done (a : A)
  | Panic
  | OutOfFuel.
Arguments Done {A} _.
Arguments Panic {A}.
Arguments OutOfFuel {A}.

(** Handler code threads the list of queries submitted so far. *)
Definition Handler (A : Type) : Type :=
  list StartQueryExecutionInput.t →
  list StartQueryExecutionInput.t * Exec A.

Definition hret {A} (a : A) : Handler A := λ log, (log, Done a).

Definition hbind {A B} (m : Handler A) (k : A → Handler B) : Handler B :=
  λ log,
    match m log with
    | (log', Done a) => k a log'
    | (log', Panic) => (log', Panic)
    | (log', OutOfFuel) => (log', OutOfFuel)
    end.

(** A value that must be there: [None] panics. *)
Definition must {A} (o : option A) : Handler A :=
  λ log, (log, match o with Some a => Done a | None => Panic end).

(** A bounded computation: [None] is the exhausted budget. *)
Definition bounded {A} (o : option A) : Handler A :=
  λ log, (log, match o with Some a => Done a | None => OutOfFuel end).

(** [conn.StartQueryExecution(input)], recorded. *)
Definition submit (conn : AthenaConn) (input : StartQueryExecutionInput.t)
    : Handler (option StartQueryExecutionOutput.t * option error) :=
  λ log, (log ++ [input], Done (StartQueryExecution conn input)).

#[global] Instance Handler_ret : MRet Handler := @hret.
#[global] Instance Handler_bind : MBind Handler := λ A B k m, hbind m k.

(** The resource's view of its configuration: [d.Id()] and [d.Get(key)]. *)
Record ResourceData : Type := mkResourceData {
  Id : string;
  attributes : gmap string Value
}.

Definition Get (d : ResourceData) (key : string) : Value :=
  default VNil (attributes d !! key).

(** ** The Athena status probe and the wait for a query's result *)

Definition queryExecutionStateRefreshFunc (qeid : string) (conn : AthenaConn)
    : StatusProbe (option GetQueryExecutionOutput.t) :=
  λ k,
    let input := GetQueryExecutionInput.mk (Some qeid) in
    let '(out, err) := GetQueryExecution conn k input in
    let absent : option GetQueryExecutionOutput.t * string * option error :=
      (None, "", None) in
    match err with
    | Some e => (None, "failed", Some e)
    | None =>
        match out with
        | None => absent
        | Some o =>
            match GetQueryExecutionOutput.QueryExecution o with
            | None => absent
            | Some qe =>
                match QueryExecution.Status qe with
                | None => absent
                | Some status =>
                    let err :=
                      if String.eqb
                           (StringValue (QueryExecutionStatus.State status))
                           QueryExecutionStateFailed
                         && match QueryExecutionStatus.StateChangeReason status
                            with Some _ => true | None => false end
                      then Some (Errorf
                             ("reason: " +:+
                              StringValue
                                (QueryExecutionStatus.StateChangeReason
                                   status)))
                      else err in
                    (out, StringValue (QueryExecutionStatus.State status), err)
                end
            end
        end
    end.

(** The configuration [queryExecutionResult] waits with. *)
Definition executionStateConf (qeid : string) (conn : AthenaConn)
    : resource.StateChangeConf.t (option GetQueryExecutionOutput.t) :=
  resource.StateChangeConf.mk
    [QueryExecutionStateQueued; QueryExecutionStateRunning]
    [QueryExecutionStateSucceeded]
    (queryExecutionStateRefreshFunc qeid conn)
    (10 * time.Minute)
    (3 * time.Second)
    (3 * time.Second).

Definition queryExecutionResult (fuel : nat) (qeid : string)
    (conn : AthenaConn) : Handler (option ResultSet.t * option error) :=
  (run ← bounded (resource.WaitForState (GetQueryExecutionTime conn) fuel
                     (executionStateConf qeid conn));
   match returned run with
   | inr err => hret (None, Some err)
   | inl _ =>
       let qrinput := GetQueryResultsInput.mk (Some qeid) in
       let '(resp, err) := GetQueryResults conn qrinput in
       match err with
       | Some e => hret (None, Some e)
       | None =>
           resp ← must resp;
           hret (GetQueryResultsOutput.ResultSet resp, None)
       end
   end).

(** [strings.Join]. *)
Fixpoint Join (ss : list string) (sep : string) : string :=
  match ss with
  | [] => ""
  | [s] => s
  | s :: rest => s +:+ sep +:+ Join rest sep
  end.

(** A nil result set, row or datum makes the Go code panic on the field
    access. *)
Definition flattenAthenaResultSet (rs : option ResultSet.t) : option string :=
  rs ← rs;
  rows ← mapM (λ row : option Row.t, Row.Data <$> row) (ResultSet.Rows rs);
  ss ← mapM (λ datum : option Datum.t,
               datum ← datum; Some (StringValue (Datum.VarCharValue datum)))
            (concat rows);
  Some (Join ss (String (Ascii.ascii_of_nat 10) "")).

Definition executeAndExpectNoRowsWhenDrop (fuel : nat) (qeid : string)
    (conn : AthenaConn) : Handler (option error) :=
  ('(rs, err) ← queryExecutionResult fuel qeid conn;
   match err with
   | Some e => hret (Some e)
   | None =>
       rows ← must (ResultSet.Rows <$> rs);
       if negb (length rows =? 0)%nat
       then
         text ← must (flattenAthenaResultSet rs);
         hret (Some (Errorf
                 ("Athena drop database, unexpected query result: " +:+ text)))
       else hret None
   end).

(** ** [resourceAwsAthenaDatabaseDelete] *)

Definition resourceAwsAthenaDatabaseDelete (fuel : nat) (d : ResourceData)
    (conn : AthenaConn) : Handler (option error) :=
  (name ← must (asString (Get d "name"));
   let queryString := "drop database `" +:+ name +:+ "`" in
   force_destroy ← must (asBool (Get d "force_destroy"));
   let queryString :=
     if (force_destroy : bool) then queryString +:+ " cascade"
     else queryString in
   let queryString := queryString +:+ ";" in
   bucket ← must (asString (Get d "bucket"));
   encryption_configuration ←
     must (asList (Get d "encryption_configuration"));
   resultConfiguration ←
     must (expandAthenaResultConfiguration bucket encryption_configuration);
   let input :=
     StartQueryExecutionInput.mk (Some queryString)
                                 (Some resultConfiguration) in
   '(resp, err) ← submit conn input;
   match err with
   | Some e => hret (Some e)
   | None =>
       resp ← must resp;
       qeid ← must (StartQueryExecutionOutput.QueryExecutionId resp);
       executeAndExpectNoRowsWhenDrop fuel qeid conn
   end).

(** ** The other handlers of the Athena database *)

Definition executeAndExpectNoRowsWhenCreate (fuel : nat) (qeid : string)
    (conn : AthenaConn) : Handler (option error) :=
  ('(rs, err) ← queryExecutionResult fuel qeid conn;
   match err with
   | Some e => hret (Some e)
   | None =>
       rows ← must (ResultSet.Rows <$> rs);
       if negb (length rows =? 0)%nat
       then
         text ← must (flattenAthenaResultSet rs);
         hret (Some (Errorf
                 ("Athena create database, unexpected query result: "
                  +:+ text)))
       else hret None
   end).

(** The inner loop of [executeAndExpectMatchingRow] over the data of one
    row: [true] when it reaches [return nil].  A nil datum is skipped. *)
Fixpoint matchingDatum (data : list (option Datum.t)) (dbName : string)
    : bool :=
  match data with
  | [] => false
  | None :: rest => matchingDatum rest dbName
  | Some datum :: rest =>
      if String.eqb (StringValue (Datum.VarCharValue datum)) dbName
      then true
      else matchingDatum rest dbName
  end.

(** The outer loop over the rows, in order: a nil row met before a match
    makes the access to its data panic ([None]). *)
Fixpoint matchingRow (rows : list (option Row.t)) (dbName : string)
    : option bool :=
  match rows with
  | [] => Some false
  | None :: _ => None
  | Some row :: rest =>
      if matchingDatum (Row.Data row) dbName then Some true
      else matchingRow rest dbName
  end.

Definition executeAndExpectMatchingRow (fuel : nat) (qeid dbName : string)
    (conn : AthenaConn) : Handler (option error) :=
  ('(rs, err) ← queryExecutionResult fuel qeid conn;
   match err with
   | Some e => hret (Some e)
   | None =>
       rows ← must (ResultSet.Rows <$> rs);
       found ← must (matchingRow rows dbName);
       if (found : bool) then hret None
       else
         text ← must (flattenAthenaResultSet rs);
         hret (Some (Errorf
                 ("Athena not found database: " +:+ dbName
                  +:+ ", query result: " +:+ text)))
   end).

Definition resourceAwsAthenaDatabaseRead (fuel : nat) (d : ResourceData)
    (conn : AthenaConn) : Handler (option error) :=
  (bucket ← must (asString (Get d "bucket"));
   encryption_configuration ←
     must (asList (Get d "encryption_configuration"));
   resultConfiguration ←
     must (expandAthenaResultConfiguration bucket encryption_configuration);
   let input :=
     StartQueryExecutionInput.mk (Some "show databases;")
                                 (Some resultConfiguration) in
   '(resp, err) ← submit conn input;
   match err with
   | Some e => hret (Some e)
   | None =>
       resp ← must resp;
       qeid ← must (StartQueryExecutionOutput.QueryExecutionId resp);
       name ← must (asString (Get d "name"));
       executeAndExpectMatchingRow fuel qeid name conn
   end).

Definition resourceAwsAthenaDatabaseUpdate (fuel : nat) (d : ResourceData)
    (conn : AthenaConn) : Handler (option error) :=
  resourceAwsAthenaDatabaseRead fuel d conn.

(** [d.SetId(id)]. *)
Definition SetId (d : ResourceData) (id : string) : ResourceData :=
  mkResourceData id (attributes d).

(** The create handler changes the resource data it is given; the embedding
    returns them with the handler's error. *)
Definition resourceAwsAthenaDatabaseCreate (fuel : nat) (d : ResourceData)
    (conn : AthenaConn) : Handler (ResourceData * option error) :=
  (name ← must (asString (Get d "name"));
   bucket ← must (asString (Get d "bucket"));
   encryption_configuration ←
     must (asList (Get d "encryption_configuration"));
   resultConfiguration ←
     must (expandAthenaResultConfiguration bucket encryption_configuration);
   let input :=
     StartQueryExecutionInput.mk
       (Some ("create database `" +:+ name +:+ "`;"))
       (Some resultConfiguration) in
   '(resp, err) ← submit conn input;
   match err with
   | Some e => hret (d, Some e)
   | None =>
       resp ← must resp;
       qeid ← must (StartQueryExecutionOutput.QueryExecutionId resp);
       err ← executeAndExpectNoRowsWhenCreate fuel qeid conn;
       match err with
       | Some e => hret (d, Some e)
       | None =>
           name ← must (asString (Get d "name"));
           let d := SetId d name in
           err ← resourceAwsAthenaDatabaseRead fuel d conn;
           hret (d, err)
       end
   end).

(** ** The Route53 health-check delete handler *)

Module route53.

Module DeleteHealthCheckInput.
Record t : Type := mk { HealthCheckId : option string }.
End DeleteHealthCheckInput.

Module DeleteHealthCheckOutput.
Record t : Type := mk { }.
End DeleteHealthCheckOutput.

(** The SDK's error code for a health check that does not exist. *)
Definition ErrCodeNoSuchHealthCheck : string := "NoSuchHealthCheck".

End route53.

Import route53.

Record Route53Conn : Type := mkRoute53Conn {
  DeleteHealthCheck :
    DeleteHealthCheckInput.t →
    option DeleteHealthCheckOutput.t * option error
}.

Section Route53HealthCheck.

(** The provider's helper [isAWSErr(err, code, message)] is defined
    elsewhere in the provider; the handler is read for any such helper. *)
Variable isAWSErr : option error → string → string → bool.

(** The debug log line the handler prints first has no effect on what it
    returns and is left out. *)
Definition resourceAwsRoute53HealthCheckDelete (d : ResourceData)
    (conn : Route53Conn) : option error :=
  let '(_, err) :=
    DeleteHealthCheck conn (DeleteHealthCheckInput.mk (Some (Id d))) in
  if isAWSErr err ErrCodeNoSuchHealthCheck "" then None
  else
    match err with
    | Some e =>
        Some (Wrapf ("error deleting Route53 Health Check (" +:+ Id d
                     +:+ "): ") e)
    | None => None
    end.

End Route53HealthCheck.

(** One reading of the helper: the error, or an error it wraps, is an SDK
    error with the given code whose message contains the given text. *)
Fixpoint asAwsErr (e : error) : option (string * string) :=
  match e with
  | AwsErr code message => Some (code, message)
  | Wrapf _ cause => asAwsErr cause
  | _ => None
  end.

Fixpoint hasPrefix (s p : string) : bool :=
  match p, s with
  | EmptyString, _ => true
  | String c p', String c' s' => Ascii.eqb c c' && hasPrefix s' p'
  | String _ _, EmptyString => false
  end.

(** [strings.Contains s sub], computed. *)
Fixpoint containsb (s sub : string) : bool :=
  hasPrefix s sub ||
  match s with
  | EmptyString => false
  | String _ s' => containsb s' sub
  end.

Definition isAWSErrByCode (err : option error) (code message : string)
    : bool :=
  match err ≫= asAwsErr with
  | Some (c, m) => String.eqb c code && containsb m message
  | None => false
  end.

(** ** Auxiliary notions the statements use *)

(** The invariant of a [PollSpec]: no status is both pending and target. *)
Definition disjointStatuses (spec : PollSpec) : Prop :=
  ∀ s : string, s ∈ pendingStatuses spec → s ∉ targetStatuses spec.

(** The probe call after [k] earlier ones returns [status] (and no error). *)
Definition returnsStatus {R} (probe : StatusProbe R) (k : nat)
    (status : string) : Prop :=
  ∃ result : R, probe k = (result, status, None).

(** The status record of an answer of the service, if it carries one. *)
Definition statusContainer (out : option GetQueryExecutionOutput.t)
    : option QueryExecutionStatus.t :=
  match out with
  | Some o =>
      match GetQueryExecutionOutput.QueryExecution o with
      | Some qe => QueryExecution.Status qe
      | None => None
      end
  | None => None
  end.

(** The wait of [queryExecutionResult] on its own: the session's
    configuration, and its run against a connection. *)
Definition athenaSpec (qeid : string) (conn : AthenaConn) : PollSpec :=
  resource.pollSpec (executionStateConf qeid conn).

Definition waitForQuery (fuel : nat) (qeid : string) (conn : AthenaConn)
    : option (PollRun (option GetQueryExecutionOutput.t)) :=
  resource.WaitForState (GetQueryExecutionTime conn) fuel
    (executionStateConf qeid conn).

(** Handler code that submits no query. *)
Definition silent {A} (m : Handler A) : Prop := ∀ log, fst (m log) = log.

(** The drop statement for a database, with or without the cascade clause:
    the text the delete handler's query is compared with. *)
Definition dropDatabase (name : string) (force_destroy : bool) : string :=
  if force_destroy then "drop database `" +:+ name +:+ "` cascade;"
  else "drop database `" +:+ name +:+ "`;".

(** The schema's check of [name]: the regular expression [^[_a-z0-9]+$]. *)
Definition nameChar (c : Ascii.ascii) : bool :=
  let n := Ascii.nat_of_ascii c in
  (n =? 95)%nat || ((97 <=? n)%nat && (n <=? 122)%nat)
  || ((48 <=? n)%nat && (n <=? 57)%nat).

Definition validName (name : string) : bool :=
  (0 <? String.length name)%nat
  && forallb nameChar (String.list_ascii_of_string name).

(** ** Scripted connections, for the worked examples *)

(** An answer of the service carrying a status record. *)
Definition statusAnswer (state reason : option string)
    : option GetQueryExecutionOutput.t * option error :=
  (Some (GetQueryExecutionOutput.mk
           (Some (QueryExecution.mk
                    (Some (QueryExecutionStatus.mk state reason))))),
   None).

(** A connection that answers the status requests from [script], then with
    [after] for ever; each request takes no time, a submitted query gets the
    id [q-1] and its result set is empty. *)
Definition scriptedConn
    (script : list (option GetQueryExecutionOutput.t * option error))
    (after : option GetQueryExecutionOutput.t * option error) : AthenaConn :=
  mkAthenaConn
    (λ _, (Some (StartQueryExecutionOutput.mk (Some "q-1")), None))
    (λ k _, nth k script after)
    (λ _, 0%N)
    (λ _, (Some (GetQueryResultsOutput.mk (Some (ResultSet.mk []))), None)).

(** The spec's scenario: QUEUED, RUNNING, then SUCCEEDED. *)
Definition threeStepQuery : AthenaConn :=
  scriptedConn [statusAnswer (Some "QUEUED") None;
                statusAnswer (Some "RUNNING") None]
               (statusAnswer (Some "SUCCEEDED") None).


(** A query that never leaves RUNNING. *)
Definition stuckQuery : AthenaConn :=
  scriptedConn [] (statusAnswer (Some "RUNNING") None).

(** RUNNING, then FAILED with no reason attached. *)
Definition failedQuery : AthenaConn :=
  scriptedConn [statusAnswer (Some "RUNNING") None]
               (statusAnswer (Some "FAILED") None).

(** The spec's scenario: RUNNING, then FAILED with a reason. *)
Definition syntaxErrorQuery : AthenaConn :=
  scriptedConn [statusAnswer (Some "RUNNING") None]
               (statusAnswer (Some "FAILED") (Some "syntax error")).

(** RUNNING, then a status request the service refuses. *)
Definition throttledQuery : AthenaConn :=
  scriptedConn [statusAnswer (Some "RUNNING") None]
               (None, Some (AwsErr "ThrottlingException" "Rate exceeded")).

(** Two answers without a status record (no output at all, then an output
    with no query execution in it), then SUCCEEDED. *)
Definition lateStatusQuery : AthenaConn :=
  scriptedConn [(None, None);
                (Some (GetQueryExecutionOutput.mk None), None)]
               (statusAnswer (Some "SUCCEEDED") None).

(** RUNNING, then an answer without a status record, then SUCCEEDED. *)
Definition interruptedQuery : AthenaConn :=
  scriptedConn [statusAnswer (Some "RUNNING") None; (None, None)]
               (statusAnswer (Some "SUCCEEDED") None).


Definition kmsBlock (keyType keyID : string) : Value :=
  VMap (<["kms_key" := VString keyID]>
          (<["encryption_option" := VString keyType]> ∅)).

Definition databaseData (name : string) (force_destroy : bool)
    (bucket : string) (encryption : list Value) : ResourceData :=
  mkResourceData name
    (<["name" := VString name]>
       (<["force_destroy" := VBool force_destroy]>
          (<["bucket" := VString bucket]>
             (<["encryption_configuration" := VList encryption]> ∅)))).

Definition failingRoute53 (e : error) : Route53Conn :=
  mkRoute53Conn (λ _, (None, Some e)).

(** ** The other handlers of the Route53 health check *)

(** The SDK's Route53 types, with the fields the handlers touch, and the
    SDK's constants the handlers compare with. *)
Module r53.

Module AlarmIdentifier.
Record t : Type := mk {
  Name : option string;
  Region : option string
}.
End AlarmIdentifier.

Module HealthCheckConfig.
Record t : Type := mk {
  Type' : option string;
  RequestInterval : option Z;
  FailureThreshold : option Z;
  FullyQualifiedDomainName : option string;
  SearchString : option string;
  IPAddress : option string;
  Port : option Z;
  ResourcePath : option string;
  MeasureLatency : option bool;
  Inverted : option bool;
  EnableSNI : option bool;
  ChildHealthChecks : option (list (option string));
  HealthThreshold : option Z;
  AlarmIdentifier : option AlarmIdentifier.t;
  InsufficientDataHealthStatus : option string;
  Regions : option (list (option string));
  Disabled : option bool
}.
End HealthCheckConfig.

Module CreateHealthCheckInput.
Record t : Type := mk {
  CallerReference : option string;
  HealthCheckConfig : option HealthCheckConfig.t
}.
End CreateHealthCheckInput.

Module HealthCheck.
Record t : Type := mk {
  Id : option string;
  HealthCheckConfig : option HealthCheckConfig.t
}.
End HealthCheck.

Module CreateHealthCheckOutput.
Record t : Type := mk { HealthCheck : option HealthCheck.t }.
End CreateHealthCheckOutput.

Module GetHealthCheckInput.
Record t : Type := mk { HealthCheckId : option string }.
End GetHealthCheckInput.

Module GetHealthCheckOutput.
Record t : Type := mk { HealthCheck : option HealthCheck.t }.
End GetHealthCheckOutput.

Module UpdateHealthCheckInput.
Record t : Type := mk {
  HealthCheckId : option string;
  FailureThreshold : option Z;
  FullyQualifiedDomainName : option string;
  Port : option Z;
  ResourcePath : option string;
  Inverted : option bool;
  ChildHealthChecks : option (list (option string));
  HealthThreshold : option Z;
  SearchString : option string;
  AlarmIdentifier : option AlarmIdentifier.t;
  InsufficientDataHealthStatus : option string;
  EnableSNI : option bool;
  Regions : option (list (option string));
  Disabled : option bool
}.
End UpdateHealthCheckInput.

Module ARN.
Record t : Type := mk {
  Partition : string;
  Service : string;
  Region : string;
  AccountID : string;
  Resource : string
}.
End ARN.

Definition HealthCheckTypeCalculated : string := "CALCULATED".
Definition HealthCheckTypeCloudwatchMetric : string := "CLOUDWATCH_METRIC".
Definition TagResourceTypeHealthcheck : string := "healthcheck".

End r53.

Section Route53Handlers.

(** The provider's tag collections, the plain maps they are stored as, and
    the schema's sets: types of packages the handlers only pass around. *)
Variable Tags TagMap SchemaSet : Type.

(** What a handler hands to [d.Set]. *)
Inductive SetArg : Type :=
  | ArgString (s : string)
  | ArgStringPtr (p : option string)
  | ArgInt64Ptr (p : option Z)
  | ArgBoolPtr (p : option bool)
  | ArgList (l : list Value)
  | ArgTagMap (m : TagMap).

(** The tags arguments of [keyvaluetags.Route53UpdateTags]: nil, a tag
    collection, or a value read from the resource data. *)
Inductive TagsArg : Type :=
  | TagsNil
  | TagsOf (tags : Tags)
  | TagsValue (v : Value).

(** The functions of the plugin SDK and of the provider's own packages that
    the handlers call and these files do not define; the handlers are read
    for any such functions.  [mergedTags] is
    [defaultTagsConfig.MergeTags(keyvaluetags.New(_))], [ignoreTags] is
    [_.IgnoreAws().IgnoreConfig(ignoreTagsConfig)], [withoutDefaults] is
    [_.RemoveDefaultConfig(defaultTagsConfig).Map()] and [tagMap] is
    [_.Map()]; [partition] is the client's partition. *)
Record Provider : Type := mkProvider {
  GetOk : ResourceData → string → Value * bool;
  HasChange : ResourceData → string → bool;
  HasChanges : ResourceData → list string → bool;
  GetChange : ResourceData → string → Value * Value;
  Set' : ResourceData → string → SetArg → ResourceData * option error;
  asSet : Value → option SchemaSet;
  expandStringSet : SchemaSet → list (option string);
  flattenStringList : option (list (option string)) → list Value;
  mergedTags : gmap string Value → Tags;
  ignoreTags : Tags → Tags;
  withoutDefaults : Tags → TagMap;
  tagMap : Tags → TagMap;
  UniqueId : string;
  partition : string;
  ARNString : r53.ARN.t → string;
  isAWSErr : option error → string → string → bool
}.

(** The remote service: [CreateHealthCheck] and [GetHealthCheck] return the
    SDK's pair, [UpdateHealthCheck] the error alone, since the handler drops
    its output, and the two tag operations of [keyvaluetags] what these
    return. *)
Record Route53Api : Type := mkRoute53Api {
  CreateHealthCheck :
    r53.CreateHealthCheckInput.t →
    option r53.CreateHealthCheckOutput.t * option error;
  UpdateHealthCheck : r53.UpdateHealthCheckInput.t → option error;
  GetHealthCheck :
    r53.GetHealthCheckInput.t →
    option r53.GetHealthCheckOutput.t * option error;
  Route53UpdateTags : string → string → TagsArg → TagsArg → option error;
  Route53ListTags : string → string → Tags * option error
}.

(** The calls a handler has made, in order. *)
Inductive Route53Call : Type :=
  | CallCreateHealthCheck (input : r53.CreateHealthCheckInput.t)
  | CallUpdateHealthCheck (input : r53.UpdateHealthCheckInput.t)
  | CallGetHealthCheck (input : r53.GetHealthCheckInput.t)
  | CallUpdateTags (id kind : string) (old new : TagsArg)
  | CallListTags (id kind : string).

(** Handler code threads the resource data, which it changes in place, and
    the calls made so far. *)
Definition Route53Handler (A : Type) : Type :=
  ResourceData * list Route53Call →
  (ResourceData * list Route53Call) * Exec A.

Definition rret {A} (a : A) : Route53Handler A := λ st, (st, Done a).

Definition rbind {A B} (m : Route53Handler A) (k : A → Route53Handler B)
    : Route53Handler B :=
  λ st,
    match m st with
    | (st', Done a) => k a st'
    | (st', Panic) => (st', Panic)
    | (st', OutOfFuel) => (st', OutOfFuel)
    end.

#[global] Instance Route53Handler_ret : MRet Route53Handler := @rret.
#[global] Instance Route53Handler_bind : MBind Route53Handler :=
  λ A B k m, rbind m k.

(** A value that must be there: [None] panics. *)
Definition rmust {A} (o : option A) : Route53Handler A :=
  λ st, (st, match o with Some a => Done a | None => Panic end).

(** The resource data as they are now. *)
Definition data : Route53Handler ResourceData := λ st, (st, Done (fst st)).

(** [d.SetId(id)]. *)
Definition setId (id : string) : Route53Handler unit :=
  λ st, ((SetId (fst st) id, snd st), Done tt).

(** [d.Set(key, value)] and the error it returns. *)
Definition set (P : Provider) (key : string) (value : SetArg)
    : Route53Handler (option error) :=
  λ st, let '(d, err) := Set' P (fst st) key value in ((d, snd st), Done err).

(** A call of the service, recorded. *)
Definition call {A} (c : Route53Call) (answer : A) : Route53Handler A :=
  λ st, ((fst st, snd st ++ [c]), Done answer).

(** [v.(int)], widened to [int64]. *)
Definition asInt (v : Value) : option Z :=
  match v with VInt z => Some z | _ => None end.

(** [if v, ok := d.GetOk(key); ok { field = conv(v) }]: the field stays nil
    when [ok] is false, and a failed assertion inside [conv] panics. *)
Definition okField {T} (conv : Value → option T) (vok : Value * bool)
    : option (option T) :=
  if snd vok then Some <$> conv (fst vok) else Some None.

(** [if d.HasChange(key) { field = conv(d.Get(key)) }]. *)
Definition changedField {T} (conv : Value → option T) (changed : bool)
    (v : Value) : option (option T) :=
  if changed then Some <$> conv v else Some None.

Definition resourceAwsRoute53HealthCheckRead (P : Provider)
    (conn : Route53Api) : Route53Handler (option error) :=
  d ← data;
  let input := r53.GetHealthCheckInput.mk (Some (Id d)) in
  '(read, err) ← call (CallGetHealthCheck input) (GetHealthCheck conn input);
  match err with
  | Some e =>
      if isAWSErr P err ErrCodeNoSuchHealthCheck ""
      then _ ← setId ""; rret None
      else rret (Some e)
  | None =>
      match read with
      | None => rret None
      | Some read =>
          healthCheck ← rmust (r53.GetHealthCheckOutput.HealthCheck read);
          updated ← rmust (r53.HealthCheck.HealthCheckConfig healthCheck);
          _ ← set P "type"
                (ArgStringPtr (r53.HealthCheckConfig.Type' updated));
          _ ← set P "failure_threshold"
                (ArgInt64Ptr (r53.HealthCheckConfig.FailureThreshold updated));
          _ ← set P "request_interval"
                (ArgInt64Ptr (r53.HealthCheckConfig.RequestInterval updated));
          _ ← set P "fqdn"
                (ArgStringPtr
                   (r53.HealthCheckConfig.FullyQualifiedDomainName updated));
          _ ← set P "search_string"
                (ArgStringPtr (r53.HealthCheckConfig.SearchString updated));
          _ ← set P "ip_address"
                (ArgStringPtr (r53.HealthCheckConfig.IPAddress updated));
          _ ← set P "port" (ArgInt64Ptr (r53.HealthCheckConfig.Port updated));
          _ ← set P "resource_path"
                (ArgStringPtr (r53.HealthCheckConfig.ResourcePath updated));
          _ ← set P "measure_latency"
                (ArgBoolPtr (r53.HealthCheckConfig.MeasureLatency updated));
          _ ← set P "invert_healthcheck"
                (ArgBoolPtr (r53.HealthCheckConfig.Inverted updated));
          _ ← set P "disabled"
                (ArgBoolPtr (r53.HealthCheckConfig.Disabled updated));
          err ← set P "child_healthchecks"
                  (ArgList
                     (flattenStringList P
                        (r53.HealthCheckConfig.ChildHealthChecks updated)));
          match err with
          | Some e => rret (Some (Wrapf "error setting child_healthchecks: " e))
          | None =>
              _ ← set P "child_health_threshold"
                    (ArgInt64Ptr
                       (r53.HealthCheckConfig.HealthThreshold updated));
              _ ← set P "insufficient_data_health_status"
                    (ArgStringPtr
                       (r53.HealthCheckConfig.InsufficientDataHealthStatus
                          updated));
              _ ← set P "enable_sni"
                    (ArgBoolPtr (r53.HealthCheckConfig.EnableSNI updated));
              _ ← set P "regions"
                    (ArgList
                       (flattenStringList P
                          (r53.HealthCheckConfig.Regions updated)));
              _ ← match r53.HealthCheckConfig.AlarmIdentifier updated with
                  | Some alarm =>
                      _ ← set P "cloudwatch_alarm_name"
                            (ArgStringPtr (r53.AlarmIdentifier.Name alarm));
                      set P "cloudwatch_alarm_region"
                        (ArgStringPtr (r53.AlarmIdentifier.Region alarm))
                  | None => rret None
                  end;
              d ← data;
              '(tags, err) ←
                call (CallListTags (Id d) r53.TagResourceTypeHealthcheck)
                     (Route53ListTags conn (Id d)
                        r53.TagResourceTypeHealthcheck);
              match err with
              | Some e =>
                  rret (Some (Wrapf
                          ("error listing tags for Route53 Health Check ("
                           +:+ Id d +:+ "): ") e))
              | None =>
                  let tags := ignoreTags P tags in
                  err ← set P "tags" (ArgTagMap (withoutDefaults P tags));
                  match err with
                  | Some e => rret (Some (Wrapf "error setting tags: " e))
                  | None =>
                      err ← set P "tags_all" (ArgTagMap (tagMap P tags));
                      match err with
                      | Some e =>
                          rret (Some (Wrapf "error setting tags_all: " e))
                      | None =>
                          d ← data;
                          let arn :=
                            ARNString P
                              (r53.ARN.mk (partition P) "route53" "" ""
                                 ("healthcheck/" +:+ Id d)) in
                          _ ← set P "arn" (ArgString arn);
                          rret None
                      end
                  end
              end
          end
      end
  end.

Definition resourceAwsRoute53HealthCheckUpdate (P : Provider)
    (conn : Route53Api) : Route53Handler (option error) :=
  d ← data;
  FailureThreshold ←
    rmust (changedField asInt (HasChange P d "failure_threshold")
             (Get d "failure_threshold"));
  FullyQualifiedDomainName ←
    rmust (changedField asString (HasChange P d "fqdn") (Get d "fqdn"));
  Port ← rmust (changedField asInt (HasChange P d "port") (Get d "port"));
  ResourcePath ←
    rmust (changedField asString (HasChange P d "resource_path")
             (Get d "resource_path"));
  Inverted ←
    rmust (changedField asBool (HasChange P d "invert_healthcheck")
             (Get d "invert_healthcheck"));
  ChildHealthChecks ←
    rmust (changedField (λ v, expandStringSet P <$> asSet P v)
             (HasChange P d "child_healthchecks")
             (Get d "child_healthchecks"));
  HealthThreshold ←
    rmust (changedField asInt (HasChange P d "child_health_threshold")
             (Get d "child_health_threshold"));
  SearchString ←
    rmust (changedField asString (HasChange P d "search_string")
             (Get d "search_string"));
  AlarmIdentifier ←
    rmust (if HasChanges P d ["cloudwatch_alarm_name";
                              "cloudwatch_alarm_region"]
           then
             name ← asString (Get d "cloudwatch_alarm_name");
             region ← asString (Get d "cloudwatch_alarm_region");
             Some (Some (r53.AlarmIdentifier.mk (Some name) (Some region)))
           else Some None);
  InsufficientDataHealthStatus ←
    rmust (changedField asString
             (HasChange P d "insufficient_data_health_status")
             (Get d "insufficient_data_health_status"));
  EnableSNI ←
    rmust (changedField asBool (HasChange P d "enable_sni")
             (Get d "enable_sni"));
  Regions ←
    rmust (changedField (λ v, expandStringSet P <$> asSet P v)
             (HasChange P d "regions") (Get d "regions"));
  Disabled ←
    rmust (changedField asBool (HasChange P d "disabled")
             (Get d "disabled"));
  let updateHealthCheck :=
    r53.UpdateHealthCheckInput.mk (Some (Id d)) FailureThreshold
      FullyQualifiedDomainName Port ResourcePath Inverted ChildHealthChecks
      HealthThreshold SearchString AlarmIdentifier
      InsufficientDataHealthStatus EnableSNI Regions Disabled in
  err ← call (CallUpdateHealthCheck updateHealthCheck)
             (UpdateHealthCheck conn updateHealthCheck);
  match err with
  | Some e => rret (Some e)
  | None =>
      err ← (if HasChange P d "tags_all"
             then
               let '(o, n) := GetChange P d "tags_all" in
               call (CallUpdateTags (Id d) r53.TagResourceTypeHealthcheck
                       (TagsValue o) (TagsValue n))
                    (Route53UpdateTags conn (Id d)
                       r53.TagResourceTypeHealthcheck
                       (TagsValue o) (TagsValue n))
             else rret None);
      match err with
      | Some e =>
          rret (Some (Wrapf ("error updating Route53 Health Check ("
                             +:+ Id d +:+ ") tags: ") e))
      | None => resourceAwsRoute53HealthCheckRead P conn
      end
  end.

Definition resourceAwsRoute53HealthCheckCreate (P : Provider)
    (conn : Route53Api) : Route53Handler (option error) :=
  d ← data;
  tags ← rmust (mergedTags P <$> asMap (Get d "tags"));
  type ← rmust (asString (Get d "type"));
  RequestInterval ← rmust (okField asInt (GetOk P d "request_interval"));
  FailureThreshold ← rmust (okField asInt (GetOk P d "failure_threshold"));
  FullyQualifiedDomainName ← rmust (okField asString (GetOk P d "fqdn"));
  SearchString ← rmust (okField asString (GetOk P d "search_string"));
  IPAddress ← rmust (okField asString (GetOk P d "ip_address"));
  Port ← rmust (okField asInt (GetOk P d "port"));
  ResourcePath ← rmust (okField asString (GetOk P d "resource_path"));
  MeasureLatency ←
    rmust (if negb (String.eqb type r53.HealthCheckTypeCalculated)
              && negb (String.eqb type r53.HealthCheckTypeCloudwatchMetric)
           then okField asBool (GetOk P d "measure_latency")
           else Some None);
  Inverted ← rmust (okField asBool (GetOk P d "invert_healthcheck"));
  EnableSNI ← rmust (okField asBool (GetOk P d "enable_sni"));
  '(ChildHealthChecks, HealthThreshold) ←
    rmust (if String.eqb type r53.HealthCheckTypeCalculated
           then
             checks ← okField (λ v, expandStringSet P <$> asSet P v)
                        (GetOk P d "child_healthchecks");
             threshold ← okField asInt (GetOk P d "child_health_threshold");
             Some (checks, threshold)
           else Some (None, None));
  '(AlarmIdentifier, InsufficientDataHealthStatus) ←
    rmust (if String.eqb type r53.HealthCheckTypeCloudwatchMetric
           then
             name ← okField asString (GetOk P d "cloudwatch_alarm_name");
             region ← okField asString (GetOk P d "cloudwatch_alarm_region");
             status ← okField asString
                        (GetOk P d "insufficient_data_health_status");
             Some (Some (r53.AlarmIdentifier.mk name region), status)
           else Some (None, None));
  Regions ←
    rmust (okField (λ v, expandStringSet P <$> asSet P v)
             (GetOk P d "regions"));
  let callerRef := UniqueId P in
  reference_name ← rmust (okField asString (GetOk P d "reference_name"));
  let callerRef :=
    match reference_name with
    | Some v => v +:+ "-" +:+ callerRef
    | None => callerRef
    end in
  Disabled ← rmust (okField asBool (GetOk P d "disabled"));
  let healthConfig :=
    r53.HealthCheckConfig.mk (Some type) RequestInterval FailureThreshold
      FullyQualifiedDomainName SearchString IPAddress Port ResourcePath
      MeasureLatency Inverted EnableSNI ChildHealthChecks HealthThreshold
      AlarmIdentifier InsufficientDataHealthStatus Regions Disabled in
  let input :=
    r53.CreateHealthCheckInput.mk (Some callerRef) (Some healthConfig) in
  '(resp, err) ←
    call (CallCreateHealthCheck input) (CreateHealthCheck conn input);
  match err with
  | Some e => rret (Some e)
  | None =>
      resp ← rmust resp;
      healthCheck ← rmust (r53.CreateHealthCheckOutput.HealthCheck resp);
      _ ← setId (StringValue (r53.HealthCheck.Id healthCheck));
      d ← data;
      err ← call (CallUpdateTags (Id d) r53.TagResourceTypeHealthcheck
                    TagsNil (TagsOf tags))
                 (Route53UpdateTags conn (Id d)
                    r53.TagResourceTypeHealthcheck TagsNil (TagsOf tags));
      match err with
      | Some e =>
          rret (Some (Wrapf ("error setting Route53 Health Check ("
                             +:+ Id d +:+ ") tags: ") e))
      | None => resourceAwsRoute53HealthCheckRead P conn
      end
  end.

End Route53Handlers.

Arguments ArgString {TagMap} s.
Arguments ArgStringPtr {TagMap} p.
Arguments ArgInt64Ptr {TagMap} p.
Arguments ArgBoolPtr {TagMap} p.
Arguments ArgList {TagMap} l.
Arguments ArgTagMap {TagMap} m.
Arguments TagsNil {Tags}.
Arguments TagsOf {Tags} tags.
Arguments TagsValue {Tags} v.
Arguments GetOk {Tags TagMap SchemaSet} p d key.
Arguments HasChange {Tags TagMap SchemaSet} p d key.
Arguments HasChanges {Tags TagMap SchemaSet} p d keys.
Arguments GetChange {Tags TagMap SchemaSet} p d key.
Arguments Set' {Tags TagMap SchemaSet} p d key value.
Arguments asSet {Tags TagMap SchemaSet} p v.
Arguments expandStringSet {Tags TagMap SchemaSet} p s.
Arguments flattenStringList {Tags TagMap SchemaSet} p l.
Arguments mergedTags {Tags TagMap SchemaSet} p m.
Arguments ignoreTags {Tags TagMap SchemaSet} p tags.
Arguments withoutDefaults {Tags TagMap SchemaSet} p tags.
Arguments tagMap {Tags TagMap SchemaSet} p tags.
Arguments UniqueId {Tags TagMap SchemaSet} p.
Arguments partition {Tags TagMap SchemaSet} p.
Arguments ARNString {Tags TagMap SchemaSet} p arn.
Arguments isAWSErr {Tags TagMap SchemaSet} p err code message.
Arguments CreateHealthCheck {Tags} r input.
Arguments UpdateHealthCheck {Tags} r input.
Arguments GetHealthCheck {Tags} r input.
Arguments Route53UpdateTags {Tags} r id kind old new.
Arguments Route53ListTags {Tags} r id kind.
Arguments CallCreateHealthCheck {Tags} input.
Arguments CallUpdateHealthCheck {Tags} input.
Arguments CallGetHealthCheck {Tags} input.
Arguments CallUpdateTags {Tags} id kind old new.
Arguments CallListTags {Tags} id kind.
Arguments rret {Tags A} a _.
Arguments rbind {Tags A B} m k _.
Arguments rmust {Tags A} o _.
Arguments data {Tags} _.
Arguments setId {Tags} id _.
Arguments set {Tags TagMap SchemaSet} P key value _.
Arguments call {Tags A} c answer _.
Arguments resourceAwsRoute53HealthCheckRead {Tags TagMap SchemaSet} P conn _.
Arguments resourceAwsRoute53HealthCheckUpdate {Tags TagMap SchemaSet} P conn _.
Arguments resourceAwsRoute53HealthCheckCreate {Tags TagMap SchemaSet} P conn _.

(** ** Notions the properties of the health-check handlers use *)

(** The request that reads the health check of the resource data. *)
Definition getInput (d : ResourceData) : r53.GetHealthCheckInput.t :=
  r53.GetHealthCheckInput.mk (Some (Id d)).

(** The fields of a configuration that belong to one type of health check
    only: latency measuring to the endpoint checks, the child checks to the
    calculated ones, the alarm to the CloudWatch ones. *)
Definition exclusiveFields (type : string) (cfg : r53.HealthCheckConfig.t)
    : Prop :=
  (type = r53.HealthCheckTypeCalculated →
     r53.HealthCheckConfig.MeasureLatency cfg = None
     ∧ r53.HealthCheckConfig.AlarmIdentifier cfg = None
     ∧ r53.HealthCheckConfig.InsufficientDataHealthStatus cfg = None)
  ∧ (type = r53.HealthCheckTypeCloudwatchMetric →
       r53.HealthCheckConfig.MeasureLatency cfg = None
       ∧ r53.HealthCheckConfig.ChildHealthChecks cfg = None
       ∧ r53.HealthCheckConfig.HealthThreshold cfg = None
       ∧ r53.HealthCheckConfig.AlarmIdentifier cfg ≠ None)
  ∧ (type ≠ r53.HealthCheckTypeCalculated →
     type ≠ r53.HealthCheckTypeCloudwatchMetric →
       r53.HealthCheckConfig.ChildHealthChecks cfg = None
       ∧ r53.HealthCheckConfig.HealthThreshold cfg = None
       ∧ r53.HealthCheckConfig.AlarmIdentifier cfg = None
       ∧ r53.HealthCheckConfig.InsufficientDataHealthStatus cfg = None).

(** The caller reference of a creation: the unique id, after the reference
    name and a dash when the resource data have one. *)
Definition callerReference {Tags TagMap SchemaSet}
    (P : Provider Tags TagMap SchemaSet) (d : ResourceData)
    (ref : string) : Prop :=
  (snd (GetOk P d "reference_name") = false ∧ ref = UniqueId P)
  ∨ (∃ v, snd (GetOk P d "reference_name") = true
          ∧ asString (fst (GetOk P d "reference_name")) = Some v
          ∧ ref = v +:+ "-" +:+ UniqueId P).

(** The longest reference name the schema accepts: [64 -
    resource.UniqueIDSuffixLength - 11], for whatever length of suffix the
    SDK declares. *)
Definition referenceNameLimit (UniqueIDSuffixLength : Z) : Z :=
  64 - UniqueIDSuffixLength - 11.

(** The update request carries a field only if its attribute changed. *)
Definition onlyChanged {Tags TagMap SchemaSet}
    (P : Provider Tags TagMap SchemaSet) (d : ResourceData)
    (input : r53.UpdateHealthCheckInput.t) : Prop :=
  (r53.UpdateHealthCheckInput.FailureThreshold input ≠ None
     ↔ HasChange P d "failure_threshold" = true)
  ∧ (r53.UpdateHealthCheckInput.FullyQualifiedDomainName input ≠ None
       ↔ HasChange P d "fqdn" = true)
  ∧ (r53.UpdateHealthCheckInput.Port input ≠ None
       ↔ HasChange P d "port" = true)
  ∧ (r53.UpdateHealthCheckInput.ResourcePath input ≠ None
       ↔ HasChange P d "resource_path" = true)
  ∧ (r53.UpdateHealthCheckInput.Inverted input ≠ None
       ↔ HasChange P d "invert_healthcheck" = true)
  ∧ (r53.UpdateHealthCheckInput.ChildHealthChecks input ≠ None
       ↔ HasChange P d "child_healthchecks" = true)
  ∧ (r53.UpdateHealthCheckInput.HealthThreshold input ≠ None
       ↔ HasChange P d "child_health_threshold" = true)
  ∧ (r53.UpdateHealthCheckInput.SearchString input ≠ None
       ↔ HasChange P d "search_string" = true)
  ∧ (r53.UpdateHealthCheckInput.AlarmIdentifier input ≠ None
       ↔ HasChanges P d ["cloudwatch_alarm_name";
                         "cloudwatch_alarm_region"] = true)
  ∧ (r53.UpdateHealthCheckInput.InsufficientDataHealthStatus input ≠ None
       ↔ HasChange P d "insufficient_data_health_status" = true)
  ∧ (r53.UpdateHealthCheckInput.EnableSNI input ≠ None
       ↔ HasChange P d "enable_sni" = true)
  ∧ (r53.UpdateHealthCheckInput.Regions input ≠ None
       ↔ HasChange P d "regions" = true)
  ∧ (r53.UpdateHealthCheckInput.Disabled input ≠ None
       ↔ HasChange P d "disabled" = true).

(** The texts in front of the errors [resourceAwsRoute53HealthCheckRead]
    wraps. *)
Definition readWrapTexts (id : string) : list string :=
  [ "error setting child_healthchecks: ";
    "error listing tags for Route53 Health Check (" +:+ id +:+ "): ";
    "error setting tags: ";
    "error setting tags_all: " ].

(** ** Fixtures for the health-check handlers *)

(** The zero value of its type, as [GetOk] tests it. *)
Definition zeroValue (v : Value) : bool :=
  match v with
  | VNil => true
  | VString s => String.eqb s ""
  | VBool b => negb b
  | VInt z => Z.eqb z 0
  | VList l => match l with [] => true | _ => false end
  | VMap m => match map_to_list m with [] => true | _ => false end
  end.

Definition storedValue (a : SetArg (list (string * Value))) : Value :=
  match a with
  | ArgString s => VString s
  | ArgStringPtr p => from_option VString VNil p
  | ArgInt64Ptr p => from_option VInt VNil p
  | ArgBoolPtr p => from_option VBool VNil p
  | ArgList l => VList l
  | ArgTagMap m => VMap (list_to_map m)
  end.

(** A plain provider: tags are lists of pairs, sets are lists, an attribute
    is set when its value is not the zero value, [d.Set] stores the value
    and never fails, and the attributes of [changed] have changed. *)
Definition plainProvider (changed : list string)
    : Provider (list (string * Value)) (list (string * Value))
        (list (option string)) :=
  {| GetOk := λ d key, (Get d key, negb (zeroValue (Get d key)));
     HasChange := λ d key, bool_decide (key ∈ changed);
     HasChanges := λ d keys, existsb (λ key, bool_decide (key ∈ changed)) keys;
     GetChange := λ d key, (VNil, Get d key);
     Set' := λ d key value,
       (mkResourceData (Id d) (<[key := storedValue value]> (attributes d)),
        None);
     asSet := λ v,
       match v with
       | VList l => Some ((λ x, asString x) <$> l)
       | _ => None
       end;
     expandStringSet := λ s, s;
     flattenStringList := λ l,
       (λ p, VString (StringValue p)) <$> default [] l;
     mergedTags := λ m, map_to_list m;
     ignoreTags := λ tags, tags;
     withoutDefaults := λ tags, tags;
     tagMap := λ tags, tags;
     UniqueId := "terraform-20211031120000000000000001";
     partition := "aws";
     ARNString := λ a,
       "arn:" +:+ r53.ARN.Partition a +:+ ":" +:+ r53.ARN.Service a +:+ ":"
       +:+ r53.ARN.Region a +:+ ":" +:+ r53.ARN.AccountID a +:+ ":"
       +:+ r53.ARN.Resource a;
     isAWSErr := isAWSErrByCode |}.

(** The plain provider, except that [d.Set] fails with [e] for every
    attribute other than [child_healthchecks], [tags] and [tags_all]. *)
Definition pickyProvider (e : error)
    : Provider (list (string * Value)) (list (string * Value))
        (list (option string)) :=
  {| GetOk := GetOk (plainProvider []);
     HasChange := HasChange (plainProvider []);
     HasChanges := HasChanges (plainProvider []);
     GetChange := GetChange (plainProvider []);
     Set' := λ d key value,
       (d,
        if String.eqb key "child_healthchecks" || String.eqb key "tags"
           || String.eqb key "tags_all"
        then None else Some e);
     asSet := asSet (plainProvider []);
     expandStringSet := expandStringSet (plainProvider []);
     flattenStringList := flattenStringList (plainProvider []);
     mergedTags := mergedTags (plainProvider []);
     ignoreTags := ignoreTags (plainProvider []);
     withoutDefaults := withoutDefaults (plainProvider []);
     tagMap := tagMap (plainProvider []);
     UniqueId := UniqueId (plainProvider []);
     partition := partition (plainProvider []);
     ARNString := ARNString (plainProvider []);
     isAWSErr := isAWSErr (plainProvider []) |}.

(** A service that holds the one health check ["hc-1"] once it is created,
    with the configuration of the creation request. *)
Definition oneCheckService : Route53Api (list (string * Value)) :=
  {| CreateHealthCheck := λ input,
       (Some (r53.CreateHealthCheckOutput.mk
                (Some (r53.HealthCheck.mk (Some "hc-1")
                         (r53.CreateHealthCheckInput.HealthCheckConfig
                            input)))),
        None);
     UpdateHealthCheck := λ input, None;
     GetHealthCheck := λ input,
       if String.eqb
            (StringValue (r53.GetHealthCheckInput.HealthCheckId input)) "hc-1"
       then
         (Some (r53.GetHealthCheckOutput.mk
                  (Some (r53.HealthCheck.mk (Some "hc-1")
                           (Some (r53.HealthCheckConfig.mk (Some "HTTP")
                                    (Some 30%Z) (Some 3%Z)
                                    (Some "example.com") None None
                                    (Some 80%Z) (Some "/") None None None
                                    None None None None None None))))),
          None)
       else
         (None,
          Some (AwsErr "NoSuchHealthCheck" "No health check with that ID"));
     Route53UpdateTags := λ id kind old new, None;
     Route53ListTags := λ id kind, ([], None) |}.

(** A service that refuses every request with [e]. *)
Definition refusingService (e : error)
    : Route53Api (list (string * Value)) :=
  {| CreateHealthCheck := λ input, (None, Some e);
     UpdateHealthCheck := λ input, Some e;
     GetHealthCheck := λ input, (None, Some e);
     Route53UpdateTags := λ id kind old new, Some e;
     Route53ListTags := λ id kind, ([], Some e) |}.

(** A service that creates and updates health checks but cannot tag. *)
Definition untaggableService (e : error)
    : Route53Api (list (string * Value)) :=
  {| CreateHealthCheck := CreateHealthCheck oneCheckService;
     UpdateHealthCheck := UpdateHealthCheck oneCheckService;
     GetHealthCheck := GetHealthCheck oneCheckService;
     Route53UpdateTags := λ id kind old new, Some e;
     Route53ListTags := Route53ListTags oneCheckService |}.

(** Resource data of a health check. *)
Definition healthCheckData (id type : string)
    (more : list (string * Value)) : ResourceData :=
  mkResourceData id
    (<["type" := VString type]>
       (<["tags" := VMap ∅]> (list_to_map more))).

(** ** Notions the further properties use *)

(** The line feed [flattenAthenaResultSet] joins with. *)
Definition lineFeed : string := String (Ascii.ascii_of_nat 10) "".

(** Some datum of some row of the result set holds the name. *)
Definition holdsDatabase (rs : ResultSet.t) (dbName : string) : Prop :=
  ∃ (row : Row.t) (datum : Datum.t),
    Some row ∈ ResultSet.Rows rs
    ∧ Some datum ∈ Row.Data row
    ∧ StringValue (Datum.VarCharValue datum) = dbName.

(** Some row of the result set has a nil datum. *)
Definition hasNilDatum (rs : ResultSet.t) : Prop :=
  ∃ row : Row.t, Some row ∈ ResultSet.Rows rs ∧ None ∈ Row.Data row.

(** A result set with no nil pointer in it, from the texts of its cells (a
    nil text is a cell without a value). *)
Definition tableOf (cells : list (list (option string))) : ResultSet.t :=
  ResultSet.mk
    ((λ row, Some (Row.mk ((λ cell, Some (Datum.mk cell)) <$> row)))
       <$> cells).

(** The resource data of a database, typed as the schema says. *)
Definition databaseAttributes (d : ResourceData) (name : string)
    (force_destroy : bool) (bucket : string) (l : list Value) : Prop :=
  Get d "name" = VString name
  ∧ Get d "force_destroy" = VBool force_destroy
  ∧ Get d "bucket" = VString bucket
  ∧ Get d "encryption_configuration" = VList l
  ∧ Forall encryptionConfigurationElem l.

(** The number of occurrences of a character in a text. *)
Fixpoint countChar (c : Ascii.ascii) (s : string) : nat :=
  match s with
  | EmptyString => 0
  | String x s' => (if Ascii.eqb x c then 1 else 0) + countChar c s'
  end.

(** The three queries the handlers submit. *)
Definition createInput (name : string) (rc : ResultConfiguration.t)
    : StartQueryExecutionInput.t :=
  StartQueryExecutionInput.mk (Some ("create database `" +:+ name +:+ "`;"))
                              (Some rc).

Definition showInput (rc : ResultConfiguration.t)
    : StartQueryExecutionInput.t :=
  StartQueryExecutionInput.mk (Some "show databases;") (Some rc).

Definition dropInput (name : string) (force_destroy : bool)
    (rc : ResultConfiguration.t) : StartQueryExecutionInput.t :=
  StartQueryExecutionInput.mk (Some (dropDatabase name force_destroy))
                              (Some rc).

(** The service's answer to a submission it accepts under the id [qeid]. *)
Definition accepted (qeid : string)
    : option StartQueryExecutionOutput.t * option error :=
  (Some (StartQueryExecutionOutput.mk (Some qeid)), None).

(** A service that holds a list of databases.  A submitted query gets its
    own text as id and succeeds at the first status request; the result of
    [show databases;] has one row per database, any other result is
    empty. *)
Definition catalogConn (databases : list string) : AthenaConn :=
  mkAthenaConn
    (λ input,
       (Some (StartQueryExecutionOutput.mk
                (StartQueryExecutionInput.QueryString input)), None))
    (λ _ _, statusAnswer (Some "SUCCEEDED") None)
    (λ _, 0%N)
    (λ input,
       (Some (GetQueryResultsOutput.mk
                (Some (if String.eqb
                            (StringValue
                               (GetQueryResultsInput.QueryExecutionId input))
                            "show databases;"
                       then tableOf ((λ db, [Some db]) <$> databases)
                       else tableOf []))),
        None)).

(** A service on which every query succeeds at the first status request
    and has the given result set. *)
Definition resultConn (rs : option ResultSet.t) : AthenaConn :=
  mkAthenaConn
    (λ _, (Some (StartQueryExecutionOutput.mk (Some "q-1")), None))
    (λ _ _, statusAnswer (Some "SUCCEEDED") None)
    (λ _, 0%N)
    (λ _, (Some (GetQueryResultsOutput.mk rs), None)).

(** A service that refuses every query. *)
Definition refusingConn (e : error) : AthenaConn :=
  mkAthenaConn
    (λ _, (None, Some e))
    (λ _ _, (None, None))
    (λ _, 0%N)
    (λ _, (None, None)).

(** * Properties *)

(** ** Strings and status lists *)

Lemma stringInSlice_true (s : string) (l : list string) :
  stringInSlice s l = true ↔ s ∈ l.
Proof.
  unfold stringInSlice. rewrite existsb_exists. split.
  - intros (x & Hx & Heq). apply String.eqb_eq in Heq. subst x.
    by apply list_elem_of_In.
  - intros Hin. exists s. split; [by apply list_elem_of_In|].
    apply String.eqb_refl.
Qed.

Lemma stringInSlice_false (s : string) (l : list string) :
  stringInSlice s l = false ↔ s ∉ l.
Proof.
  rewrite <- stringInSlice_true.
  destruct (stringInSlice s l); split; congruence.
Qed.

(** ** [expandAthenaResultConfiguration] *)

Lemma expand_nil (bucket : string) :
  expandAthenaResultConfiguration bucket []
  = Some (ResultConfiguration.mk (Some ("s3://" +:+ bucket)) None).
Proof. reflexivity. Qed.

Lemma expand_cons (bucket : string) (data : gmap string Value)
    (rest : list Value) (keyType keyID : string) :
  data !! "encryption_option" = Some (VString keyType) →
  data !! "kms_key" = Some (VString keyID) →
  expandAthenaResultConfiguration bucket (VMap data :: rest)
  = Some (ResultConfiguration.mk (Some ("s3://" +:+ bucket))
            (Some (EncryptionConfiguration.mk (Some keyType)
                     (if (0 <? String.length keyID)%nat
                      then Some keyID else None)))).
Proof.
  intros Hopt Hkey. unfold expandAthenaResultConfiguration, index.
  cbn [length Nat.leb]. cbn. rewrite Hopt, Hkey. cbn.
  by destruct (String.length keyID).
Qed.

(** On a list that conforms to the schema the expansion does not panic. *)
Lemma expand_conforming (bucket : string) (l : list Value) :
  Forall encryptionConfigurationElem l →
  ∃ rc, expandAthenaResultConfiguration bucket l = Some rc.
Proof.
  intros [|v rest (data & keyType & keyID & -> & Hopt & Hkey) _].
  - eexists. apply expand_nil.
  - eexists. by eapply expand_cons.
Qed.

(** C8.  For every bucket and every list that conforms to the schema of
    [encryption_configuration], the expansion returns a configuration whose
    output location is ["s3://"] followed by the bucket; its encryption
    configuration is set exactly when the list is non-empty, and the KMS key
    in it is set, to the list's [kms_key], exactly when that string is
    non-empty. *)
Theorem expandAthenaResultConfiguration_fields
    (bucket : string) (l : list Value) :
  Forall encryptionConfigurationElem l →
  ∃ rc : ResultConfiguration.t,
    expandAthenaResultConfiguration bucket l = Some rc
    ∧ ResultConfiguration.OutputLocation rc = Some ("s3://" +:+ bucket)
    ∧ (is_Some (ResultConfiguration.EncryptionConfiguration rc) ↔ l ≠ [])
    ∧ ∀ (ec : EncryptionConfiguration.t) (keyID : string),
        ResultConfiguration.EncryptionConfiguration rc = Some ec →
        kmsKeyOf l = Some keyID →
        (is_Some (EncryptionConfiguration.KmsKey ec) ↔ keyID ≠ "")
        ∧ (keyID ≠ "" → EncryptionConfiguration.KmsKey ec = Some keyID).
Proof.
  intros Hl. destruct l as [|v rest].
  - eexists. split; [apply expand_nil|]. cbn. repeat split.
    + intros [? ?]. discriminate.
    + done.
    + discriminate.
    + discriminate.
    + discriminate.
  - apply Forall_cons in Hl as [(data & keyType & kid & -> & Hopt & Hkey) _].
    eexists. split; [by eapply expand_cons|].
    cbn. split; [done|]. split; [split; [done|by eauto]|].
    intros ec keyID [= <-]. unfold kmsKeyOf, index. cbn. rewrite Hkey. cbn.
    intros [= ->]. cbn.
    destruct keyID as [|c k]; cbn.
    + split; [split; [intros [? ?]; discriminate|done]|done].
    + split; [split; [done|by eauto]|done].
Qed.

Lemma expandAthenaResultConfiguration_fields_witness :
  ∃ rc : ResultConfiguration.t,
    expandAthenaResultConfiguration "logs" [kmsBlock "SSE_KMS" "key-1"]
    = Some rc
    ∧ ResultConfiguration.OutputLocation rc = Some "s3://logs"
    ∧ (is_Some (ResultConfiguration.EncryptionConfiguration rc)
       ↔ [kmsBlock "SSE_KMS" "key-1"] ≠ [])
    ∧ ∀ (ec : EncryptionConfiguration.t) (keyID : string),
        ResultConfiguration.EncryptionConfiguration rc = Some ec →
        kmsKeyOf [kmsBlock "SSE_KMS" "key-1"] = Some keyID →
        (is_Some (EncryptionConfiguration.KmsKey ec) ↔ keyID ≠ "")
        ∧ (keyID ≠ "" → EncryptionConfiguration.KmsKey ec = Some keyID).
Proof.
  apply (expandAthenaResultConfiguration_fields "logs"
           [kmsBlock "SSE_KMS" "key-1"]).
  constructor; [|constructor].
  eexists _, "SSE_KMS", "key-1". split; [reflexivity|].
  split; reflexivity.
Defined.

(** ** The poll loop *)

Section PollLoop.

Context {R : Type}.
Variable spec : PollSpec.
Variable probe : StatusProbe R.
Variable latency : nat → N.

#[local] Abbreviation loop := (pollLoop spec probe latency).
#[local] Abbreviation before := (clockBefore spec latency).
#[local] Abbreviation after := (clockAfter spec latency).
#[local] Abbreviation keeps := (keepsPolling spec probe latency).

(** One iteration, by what the probe call returns. *)

Lemma pollLoop_error (fuel calls : nat) (now : Z) result status e :
  probe calls = (result, status, Some e) →
  loop (S fuel) calls now
  = Some (mkPollRun (S calls) (now + Z.of_N (latency calls)) (inr e)).
Proof. intros Hp. cbn. by rewrite Hp. Qed.


Lemma pollLoop_unexpected (fuel calls : nat) (now : Z) result status :
  probe calls = (result, status, None) →
  classify spec status = Unexpected →
  loop (S fuel) calls now
  = Some (mkPollRun (S calls) (now + Z.of_N (latency calls))
            (inr (UnexpectedStateError status None))).
Proof. intros Hp Hc. cbn. by rewrite Hp, Hc. Qed.

Lemma pollLoop_timeout (fuel calls : nat) (now : Z) result status :
  probe calls = (result, status, None) →
  classify spec status = Pending →
  (timeout spec < now + Z.of_N (latency calls))%Z →
  loop (S fuel) calls now
  = Some (mkPollRun (S calls) (now + Z.of_N (latency calls))
            (inr (TimeoutError status (now + Z.of_N (latency calls))))).
Proof.
  intros Hp Hc Ht. cbn. rewrite Hp, Hc.
  by apply Z.ltb_lt in Ht as ->.
Qed.

Lemma pollLoop_pending (fuel calls : nat) (now : Z) result status :
  probe calls = (result, status, None) →
  classify spec status = Pending →
  ¬ (timeout spec < now + Z.of_N (latency calls))%Z →
  loop (S fuel) calls now
  = loop fuel (S calls)
      (sleep (now + Z.of_N (latency calls)) (pollInterval spec)).
Proof.
  intros Hp Hc Ht. cbn. rewrite Hp, Hc.
  by apply Z.ltb_nlt in Ht as ->.
Qed.

(** What [keepsPolling] says. *)
Lemma keepsPolling_true (k : nat) :
  keeps k = true ↔
  ∃ result status,
    probe k = (result, status, None)
    ∧ classify spec status = Pending
    ∧ ¬ (timeout spec < after k)%Z.
Proof.
  unfold keepsPolling. destruct (probe k) as [[result status] [e|]].
  - split; [done|]. intros (? & ? & [=] & _).
  - destruct (classify spec status) eqn:Hc.
    + rewrite negb_true_iff, Z.ltb_nlt. split.
      * intros Ht. by exists result, status.
      * by intros (? & ? & [= <- <-] & _ & Ht).
    + split; [done|]. intros (? & ? & [= <- <-] & Hc' & _). congruence.
    + split; [done|]. intros (? & ? & [= <- <-] & Hc' & _). congruence.
Qed.

(** A probe call that keeps the session polling leads to the next one. *)
Lemma pollLoop_keeps (fuel k : nat) :
  keeps k = true →
  loop (S fuel) k (before k) = loop fuel (S k) (before (S k)).
Proof.
  intros (result & status & Hp & Hc & Ht)%keepsPolling_true.
  by rewrite (pollLoop_pending _ _ _ _ _ Hp Hc Ht).
Qed.

(** After [n] probe calls that all keep the session polling, the session is
    about to make call [n + 1], with the clock at [before n]. *)
Lemma WaitForTerminal_reaches (n fuel : nat) :
  (∀ k, k < n → keeps k = true) →
  WaitForTerminal spec probe latency (n + fuel) = loop fuel n (before n).
Proof.
  unfold WaitForTerminal. revert fuel.
  induction n as [|n IH]; intros fuel Hk; [done|].
  replace (S n + fuel) with (n + S fuel) by lia.
  rewrite IH by (intros k Hlt; apply Hk; lia).
  apply pollLoop_keeps, Hk. lia.
Qed.

(** A finished run made at least one more probe call than it started with. *)
Lemma pollLoop_calls (fuel calls : nat) (now : Z) (run : PollRun R) :
  loop fuel calls now = Some run → calls < probeCalls run.
Proof.
  revert calls now. induction fuel as [|fuel IH]; intros calls now; [done|].
  cbn. destruct (probe calls) as [[result status] [e|]].
  - intros [= <-]. cbn. lia.
  - destruct (classify spec status).
    + destruct (timeout spec <? _)%Z.
      * intros [= <-]. cbn. lia.
      * intros Hrun%IH. lia.
    + intros [= <-]. cbn. lia.
    + intros [= <-]. cbn. lia.
Qed.

(** More fuel does not change a finished run. *)
Lemma pollLoop_more_fuel (fuel extra calls : nat) (now : Z) (run : PollRun R) :
  loop fuel calls now = Some run → loop (fuel + extra) calls now = Some run.
Proof.
  revert calls now. induction fuel as [|fuel IH]; intros calls now; [done|].
  cbn. destruct (probe calls) as [[result status] [e|]]; [done|].
  destruct (classify spec status); [|done|done].
  destruct (timeout spec <? _)%Z; [done|]. apply IH.
Qed.

(** A session has at most one outcome. *)
Lemma pollLoop_deterministic (fuel fuel' calls : nat) (now : Z)
    (run run' : PollRun R) :
  loop fuel calls now = Some run →
  loop fuel' calls now = Some run' →
  run = run'.
Proof.
  intros H1 H2.
  apply (pollLoop_more_fuel _ fuel') in H1.
  apply (pollLoop_more_fuel _ fuel) in H2.
  rewrite (Nat.add_comm fuel' fuel) in H2. congruence.
Qed.

(** With fuel for no more than the calls that keep polling, no outcome. *)
Lemma WaitForTerminal_needs_fuel (n fuel : nat) (run : PollRun R) :
  (∀ k, k < n → keeps k = true) →
  WaitForTerminal spec probe latency fuel = Some run →
  n < fuel ∧ n < probeCalls run.
Proof.
  intros Hk Hrun.
  assert (loop (S fuel) n (before n) = Some run) as Hn.
  { rewrite <- (WaitForTerminal_reaches n (S fuel) Hk).
    replace (n + S fuel) with (fuel + S n) by lia.
    by apply pollLoop_more_fuel. }
  split; [|by eapply pollLoop_calls].
  destruct (decide (n < fuel)) as [|Hge]; [done|].
  assert (fuel ≤ n) as Hle by lia.
  rewrite <- (Nat.add_0_r fuel), WaitForTerminal_reaches in Hrun; [done|].
  intros k Hlt. apply Hk. lia.
Qed.


Lemma classify_pending (status : string) :
  disjointStatuses spec →
  status ∈ pendingStatuses spec → classify spec status = Pending.
Proof.
  intros Hdis Hin. unfold classify.
  pose proof (Hdis _ Hin) as Hnot%stringInSlice_false.
  apply stringInSlice_true in Hin. by rewrite Hnot, Hin.
Qed.

Lemma classify_unexpected (status : string) :
  status ∉ pendingStatuses spec → status ∉ targetStatuses spec →
  status ≠ "" → classify spec status = Unexpected.
Proof.
  intros Hp%stringInSlice_false Ht%stringInSlice_false Hne%String.eqb_neq.
  unfold classify. by rewrite Ht, Hp, Hne.
Qed.

Lemma classify_empty :
  "" ∉ targetStatuses spec → classify spec "" = Pending.
Proof.
  intros Ht%stringInSlice_false. unfold classify. rewrite Ht.
  by destruct (stringInSlice "" (pendingStatuses spec)).
Qed.

End PollLoop.

(** The least index at which a decidable property holds. *)
Lemma least_index (P : nat → Prop) `{!∀ k, Decision (P k)} (k : nat) :
  P k → ∃ n, n ≤ k ∧ P n ∧ ∀ j, j < n → ¬ P j.
Proof.
  assert (∀ m, (∃ n, n < m ∧ P n ∧ ∀ j, j < n → ¬ P j)
               ∨ (∀ j, j < m → ¬ P j)) as Hsearch.
  { induction m as [|m [(n & Hn & HP & Hleast)|Hnone]].
    - right. lia.
    - left. exists n. split; [lia|done].
    - destruct (decide (P m)) as [HP|HP].
      + left. exists m. split; [lia|done].
      + right. intros j Hj. destruct (decide (j = m)) as [->|]; [done|].
        apply Hnone. lia. }
  intros HP. destruct (Hsearch (S k)) as [(n & Hn & HPn & Hleast)|Hnone].
  - exists n. split; [lia|done].
  - destruct (Hnone k); [lia|done].
Qed.

(** ** The poller's contract *)

Section PollerContract.

Context {R : Type}.
Variable spec : PollSpec.
Variable probe : StatusProbe R.
Variable latency : nat → N.

(** Pending answers within the timeout keep the session polling. *)
Lemma pending_keeps (n : nat) :
  disjointStatuses spec →
  (∀ k, k < n →
     ∃ s, returnsStatus probe k s ∧ s ∈ pendingStatuses spec
          ∧ ¬ (timeout spec < clockAfter spec latency k)%Z) →
  ∀ k, k < n → keepsPolling spec probe latency k = true.
Proof.
  intros Hdis Hpend k Hlt.
  destruct (Hpend k Hlt) as (s & [result Hp] & Hin & Ht).
  apply keepsPolling_true. exists result, s.
  split; [done|]. split; [by apply classify_pending|done].
Qed.


(** C2, as amended.  If a probe call returns, with no error, a non-empty
    status that is neither pending nor target, the wait ends right after
    that call with an unexpected-state error carrying the status, whatever
    the clock says. *)
Theorem WaitForTerminal_unexpected_status
    (n : nat) (result : R) (status : string) :
  (∀ k, k < n → keepsPolling spec probe latency k = true) →
  probe n = (result, status, None) →
  status ∉ pendingStatuses spec →
  status ∉ targetStatuses spec →
  status ≠ "" →
  ∀ fuel, n < fuel →
    WaitForTerminal spec probe latency fuel
    = Some (mkPollRun (S n) (clockAfter spec latency n)
              (inr (UnexpectedStateError status None))).
Proof.
  intros Hk Hp Hnp Hnt Hne fuel Hfuel.
  replace fuel with (n + S (fuel - S n)) by lia.
  rewrite WaitForTerminal_reaches by done.
  by apply pollLoop_unexpected with (result := result);
    [|apply classify_unexpected].
Qed.

(** C5.  If a probe call returns an error, the wait ends right after that
    call: it hands that very error to the caller, returns no result, and
    makes no further probe call. *)
Theorem WaitForTerminal_probe_error
    (n : nat) (result : R) (status : string) (e : error) :
  (∀ k, k < n → keepsPolling spec probe latency k = true) →
  probe n = (result, status, Some e) →
  ∀ fuel, n < fuel →
    WaitForTerminal spec probe latency fuel
    = Some (mkPollRun (S n) (clockAfter spec latency n) (inr e)).
Proof.
  intros Hk Hp fuel Hfuel.
  replace fuel with (n + S (fuel - S n)) by lia.
  rewrite WaitForTerminal_reaches by done.
  by apply pollLoop_error with (result := result) (status := status).
Qed.

(** A session whose probe calls all return pending statuses never ends in
    success, from whatever point it is run. *)
Lemma pollLoop_pending_no_success (fuel calls : nat) (now : Z)
    (run : PollRun R) :
  disjointStatuses spec →
  (∀ k, ∃ s, returnsStatus probe k s ∧ s ∈ pendingStatuses spec) →
  pollLoop spec probe latency fuel calls now = Some run →
  ∃ s t, returned run = inr (TimeoutError s t) ∧ (timeout spec < t)%Z.
Proof.
  intros Hdis Hpend. revert calls now.
  induction fuel as [|fuel IH]; intros calls now; [done|].
  destruct (Hpend calls) as (s & [result Hp] & Hin).
  pose proof (classify_pending spec s Hdis Hin) as Hc.
  destruct (decide (timeout spec < now + Z.of_N (latency calls))%Z)
    as [Ht|Ht].
  - rewrite (pollLoop_timeout _ _ _ _ _ _ _ _ Hp Hc Ht).
    intros [= <-]. by eexists _, _.
  - rewrite (pollLoop_pending _ _ _ _ _ _ _ _ Hp Hc Ht). apply IH.
Qed.

(** In such a session, a timeout check at which the elapsed time exceeds
    the timeout is preceded by a first one, and the wait ends there. *)
Lemma pending_times_out (k : nat) :
  disjointStatuses spec →
  (∀ k, ∃ s, returnsStatus probe k s ∧ s ∈ pendingStatuses spec) →
  (timeout spec < clockAfter spec latency k)%Z →
  ∃ n s, n ≤ k
    ∧ returnsStatus probe n s
    ∧ (timeout spec < clockAfter spec latency n)%Z
    ∧ ∀ fuel, n < fuel →
        WaitForTerminal spec probe latency fuel
        = Some (mkPollRun (S n) (clockAfter spec latency n)
                  (inr (TimeoutError s (clockAfter spec latency n)))).
Proof.
  intros Hdis Hpend Hk.
  destruct (least_index
              (λ j, timeout spec < clockAfter spec latency j)%Z k Hk)
    as (n & Hle & Hn & Hleast).
  destruct (Hpend n) as (s & [result Hp] & Hin).
  exists n, s. split; [done|]. split; [by exists result|].
  split; [done|]. intros fuel Hfuel.
  replace fuel with (n + S (fuel - S n)) by lia.
  rewrite WaitForTerminal_reaches.
  - apply pollLoop_timeout with (result := result); [done| |done].
    by apply classify_pending.
  - apply pending_keeps; [done|]. intros j Hj.
    destruct (Hpend j) as (sj & Hret & Hinj).
    exists sj. split; [done|]. split; [done|]. by apply Hleast.
Qed.

(** C6.  In a session whose probe calls all return pending statuses, the
    wait never returns a result; and once the elapsed time at a timeout
    check exceeds the timeout, the wait ends, at the first such check, with
    a timeout error carrying the last status and the elapsed time. *)
Theorem WaitForTerminal_always_pending :
  disjointStatuses spec →
  (∀ k, ∃ s, returnsStatus probe k s ∧ s ∈ pendingStatuses spec) →
  (∀ fuel run,
     WaitForTerminal spec probe latency fuel = Some run →
     ∀ r, returned run ≠ inl r)
  ∧ ∀ k, (timeout spec < clockAfter spec latency k)%Z →
      ∃ n s, n ≤ k
        ∧ returnsStatus probe n s
        ∧ (timeout spec < clockAfter spec latency n)%Z
        ∧ ∀ fuel, n < fuel →
            WaitForTerminal spec probe latency fuel
            = Some (mkPollRun (S n) (clockAfter spec latency n)
                      (inr (TimeoutError s (clockAfter spec latency n)))).
Proof.
  intros Hdis Hpend. split.
  - intros fuel run Hrun r Hr.
    destruct (pollLoop_pending_no_success _ _ _ _ Hdis Hpend Hrun)
      as (s & t & Hs & _).
    congruence.
  - intros k. by apply pending_times_out.
Qed.

(** Answers with the empty status and no error, within the timeout, keep a
    session polling, unless the session lists the empty status as a
    target. *)
Lemma absent_keeps (n m : nat) :
  "" ∉ targetStatuses spec →
  (∀ k, k < n → keepsPolling spec probe latency k = true) →
  (∀ k, n ≤ k < n + m →
     returnsStatus probe k ""
     ∧ ¬ (timeout spec < clockAfter spec latency k)%Z) →
  ∀ k, k < n + m → keepsPolling spec probe latency k = true.
Proof.
  intros Hnot Hreach Habsent k Hk.
  destruct (decide (k < n)) as [Hlt|Hge]; [by apply Hreach|].
  destruct (Habsent k) as [[result Hp] Ht]; [lia|].
  apply keepsPolling_true. exists result, "".
  split; [done|]. split; [by apply classify_empty|done].
Qed.


(** The clock only moves forward, by at least the interval per call. *)
Lemma clockAfter_grows (k : nat) :
  (sleep 0 (initialDelay spec) + Z.of_nat k * Z.max 0 (pollInterval spec)
   ≤ clockAfter spec latency k)%Z.
Proof.
  unfold clockAfter. induction k as [|k IH].
  - cbn [clockBefore]. lia.
  - cbn [clockBefore]. unfold clockAfter, sleep in *. lia.
Qed.

End PollerContract.

(** ** The Athena status probe *)

Section AthenaProbe.

Variable qeid : string.
Variable conn : AthenaConn.

#[local] Abbreviation refresh := (queryExecutionStateRefreshFunc qeid conn).
#[local] Abbreviation request :=
  (GetQueryExecution conn).
#[local] Abbreviation input := (GetQueryExecutionInput.mk (Some qeid)).

Lemma refresh_error (k : nat) out (e : error) :
  request k input = (out, Some e) →
  refresh k = (None, "failed", Some e).
Proof. intros Hr. unfold queryExecutionStateRefreshFunc. by rewrite Hr. Qed.

Lemma refresh_absent (k : nat) out :
  request k input = (out, None) →
  statusContainer out = None →
  refresh k = (None, "", None).
Proof.
  intros Hr Hs. unfold queryExecutionStateRefreshFunc. rewrite Hr.
  destruct out as [[[[[status|]]|]]|]; done.
Qed.

Lemma refresh_failed_reason (k : nat) out status (reason : string) :
  request k input = (out, None) →
  statusContainer out = Some status →
  QueryExecutionStatus.State status = Some QueryExecutionStateFailed →
  QueryExecutionStatus.StateChangeReason status = Some reason →
  refresh k
  = (out, QueryExecutionStateFailed, Some (Errorf ("reason: " +:+ reason))).
Proof.
  intros Hr Hs Hstate Hreason. unfold queryExecutionStateRefreshFunc.
  rewrite Hr. destruct out as [[[[[status'|]]|]]|]; try done.
  cbn in Hs. injection Hs as ->. cbn. by rewrite Hstate, Hreason.
Qed.

Lemma refresh_state (k : nat) out status :
  request k input = (out, None) →
  statusContainer out = Some status →
  StringValue (QueryExecutionStatus.State status) ≠ QueryExecutionStateFailed
  ∨ QueryExecutionStatus.StateChangeReason status = None →
  refresh k = (out, StringValue (QueryExecutionStatus.State status), None).
Proof.
  intros Hr Hs Hno. unfold queryExecutionStateRefreshFunc.
  rewrite Hr. destruct out as [[[[[status'|]]|]]|]; try done.
  cbn in Hs. injection Hs as ->. cbn.
  destruct Hno as [Hne%String.eqb_neq| ->].
  - by rewrite Hne.
  - by rewrite andb_false_r.
Qed.

(** The session's lists of statuses. *)
Lemma athenaSpec_pending (s : string) :
  s ∈ pendingStatuses (athenaSpec qeid conn)
  ↔ s = QueryExecutionStateQueued ∨ s = QueryExecutionStateRunning.
Proof. cbn. by rewrite elem_of_cons, list_elem_of_singleton. Qed.

Lemma athenaSpec_target (s : string) :
  s ∈ targetStatuses (athenaSpec qeid conn)
  ↔ s = QueryExecutionStateSucceeded.
Proof. cbn. by rewrite list_elem_of_singleton. Qed.

Lemma athenaSpec_disjoint : disjointStatuses (athenaSpec qeid conn).
Proof.
  intros s [-> | ->]%athenaSpec_pending Ht%athenaSpec_target; discriminate.
Qed.

End AthenaProbe.

(** C7.  The configuration the resource waits with, for whatever query and
    connection, has disjoint pending and target statuses: QUEUED and RUNNING
    on one side, SUCCEEDED on the other. *)
Theorem executionStateConf_disjoint (qeid : string) (conn : AthenaConn) :
  pendingStatuses (resource.pollSpec (executionStateConf qeid conn))
    = [QueryExecutionStateQueued; QueryExecutionStateRunning]
  ∧ targetStatuses (resource.pollSpec (executionStateConf qeid conn))
    = [QueryExecutionStateSucceeded]
  ∧ disjointStatuses (resource.pollSpec (executionStateConf qeid conn)).
Proof.
  split; [done|]. split; [done|]. apply athenaSpec_disjoint.
Qed.

Lemma append_empty_r (s : string) : s +:+ "" = s.
Proof.
  induction s as [|c s IH]; [done|].
  change (String c (s +:+ "") = String c s). by rewrite IH.
Qed.

Lemma append_assoc (s1 s2 s3 : string) :
  (s1 +:+ s2) +:+ s3 = s1 +:+ s2 +:+ s3.
Proof.
  induction s1 as [|c s1 IH]; [done|].
  change (String c ((s1 +:+ s2) +:+ s3) = String c (s1 +:+ s2 +:+ s3)).
  by rewrite IH.
Qed.

(** ** Waiting for an Athena query *)

Section AthenaWait.

Variable qeid : string.
Variable conn : AthenaConn.

#[local] Abbreviation spec := (athenaSpec qeid conn).
#[local] Abbreviation refresh := (queryExecutionStateRefreshFunc qeid conn).
#[local] Abbreviation took := (GetQueryExecutionTime conn).
#[local] Abbreviation input := (GetQueryExecutionInput.mk (Some qeid)).

Lemma waitForQuery_unfold (fuel : nat) :
  waitForQuery fuel qeid conn = WaitForTerminal spec refresh took fuel.
Proof. reflexivity. Qed.

(** C3.  If a probe call of the session observes the remote status FAILED
    together with a reason, the wait ends right after that call with an
    error whose text contains the reason. *)
Theorem waitForQuery_failed_reason
    (n : nat) out status (reason : string) :
  (∀ k, k < n → keepsPolling spec refresh took k = true) →
  GetQueryExecution conn n input = (out, None) →
  statusContainer out = Some status →
  QueryExecutionStatus.State status = Some QueryExecutionStateFailed →
  QueryExecutionStatus.StateChangeReason status = Some reason →
  ∀ fuel, n < fuel →
    ∃ e : error,
      waitForQuery fuel qeid conn
      = Some (mkPollRun (S n) (clockAfter spec took n) (inr e))
      ∧ Contains (Error e) reason.
Proof.
  intros Hk Hr Hs Hstate Hreason fuel Hfuel.
  exists (Errorf ("reason: " +:+ reason)). split.
  - rewrite waitForQuery_unfold.
    replace fuel with (n + S (fuel - S n)) by lia.
    rewrite WaitForTerminal_reaches by done.
    eapply pollLoop_error. by eapply refresh_failed_reason.
  - exists "reason: ", "". cbn. by rewrite append_empty_r.
Qed.

(** Answers of the service that carry no status record: the probe reports
    the empty status for each, and while the timeout is not exceeded the
    session goes on to its next probe call, wherever in the session these
    answers come. *)
Lemma waitForQuery_absent_answers (n m : nat) :
  (∀ k, k < n → keepsPolling spec refresh took k = true) →
  (∀ k, n ≤ k < n + m →
     ∃ out, GetQueryExecution conn k input = (out, None)
            ∧ statusContainer out = None
            ∧ ¬ (timeout spec < clockAfter spec took k)%Z) →
  (∀ k, n ≤ k < n + m → refresh k = (None, "", None))
  ∧ (∀ fuel,
       waitForQuery (n + m + fuel) qeid conn
       = pollLoop spec refresh took fuel (n + m)
           (clockBefore spec took (n + m)))
  ∧ (∀ fuel run,
       waitForQuery fuel qeid conn = Some run →
       n + m < fuel ∧ n + m < probeCalls run).
Proof.
  intros Hreach Habsent.
  assert (∀ k, n ≤ k < n + m → refresh k = (None, "", None)) as Hprobe.
  { intros k Hk. destruct (Habsent k Hk) as (out & Hr & Hs & _).
    by eapply refresh_absent. }
  assert (∀ k, k < n + m → keepsPolling spec refresh took k = true)
    as Hkeeps.
  { apply absent_keeps; [|done|].
    - intros H%athenaSpec_target. discriminate.
    - intros k Hk. destruct (Habsent k Hk) as (out & _ & _ & Ht).
      split; [|done]. exists None. by apply Hprobe. }
  split; [done|]. split.
  - intros fuel. rewrite waitForQuery_unfold.
    by apply WaitForTerminal_reaches.
  - intros fuel run Hrun. rewrite waitForQuery_unfold in Hrun.
    by eapply WaitForTerminal_needs_fuel.
Qed.

(** A status record whose state is not empty and none of QUEUED, RUNNING
    and SUCCEEDED (and, if it is FAILED, comes with no reason) ends the wait
    with an unexpected-state error naming that state. *)
Lemma waitForQuery_unexpected_state (n : nat) out status (state : string) :
  (∀ k, k < n → keepsPolling spec refresh took k = true) →
  GetQueryExecution conn n input = (out, None) →
  statusContainer out = Some status →
  QueryExecutionStatus.State status = Some state →
  state ≠ QueryExecutionStateFailed
  ∨ QueryExecutionStatus.StateChangeReason status = None →
  state ∉ [QueryExecutionStateQueued; QueryExecutionStateRunning;
           QueryExecutionStateSucceeded; ""] →
  ∀ fuel, n < fuel →
    waitForQuery fuel qeid conn
    = Some (mkPollRun (S n) (clockAfter spec took n)
              (inr (UnexpectedStateError state None))).
Proof.
  intros Hk Hr Hs Hstate Hno Hnot fuel Hfuel. rewrite waitForQuery_unfold.
  replace fuel with (n + S (fuel - S n)) by lia.
  rewrite WaitForTerminal_reaches by done.
  assert (refresh n = (out, state, None)) as Hp.
  { erewrite refresh_state; [|done|done|]; rewrite Hstate; [done|].
    destruct Hno as [Hne|Hnone]; [by left|by right]. }
  apply pollLoop_unexpected with (result := out); [done|].
  repeat (apply not_elem_of_cons in Hnot as [? Hnot]).
  apply classify_unexpected; [|by intros ->%athenaSpec_target|done].
  by intros [-> | ->]%athenaSpec_pending.
Qed.

(** A status request the service refuses ends the wait with the service's
    error. *)
Lemma waitForQuery_request_error (n : nat) out (e : error) :
  (∀ k, k < n → keepsPolling spec refresh took k = true) →
  GetQueryExecution conn n input = (out, Some e) →
  ∀ fuel, n < fuel →
    waitForQuery fuel qeid conn
    = Some (mkPollRun (S n) (clockAfter spec took n) (inr e)).
Proof.
  intros Hk Hr fuel Hfuel. rewrite waitForQuery_unfold.
  replace fuel with (n + S (fuel - S n)) by lia.
  rewrite WaitForTerminal_reaches by done.
  eapply pollLoop_error. by eapply refresh_error.
Qed.

(** A query that the service reports as QUEUED or RUNNING for ever: however
    long the status requests take, the wait ends in a timeout error, after
    at most 201 probe calls and more than ten minutes. *)
Lemma waitForQuery_stuck_times_out :
  (∀ k, ∃ out status,
     GetQueryExecution conn k input = (out, None)
     ∧ statusContainer out = Some status
     ∧ (QueryExecutionStatus.State status = Some QueryExecutionStateQueued
        ∨ QueryExecutionStatus.State status
          = Some QueryExecutionStateRunning)) →
  ∃ n s, n ≤ 200
    ∧ (10 * time.Minute < clockAfter spec took n)%Z
    ∧ ∀ fuel, n < fuel →
        waitForQuery fuel qeid conn
        = Some (mkPollRun (S n) (clockAfter spec took n)
                  (inr (TimeoutError s (clockAfter spec took n)))).
Proof.
  intros Hstuck.
  assert (∀ k, ∃ s, returnsStatus refresh k s ∧ s ∈ pendingStatuses spec)
    as Hpend.
  { intros k. destruct (Hstuck k) as (out & status & Hr & Hs & Hstate).
    exists (StringValue (QueryExecutionStatus.State status)). split.
    - exists out. eapply refresh_state; [done|done|].
      left. by destruct Hstate as [-> | ->].
    - apply athenaSpec_pending. by destruct Hstate as [-> | ->]; [left|right]. }
  destruct (pending_times_out spec refresh took 200
              (athenaSpec_disjoint qeid conn) Hpend)
    as (n & s & Hle & _ & Hn & Hrun).
  - pose proof (clockAfter_grows spec took 200) as Hgrow.
    eapply Z.lt_le_trans; [|exact Hgrow]. by vm_compute.
  - by exists n, s.
Qed.

End AthenaWait.

(** ** Worked sessions *)




(** RUNNING, then FAILED with no reason attached: two probe calls and an
    unexpected-state error. *)
Lemma WaitForTerminal_unexpected_status_witness :
  waitForQuery 10 "q-1" failedQuery
  = Some (mkPollRun 2 (6 * time.Second)
            (inr (UnexpectedStateError "FAILED" None))).
Proof.
  unfold waitForQuery, resource.WaitForState. eapply eq_trans.
  { eapply WaitForTerminal_unexpected_status
      with (n := 1) (status := "FAILED").
    - intros k Hk. destruct k as [|k]; [reflexivity|lia].
    - reflexivity.
    - intros [H | H]%athenaSpec_pending; discriminate.
    - intros H%athenaSpec_target; discriminate.
    - discriminate.
    - lia. }
  reflexivity.
Defined.

(** A query that has succeeded by the first status request: one probe call,
    after the initial delay of three seconds. *)
Example immediate_success :
  waitForQuery 10 "q-1"
    (scriptedConn [] (statusAnswer (Some "SUCCEEDED") None))
  = Some (mkPollRun 1 (3 * time.Second)
            (inl (fst (statusAnswer (Some "SUCCEEDED") None)))).
Proof. reflexivity. Qed.

(** The failed query's error, in full. *)
Example syntax_error_query :
  waitForQuery 10 "q-1" syntaxErrorQuery
  = Some (mkPollRun 2 (6 * time.Second)
            (inr (Errorf "reason: syntax error"))).
Proof. reflexivity. Qed.

(** A cancelled query: the state is none the wait expects. *)
Example cancelled_query :
  waitForQuery 10 "q-1"
    (scriptedConn [statusAnswer (Some "RUNNING") None]
                  (statusAnswer (Some QueryExecutionStateCancelled) None))
  = Some (mkPollRun 2 (6 * time.Second)
            (inr (UnexpectedStateError "CANCELLED" None))).
Proof. reflexivity. Qed.

(** As first stated, C2 fails: the empty status is in neither list of the
    resource's configuration, yet after a probe call that returns it, with
    no error, the wait does not end in an unexpected-state error; it goes
    on polling and returns the result of a later call. *)
Lemma empty_status_keeps_polling :
  returnsStatus (queryExecutionStateRefreshFunc "q-1" lateStatusQuery) 0 ""
  ∧ ("" ∉ pendingStatuses (athenaSpec "q-1" lateStatusQuery))
  ∧ ("" ∉ targetStatuses (athenaSpec "q-1" lateStatusQuery))
  ∧ ∀ fuel run,
      waitForQuery fuel "q-1" lateStatusQuery = Some run →
      probeCalls run = 3
      ∧ returned run = inl (fst (statusAnswer (Some "SUCCEEDED") None)).
Proof.
  split; [|split; [|split]].
  - by eexists.
  - intros [H | H]%athenaSpec_pending; discriminate.
  - intros H%athenaSpec_target; discriminate.
  - intros fuel run Hrun.
    assert (waitForQuery 3 "q-1" lateStatusQuery
            = Some (mkPollRun 3 (9 * time.Second)
                      (inl (fst (statusAnswer (Some "SUCCEEDED") None)))))
      as Hrun' by reflexivity.
    by rewrite <- (pollLoop_deterministic _ _ _ _ _ _ _ _ _ Hrun' Hrun).
Qed.

(** The spec's scenario RUNNING, FAILED with the reason "syntax error": two
    probe calls and an error whose text contains the reason. *)
Lemma waitForQuery_failed_reason_witness :
  ∃ e : error,
    waitForQuery 10 "q-1" syntaxErrorQuery
    = Some (mkPollRun 2
              (clockAfter (athenaSpec "q-1" syntaxErrorQuery)
                          (GetQueryExecutionTime syntaxErrorQuery) 1)
              (inr e))
    ∧ Contains (Error e) "syntax error".
Proof.
  eapply (waitForQuery_failed_reason "q-1" syntaxErrorQuery 1 _
            (QueryExecutionStatus.mk (Some "FAILED") (Some "syntax error"))).
  - intros k Hk. destruct k as [|k]; [reflexivity|lia].
  - reflexivity.
  - reflexivity.
  - reflexivity.
  - reflexivity.
  - lia.
Defined.


(** That session makes its three probe calls and succeeds. *)
Example interrupted_query_succeeds :
  waitForQuery 10 "q-1" interruptedQuery
  = Some (mkPollRun 3 (9 * time.Second)
            (inl (fst (statusAnswer (Some "SUCCEEDED") None)))).
Proof. reflexivity. Qed.

(** Two answers without a status record at the start of a session do not
    end it either. *)
Example late_status_query :
  (∀ k, 0 ≤ k < 0 + 2 →
     queryExecutionStateRefreshFunc "q-1" lateStatusQuery k
     = (None, "", None))
  ∧ waitForQuery 10 "q-1" lateStatusQuery
    = Some (mkPollRun 3 (9 * time.Second)
              (inl (fst (statusAnswer (Some "SUCCEEDED") None)))).
Proof.
  split; [|reflexivity].
  apply (waitForQuery_absent_answers "q-1" lateStatusQuery 0 2).
  - intros k Hk. lia.
  - intros k Hk. destruct k as [|[|k]]; [| |lia].
    + exists None. split; [reflexivity|]. split; [reflexivity|].
      vm_compute. discriminate.
    + exists (Some (GetQueryExecutionOutput.mk None)).
      split; [reflexivity|]. split; [reflexivity|].
      vm_compute. discriminate.
Qed.


(** RUNNING, then a refused status request: two probe calls, and the
    service's error handed over as it is. *)
Lemma WaitForTerminal_probe_error_witness :
  waitForQuery 10 "q-1" throttledQuery
  = Some (mkPollRun 2 (6 * time.Second)
            (inr (AwsErr "ThrottlingException" "Rate exceeded"))).
Proof.
  unfold waitForQuery, resource.WaitForState. eapply eq_trans.
  { eapply WaitForTerminal_probe_error with (n := 1).
    - intros k Hk. destruct k as [|k]; [reflexivity|lia].
    - reflexivity.
    - lia. }
  reflexivity.
Defined.

Lemma stuckQuery_running (k : nat) :
  returnsStatus (queryExecutionStateRefreshFunc "q-1" stuckQuery) k "RUNNING".
Proof.
  eexists.
  eapply (refresh_state _ _ _ _
            (QueryExecutionStatus.mk (Some "RUNNING") None)).
  - cbv [stuckQuery scriptedConn GetQueryExecution].
    destruct k; reflexivity.
  - reflexivity.
  - by right.
Qed.

(** A query that never leaves RUNNING: the resource's wait never returns a
    result, and it ends in a timeout error once the ten minutes are over. *)
Lemma WaitForTerminal_always_pending_witness :
  (∀ fuel run,
     waitForQuery fuel "q-1" stuckQuery = Some run →
     ∀ r, returned run ≠ inl r)
  ∧ ∃ n s,
      n ≤ 200
      ∧ returnsStatus (queryExecutionStateRefreshFunc "q-1" stuckQuery) n s
      ∧ (10 * time.Minute
         < clockAfter (athenaSpec "q-1" stuckQuery)
                      (GetQueryExecutionTime stuckQuery) n)%Z
      ∧ ∀ fuel, n < fuel →
          waitForQuery fuel "q-1" stuckQuery
          = Some (mkPollRun (S n)
                    (clockAfter (athenaSpec "q-1" stuckQuery)
                                (GetQueryExecutionTime stuckQuery) n)
                    (inr (TimeoutError s
                            (clockAfter (athenaSpec "q-1" stuckQuery)
                               (GetQueryExecutionTime stuckQuery) n)))).
Proof.
  destruct (WaitForTerminal_always_pending
              (athenaSpec "q-1" stuckQuery)
              (queryExecutionStateRefreshFunc "q-1" stuckQuery)
              (GetQueryExecutionTime stuckQuery))
    as [Hnever Htimeout].
  - apply athenaSpec_disjoint.
  - intros k. exists "RUNNING". split; [apply stuckQuery_running|].
    apply athenaSpec_pending. by right.
  - split; [exact Hnever|]. apply (Htimeout 200). vm_compute. reflexivity.
Defined.

(** ** String suffixes *)

Lemma length_append (s t : string) :
  String.length (s +:+ t) = String.length s + String.length t.
Proof.
  induction s as [|c s IH]; [done|].
  change (S (String.length (s +:+ t)) = S (String.length s + String.length t)).
  by rewrite IH.
Qed.

(** Two texts that end in suffixes of the same length end in the same
    suffix. *)
Lemma append_inj_suffix (a b s t : string) :
  String.length s = String.length t →
  a +:+ s = b +:+ t → a = b ∧ s = t.
Proof.
  intros Hlen. revert b. induction a as [|c a IH]; intros [|c' b] Heq.
  - done.
  - exfalso. change (s = String c' (b +:+ t)) in Heq.
    apply (f_equal String.length) in Heq.
    change (String.length s = S (String.length (b +:+ t))) in Heq.
    rewrite length_append in Heq. lia.
  - exfalso. change (String c (a +:+ s) = t) in Heq.
    apply (f_equal String.length) in Heq.
    change (S (String.length (a +:+ s)) = String.length t) in Heq.
    rewrite length_append in Heq. lia.
  - change (String c (a +:+ s) = String c' (b +:+ t)) in Heq.
    injection Heq as -> Heq. destruct (IH _ Heq) as [-> ->]. done.
Qed.

(** ** Substrings *)

Lemma append_cons (c : Ascii.ascii) (s t : string) :
  String c s +:+ t = String c (s +:+ t).
Proof. reflexivity. Qed.

Lemma containsb_unfold (s sub : string) :
  containsb s sub
  = hasPrefix s sub
    || match s with
       | EmptyString => false
       | String _ s' => containsb s' sub
       end.
Proof. by destruct s. Qed.

Lemma hasPrefix_cons (c c' : Ascii.ascii) (s p : string) :
  hasPrefix (String c s) (String c' p) = Ascii.eqb c' c && hasPrefix s p.
Proof. reflexivity. Qed.

Lemma hasPrefix_append (sub rest : string) :
  hasPrefix (sub +:+ rest) sub = true.
Proof.
  induction sub as [|c sub IH].
  - change ("" +:+ rest) with rest. by destruct rest.
  - by rewrite append_cons, hasPrefix_cons, IH, Ascii.eqb_refl.
Qed.

Lemma containsb_append (a sub b : string) :
  containsb (a +:+ sub +:+ b) sub = true.
Proof.
  induction a as [|c a IH].
  - change ("" +:+ sub +:+ b) with (sub +:+ b).
    by rewrite containsb_unfold, hasPrefix_append.
  - rewrite append_cons, containsb_unfold, IH. apply orb_true_r.
Qed.

Lemma nameChar_not_space (c : Ascii.ascii) :
  nameChar c = true → Ascii.eqb " "%char c = false.
Proof.
  intros Hc.
  destruct (Ascii.eqb_spec " "%char c) as [<-|]; [discriminate|done].
Qed.

(** A text of name characters closed by a backquote and a semicolon holds
    no cascade clause. *)
Lemma containsb_name (name : string) :
  forallb nameChar (String.list_ascii_of_string name) = true →
  containsb (name +:+ "`;") " cascade" = false.
Proof.
  induction name as [|c name IH]; [intros _; reflexivity|].
  cbn [String.list_ascii_of_string forallb].
  intros [Hc Hname]%andb_true_iff.
  rewrite append_cons, containsb_unfold, hasPrefix_cons.
  by rewrite (nameChar_not_space c Hc), IH.
Qed.

(** ** The delete handler's query *)

Lemma silent_ret {A} (a : A) : silent (mret a).
Proof. done. Qed.

Lemma silent_must {A} (o : option A) : silent (must o).
Proof. done. Qed.

Lemma silent_bounded {A} (o : option A) : silent (bounded o).
Proof. done. Qed.

Lemma silent_bind {A B} (m : Handler A) (k : A → Handler B) :
  silent m → (∀ a, silent (k a)) → silent (m ≫= k).
Proof.
  intros Hm Hk log. unfold mbind, Handler_bind, hbind.
  specialize (Hm log). destruct (m log) as [log' [a| |]]; cbn in *; subst.
  - apply Hk.
  - done.
  - done.
Qed.

Lemma queryExecutionResult_silent (fuel : nat) (qeid : string)
    (conn : AthenaConn) :
  silent (queryExecutionResult fuel qeid conn).
Proof.
  unfold queryExecutionResult. apply silent_bind; [apply silent_bounded|].
  intros run. destruct (returned run); [|apply silent_ret].
  destruct (GetQueryResults conn _) as [resp [e|]]; [apply silent_ret|].
  apply silent_bind; [apply silent_must|]. intros ?. apply silent_ret.
Qed.

Lemma executeAndExpectNoRowsWhenDrop_silent (fuel : nat) (qeid : string)
    (conn : AthenaConn) :
  silent (executeAndExpectNoRowsWhenDrop fuel qeid conn).
Proof.
  unfold executeAndExpectNoRowsWhenDrop.
  apply silent_bind; [apply queryExecutionResult_silent|].
  intros [rs [e|]]; [apply silent_ret|].
  apply silent_bind; [apply silent_must|]. intros rows.
  destruct (negb _); [|apply silent_ret].
  apply silent_bind; [apply silent_must|]. intros ?. apply silent_ret.
Qed.

(** For a name the schema accepts, the cascade clause occurs in the text
    exactly when [force_destroy] is set. *)
Lemma dropDatabase_contains_cascade (name : string) (force_destroy : bool) :
  validName name = true →
  containsb (dropDatabase name force_destroy) " cascade" = force_destroy.
Proof.
  intros [_ Hname]%andb_true_iff. unfold dropDatabase.
  destruct force_destroy.
  - replace ("drop database `" +:+ name +:+ "` cascade;")
      with (("drop database `" +:+ name +:+ "`") +:+ " cascade" +:+ ";")
      by (by rewrite !append_assoc).
    apply containsb_append.
  - rewrite !append_cons. change ("" +:+ name +:+ "`;") with (name +:+ "`;").
    rewrite !containsb_unfold, !hasPrefix_cons.
    cbn [Ascii.eqb Bool.eqb andb orb].
    rewrite <- containsb_unfold. by apply containsb_name.
Qed.

Lemma bind_must_Some {A B} (a : A) (k : A → Handler B) log :
  (must (Some a) ≫= k) log = k a log.
Proof. reflexivity. Qed.

Lemma bind_submit {B} (conn : AthenaConn) input
    (k : option StartQueryExecutionOutput.t * option error → Handler B) log :
  (submit conn input ≫= k) log
  = k (StartQueryExecution conn input) (log ++ [input]).
Proof. reflexivity. Qed.

(** The text the handler builds is the drop statement. *)
Lemma dropDatabase_built (name : string) (force_destroy : bool) :
  (if force_destroy
   then ("drop database `" +:+ name +:+ "`") +:+ " cascade"
   else "drop database `" +:+ name +:+ "`") +:+ ";"
  = dropDatabase name force_destroy.
Proof.
  unfold dropDatabase. destruct force_destroy.
  - by rewrite !append_assoc.
  - by rewrite !append_assoc.
Qed.

Lemma dropDatabase_semicolon (name : string) (force_destroy : bool) :
  ∃ body, dropDatabase name force_destroy = body +:+ ";".
Proof.
  rewrite <- dropDatabase_built. by eexists.
Qed.

Lemma dropDatabase_cascade (name : string) (force_destroy : bool) :
  force_destroy = true
  ↔ ∃ body, dropDatabase name force_destroy = body +:+ " cascade;".
Proof.
  split.
  - intros ->. exists ("drop database `" +:+ name +:+ "`").
    unfold dropDatabase. by rewrite !append_assoc.
  - intros [body Hbody]. destruct force_destroy; [done|].
    unfold dropDatabase in Hbody.
    change (" cascade;") with (" cascad" +:+ "e;") in Hbody.
    rewrite <- !append_assoc in Hbody.
    apply append_inj_suffix in Hbody as [_ [=]]; done.
Qed.

(** C9.  For every database name, the delete handler submits exactly one
    query, and its text is the drop statement for that name, with the
    cascade clause when [force_destroy] is set and without it otherwise;
    the text always ends in a semicolon, and it ends in [ cascade;] exactly
    when [force_destroy] is set.  For a name the schema accepts, the text
    holds the cascade clause anywhere exactly when [force_destroy] is
    set. *)
Theorem resourceAwsAthenaDatabaseDelete_query
    (fuel : nat) (d : ResourceData) (conn : AthenaConn)
    (name : string) (force_destroy : bool) (bucket : string)
    (l : list Value) (log : list StartQueryExecutionInput.t) :
  Get d "name" = VString name →
  Get d "force_destroy" = VBool force_destroy →
  Get d "bucket" = VString bucket →
  Get d "encryption_configuration" = VList l →
  Forall encryptionConfigurationElem l →
  (∃ rc : ResultConfiguration.t,
     expandAthenaResultConfiguration bucket l = Some rc
     ∧ fst (resourceAwsAthenaDatabaseDelete fuel d conn log)
       = log ++ [StartQueryExecutionInput.mk
                   (Some (dropDatabase name force_destroy)) (Some rc)])
  ∧ dropDatabase name force_destroy
    = (if force_destroy
       then "drop database `" +:+ name +:+ "` cascade;"
       else "drop database `" +:+ name +:+ "`;")
  ∧ (∃ body, dropDatabase name force_destroy = body +:+ ";")
  ∧ (force_destroy = true
     ↔ ∃ body, dropDatabase name force_destroy = body +:+ " cascade;")
  ∧ (validName name = true →
     containsb (dropDatabase name force_destroy) " cascade" = force_destroy).
Proof.
  intros Hname Hforce Hbucket Henc Hl.
  split; [|split; [done|split; [|split]]].
  - destruct (expand_conforming bucket l Hl) as [rc Hrc].
    exists rc. split; [done|]. unfold resourceAwsAthenaDatabaseDelete.
    rewrite Hname, Hforce, Hbucket, Henc. cbn [asString asBool asList].
    rewrite !bind_must_Some, Hrc, bind_must_Some, bind_submit.
    rewrite dropDatabase_built.
    destruct (StartQueryExecution conn _) as [resp [e|]]; [done|].
    apply silent_bind; [apply silent_must|]. intros resp'.
    apply silent_bind; [apply silent_must|]. intros qeid.
    apply executeAndExpectNoRowsWhenDrop_silent.
  - apply dropDatabase_semicolon.
  - apply dropDatabase_cascade.
  - apply dropDatabase_contains_cascade.
Qed.


Lemma resourceAwsAthenaDatabaseDelete_query_witness :
  (∃ rc : ResultConfiguration.t,
     expandAthenaResultConfiguration "logs" [] = Some rc
     ∧ fst (resourceAwsAthenaDatabaseDelete 10
              (databaseData "sales" true "logs" []) threeStepQuery [])
       = [] ++ [StartQueryExecutionInput.mk
                  (Some (dropDatabase "sales" true)) (Some rc)])
  ∧ dropDatabase "sales" true = "drop database `sales` cascade;"
  ∧ (∃ body, dropDatabase "sales" true = body +:+ ";")
  ∧ (true = true
     ↔ ∃ body, dropDatabase "sales" true = body +:+ " cascade;")
  ∧ (validName "sales" = true →
     containsb (dropDatabase "sales" true) " cascade" = true).
Proof.
  apply (resourceAwsAthenaDatabaseDelete_query 10
           (databaseData "sales" true "logs" []) threeStepQuery
           "sales" true "logs" [] []).
  - reflexivity.
  - reflexivity.
  - reflexivity.
  - reflexivity.
  - constructor.
Defined.

(** The two texts, on a concrete database, with what the handler returns
    when the query then succeeds with no rows. *)
Example delete_with_force_destroy :
  resourceAwsAthenaDatabaseDelete 10
    (databaseData "sales" true "logs" [kmsBlock "SSE_KMS" "key-1"])
    threeStepQuery []
  = ([StartQueryExecutionInput.mk
        (Some "drop database `sales` cascade;")
        (Some (ResultConfiguration.mk (Some "s3://logs")
                 (Some (EncryptionConfiguration.mk (Some "SSE_KMS")
                          (Some "key-1")))))],
     Done None).
Proof. vm_compute. reflexivity. Qed.

Example delete_without_force_destroy :
  resourceAwsAthenaDatabaseDelete 10
    (databaseData "sales" false "logs" []) threeStepQuery []
  = ([StartQueryExecutionInput.mk
        (Some "drop database `sales`;")
        (Some (ResultConfiguration.mk (Some "s3://logs") None))],
     Done None).
Proof. vm_compute. reflexivity. Qed.

(** ** The Route53 health-check delete handler *)

(** C10.  Deleting a health check that is already gone succeeds: when the
    helper recognises the error of [DeleteHealthCheck] as the SDK's
    [NoSuchHealthCheck], the handler returns no error.  Any other error is
    returned wrapped in the handler's own message, and no error gives no
    error. *)
Theorem resourceAwsRoute53HealthCheckDelete_result
    (isAWSErr : option error → string → string → bool)
    (d : ResourceData) (conn : Route53Conn)
    (out : option DeleteHealthCheckOutput.t) (err : option error) :
  DeleteHealthCheck conn (DeleteHealthCheckInput.mk (Some (Id d)))
  = (out, err) →
  (isAWSErr err ErrCodeNoSuchHealthCheck "" = true →
   resourceAwsRoute53HealthCheckDelete isAWSErr d conn = None)
  ∧ (isAWSErr err ErrCodeNoSuchHealthCheck "" = false →
     ∀ e, err = Some e →
       resourceAwsRoute53HealthCheckDelete isAWSErr d conn
       = Some (Wrapf ("error deleting Route53 Health Check (" +:+ Id d
                      +:+ "): ") e))
  ∧ (err = None →
     resourceAwsRoute53HealthCheckDelete isAWSErr d conn = None).
Proof.
  intros Hcall. unfold resourceAwsRoute53HealthCheckDelete. rewrite Hcall.
  split; [|split].
  - by intros ->.
  - by intros -> e ->.
  - intros ->. by destruct (isAWSErr None _ _).
Qed.

Lemma resourceAwsRoute53HealthCheckDelete_result_witness :
  (isAWSErrByCode (Some (AwsErr "NoSuchHealthCheck" "not found"))
     ErrCodeNoSuchHealthCheck "" = true →
   resourceAwsRoute53HealthCheckDelete isAWSErrByCode
     (mkResourceData "hc-1" ∅)
     (failingRoute53 (AwsErr "NoSuchHealthCheck" "not found")) = None)
  ∧ (isAWSErrByCode (Some (AwsErr "NoSuchHealthCheck" "not found"))
       ErrCodeNoSuchHealthCheck "" = false →
     ∀ e, Some (AwsErr "NoSuchHealthCheck" "not found") = Some e →
       resourceAwsRoute53HealthCheckDelete isAWSErrByCode
         (mkResourceData "hc-1" ∅)
         (failingRoute53 (AwsErr "NoSuchHealthCheck" "not found"))
       = Some (Wrapf ("error deleting Route53 Health Check ("
                      +:+ Id (mkResourceData "hc-1" ∅) +:+ "): ") e))
  ∧ (Some (AwsErr "NoSuchHealthCheck" "not found") = None →
     resourceAwsRoute53HealthCheckDelete isAWSErrByCode
       (mkResourceData "hc-1" ∅)
       (failingRoute53 (AwsErr "NoSuchHealthCheck" "not found")) = None).
Proof.
  apply (resourceAwsRoute53HealthCheckDelete_result isAWSErrByCode
           (mkResourceData "hc-1" ∅)
           (failingRoute53 (AwsErr "NoSuchHealthCheck" "not found")) None).
  reflexivity.
Defined.

(** With the helper read as "an SDK error with that code": a missing health
    check is a success, any other failure is wrapped. *)
Example delete_missing_health_check :
  resourceAwsRoute53HealthCheckDelete isAWSErrByCode
    (mkResourceData "hc-1" ∅)
    (failingRoute53 (AwsErr "NoSuchHealthCheck" "not found"))
  = None.
Proof. reflexivity. Qed.

Example delete_throttled_health_check :
  resourceAwsRoute53HealthCheckDelete isAWSErrByCode
    (mkResourceData "hc-1" ∅)
    (failingRoute53 (AwsErr "Throttling" "Rate exceeded"))
  = Some (Wrapf "error deleting Route53 Health Check (hc-1): "
            (AwsErr "Throttling" "Rate exceeded")).
Proof. reflexivity. Qed.

(** * Further properties of the handlers *)

(** ** Running handler code *)

Lemma bind_run {A B} (m : Handler A) (k : A → Handler B) log log' (a : A) :
  m log = (log', Done a) → (m ≫= k) log = k a log'.
Proof.
  intros Hm. unfold mbind, Handler_bind, hbind. by rewrite Hm.
Qed.

Lemma bind_must_None {A B} (k : A → Handler B) log :
  (must None ≫= k) log = (log, Panic).
Proof. reflexivity. Qed.

(** ** [flattenAthenaResultSet] *)

Lemma Join_nil (sep : string) : Join [] sep = "".
Proof. reflexivity. Qed.

Lemma elem_of_concat {A} (x : A) (ls : list (list A)) :
  x ∈ concat ls ↔ ∃ l, x ∈ l ∧ l ∈ ls.
Proof.
  rewrite list_elem_of_In, in_concat. split.
  - intros (l & Hl & Hx). exists l. by rewrite !list_elem_of_In.
  - intros (l & Hx & Hl). exists l. by rewrite <- !list_elem_of_In.
Qed.

(** The data of the rows, when no row is nil. *)
Lemma rows_data (rows : list (option Row.t)) (datas : list (list (option Datum.t))) :
  mapM (λ row : option Row.t, Row.Data <$> row) rows = Some datas →
  ∀ data, data ∈ datas ↔ ∃ row, Some row ∈ rows ∧ Row.Data row = data.
Proof.
  intros Hm%mapM_Some. induction Hm as [|[row|] data rows datas Hd _ IH].
  - intros data. split; [by intros ?%elem_of_nil|].
    by intros (? & ?%elem_of_nil & _).
  - cbn in Hd. injection Hd as <-. intros data.
    rewrite elem_of_cons, IH. split.
    + intros [->|(row' & Hin & <-)].
      * exists row. split; [by left|done].
      * exists row'. split; [by right|done].
    + intros (row' & [[= ->]|Hin]%elem_of_cons & <-); [by left|].
      right. by exists row'.
  - discriminate.
Qed.

Lemma flatten_None_iff (rs : ResultSet.t) :
  flattenAthenaResultSet (Some rs) = None
  ↔ None ∈ ResultSet.Rows rs ∨ hasNilDatum rs.
Proof.
  unfold flattenAthenaResultSet. cbn [mbind option_bind].
  destruct (mapM _ (ResultSet.Rows rs)) as [datas|] eqn:Hrows; cbn.
  - pose proof (rows_data _ _ Hrows) as Hdata.
    assert (None ∉ ResultSet.Rows rs) as Hnonil.
    { intros Hin. apply mapM_Some in Hrows.
      assert (Exists (λ x : option Row.t, Row.Data <$> x = None)
                (ResultSet.Rows rs)) as Hex%mapM_None.
      { apply Exists_exists. by exists None. }
      apply mapM_Some in Hrows. congruence. }
    destruct (mapM _ (concat datas)) as [ss|] eqn:Hss; cbn.
    + split; [done|]. intros [?|(row & Hrow & Hnil)]; [done|].
      assert (Exists (λ x : option Datum.t,
                        (x ≫= λ datum : Datum.t,
                           Some (StringValue (Datum.VarCharValue datum)))
                        = None)
                (concat datas)) as Hex%mapM_None.
      { apply Exists_exists. exists None. split; [|done].
        apply elem_of_concat. exists (Row.Data row).
        split; [done|]. apply Hdata. by exists row. }
      exfalso. cut (Some ss = None); [done|]. rewrite <- Hss. exact Hex.
    + split; [|done]. intros _. right.
      apply mapM_None, Exists_exists in Hss as ([datum|] & Hin & Hnone);
        [discriminate|].
      apply elem_of_concat in Hin as (data & Hin & Hdatas).
      apply Hdata in Hdatas as (row & Hrow & <-). by exists row.
  - split; [|done]. intros _. left.
    apply mapM_None, Exists_exists in Hrows as ([row|] & Hin & Hnone);
      [discriminate|done].
Qed.

Lemma mapM_fmap_Some_fmap {A B C} (f : A → option B) (g : C → A) (h : C → B)
    (l : list C) :
  (∀ x, f (g x) = Some (h x)) → mapM f (g <$> l) = Some (h <$> l).
Proof.
  intros Hfg. apply mapM_Some. induction l as [|x l IH]; constructor; auto.
Qed.

Lemma flatten_tableOf (cells : list (list (option string))) :
  flattenAthenaResultSet (Some (tableOf cells))
  = Some (Join (StringValue <$> concat cells) lineFeed).
Proof.
  unfold flattenAthenaResultSet, tableOf. cbn [mbind option_bind].
  cbn [ResultSet.Rows].
  rewrite (mapM_fmap_Some_fmap _ _
             (λ row : list (option string),
                (λ cell, Some (Datum.mk cell)) <$> row)) by done.
  cbn [mbind option_bind].
  assert (concat ((λ row : list (option string),
                     (λ cell, Some (Datum.mk cell)) <$> row) <$> cells)
          = (λ cell, Some (Datum.mk cell)) <$> concat cells) as ->.
  { induction cells as [|row cells IH]; [done|].
    cbn. by rewrite IH, fmap_app. }
  by rewrite (mapM_fmap_Some_fmap _ _ StringValue).
Qed.

(** X1.  [flattenAthenaResultSet] dereferences the result set, every row and
    every datum: it panics exactly when one of them is nil.  On a result
    set without nil pointers it returns the texts of the cells, row by row,
    joined by line feeds, a cell without a value giving the empty text. *)
Theorem flattenAthenaResultSet_defined :
  (∀ rs : option ResultSet.t,
     flattenAthenaResultSet rs = None
     ↔ rs = None
       ∨ ∃ r, rs = Some r ∧ (None ∈ ResultSet.Rows r ∨ hasNilDatum r))
  ∧ ∀ cells : list (list (option string)),
      flattenAthenaResultSet (Some (tableOf cells))
      = Some (Join (StringValue <$> concat cells) lineFeed).
Proof.
  split; [|apply flatten_tableOf].
  intros [r|].
  - rewrite flatten_None_iff. split.
    + intros H. right. by exists r.
    + intros [?|(r' & [= <-] & H)]; done.
  - split; [by left|done].
Qed.

(** ** Looking for the database among the rows *)

Lemma matchingDatum_true (data : list (option Datum.t)) (dbName : string) :
  matchingDatum data dbName = true
  ↔ ∃ datum, Some datum ∈ data
             ∧ StringValue (Datum.VarCharValue datum) = dbName.
Proof.
  induction data as [|[datum|] data IH]; cbn [matchingDatum].
  - split; [done|]. by intros (? & ?%elem_of_nil & _).
  - destruct (String.eqb_spec (StringValue (Datum.VarCharValue datum)) dbName)
      as [Heq|Hne].
    + split; [|done]. intros _. exists datum. split; [by left|done].
    + rewrite IH. split.
      * intros (datum' & Hin & Heq). exists datum'. split; [by right|done].
      * intros (datum' & [[= ->]|Hin]%elem_of_cons & Heq); [done|].
        by exists datum'.
  - rewrite IH. split.
    + intros (datum' & Hin & Heq). exists datum'. split; [by right|done].
    + intros (datum' & [[=]|Hin]%elem_of_cons & Heq). by exists datum'.
Qed.

(** With no nil row the search ends, and finds the name exactly when some
    row holds it. *)
Lemma matchingRow_found (rows : list (option Row.t)) (dbName : string) :
  None ∉ rows →
  ∃ found : bool,
    matchingRow rows dbName = Some found
    ∧ (found = true
       ↔ ∃ row datum, Some row ∈ rows ∧ Some datum ∈ Row.Data row
                      ∧ StringValue (Datum.VarCharValue datum) = dbName).
Proof.
  induction rows as [|[row|] rows IH]; intros Hnil; cbn [matchingRow].
  - exists false. split; [done|]. split; [done|].
    by intros (? & ? & ?%elem_of_nil & _).
  - destruct (matchingDatum (Row.Data row) dbName) eqn:Hrow.
    + exists true. split; [done|]. split; [|done]. intros _.
      apply matchingDatum_true in Hrow as (datum & Hin & Heq).
      exists row, datum. split; [by left|done].
    + destruct IH as (found & Hfound & Hiff).
      { intros Hin. apply Hnil. by right. }
      exists found. split; [done|]. rewrite Hiff. split.
      * intros (row' & datum & Hin & Hd). exists row', datum.
        split; [by right|done].
      * intros (row' & datum & [[= ->]|Hin]%elem_of_cons & Hd & Heq).
        -- assert (matchingDatum (Row.Data row) dbName = true) as Htrue.
           { apply matchingDatum_true. by exists datum. }
           congruence.
        -- by exists row', datum.
  - destruct Hnil. by left.
Qed.

(** X2.  When the query has ended with a result set that has no nil row,
    [executeAndExpectMatchingRow] returns no error exactly when some datum
    of some row holds the database name; nil data are skipped. *)
Theorem executeAndExpectMatchingRow_found
    (fuel : nat) (qeid dbName : string) (conn : AthenaConn)
    (log : list StartQueryExecutionInput.t) (rs : ResultSet.t) :
  queryExecutionResult fuel qeid conn log = (log, Done (Some rs, None)) →
  None ∉ ResultSet.Rows rs →
  executeAndExpectMatchingRow fuel qeid dbName conn log = (log, Done None)
  ↔ holdsDatabase rs dbName.
Proof.
  intros Hq Hnil. unfold executeAndExpectMatchingRow.
  rewrite (bind_run _ _ _ _ _ Hq). cbn [fmap option_fmap option_map].
  rewrite bind_must_Some.
  destruct (matchingRow_found (ResultSet.Rows rs) dbName Hnil)
    as (found & -> & Hiff).
  rewrite bind_must_Some. unfold holdsDatabase. rewrite <- Hiff.
  destruct found.
  - done.
  - split; [|done].
    destruct (flattenAthenaResultSet (Some rs)) as [text|];
      [by rewrite bind_must_Some|by rewrite bind_must_None].
Qed.

(** X3.  When the name is in no row, the error of
    [executeAndExpectMatchingRow] quotes the flattened result set; but the
    flattening dereferences the data the search skipped, so a nil datum in
    a result set that lacks the name makes the function panic. *)
Theorem executeAndExpectMatchingRow_not_found
    (fuel : nat) (qeid dbName : string) (conn : AthenaConn)
    (log : list StartQueryExecutionInput.t) (rs : ResultSet.t) :
  queryExecutionResult fuel qeid conn log = (log, Done (Some rs, None)) →
  None ∉ ResultSet.Rows rs →
  ¬ holdsDatabase rs dbName →
  (∀ text, flattenAthenaResultSet (Some rs) = Some text →
     executeAndExpectMatchingRow fuel qeid dbName conn log
     = (log, Done (Some (Errorf ("Athena not found database: " +:+ dbName
                                 +:+ ", query result: " +:+ text)))))
  ∧ (hasNilDatum rs →
     executeAndExpectMatchingRow fuel qeid dbName conn log = (log, Panic)).
Proof.
  intros Hq Hnil Hnot. unfold executeAndExpectMatchingRow.
  rewrite (bind_run _ _ _ _ _ Hq). cbn [fmap option_fmap option_map].
  rewrite bind_must_Some.
  destruct (matchingRow_found (ResultSet.Rows rs) dbName Hnil)
    as (found & -> & Hiff).
  rewrite bind_must_Some.
  destruct found; [destruct Hnot; by apply Hiff|]. split.
  - intros text ->. by rewrite bind_must_Some.
  - intros Hdatum.
    assert (flattenAthenaResultSet (Some rs) = None) as ->.
    { apply flatten_None_iff. by right. }
    by rewrite bind_must_None.
Qed.

(** ** The no-rows checks *)

(** What [queryExecutionResult] leaves: the log as it was, and an outcome. *)
Lemma queryExecutionResult_outcome (fuel : nat) (qeid : string)
    (conn : AthenaConn) (log : list StartQueryExecutionInput.t) :
  ∃ outcome, queryExecutionResult fuel qeid conn log = (log, outcome).
Proof.
  pose proof (queryExecutionResult_silent fuel qeid conn log) as Hlog.
  destruct (queryExecutionResult fuel qeid conn log) as [log' outcome].
  cbn in Hlog. subst log'. by exists outcome.
Qed.

Lemma bind_not_Done {A B} (m : Handler A) (k : A → Handler B) log log' :
  m log = (log', Panic) ∨ m log = (log', OutOfFuel) →
  ∀ log'' b, (m ≫= k) log ≠ (log'', Done b).
Proof.
  intros [Hm|Hm] log'' b; unfold mbind, Handler_bind, hbind; by rewrite Hm.
Qed.

Lemma executeAndExpectNoRows_iff_shared
    (fuel : nat) (qeid : string) (conn : AthenaConn)
    (log : list StartQueryExecutionInput.t) :
  (executeAndExpectNoRowsWhenCreate fuel qeid conn log = (log, Done None)
   ↔ ∃ rs, queryExecutionResult fuel qeid conn log
             = (log, Done (Some rs, None))
           ∧ ResultSet.Rows rs = [])
  ∧ (executeAndExpectNoRowsWhenDrop fuel qeid conn log = (log, Done None)
     ↔ ∃ rs, queryExecutionResult fuel qeid conn log
               = (log, Done (Some rs, None))
             ∧ ResultSet.Rows rs = []).
Proof.
  unfold executeAndExpectNoRowsWhenCreate, executeAndExpectNoRowsWhenDrop.
  destruct (queryExecutionResult_outcome fuel qeid conn log)
    as [[[[rs|] [e|]]| |] Hq].
  - rewrite !(bind_run _ _ _ _ _ Hq). rewrite Hq.
    split; (split; [done|]); by intros (? & [=] & _).
  - rewrite !(bind_run _ _ _ _ _ Hq). rewrite Hq.
    cbn [fmap option_fmap option_map]. rewrite !bind_must_Some.
    destruct (ResultSet.Rows rs) as [|row rows] eqn:Hrows;
      cbn [length Nat.eqb negb].
    + split; (split; [|done]); intros _; exists rs; by rewrite Hrows.
    + split; (split; [|intros (rs' & [= <-] & Hnil); congruence]);
        (destruct (flattenAthenaResultSet (Some rs)) as [text|];
         [by rewrite bind_must_Some|by rewrite bind_must_None]).
  - rewrite !(bind_run _ _ _ _ _ Hq). rewrite Hq.
    split; (split; [done|]); by intros (? & [=] & _).
  - rewrite !(bind_run _ _ _ _ _ Hq). rewrite Hq.
    cbn [fmap option_fmap option_map]. rewrite !bind_must_None.
    split; (split; [done|]); by intros (? & [=] & _).
  - rewrite Hq. split; (split; [|by intros (? & [=] & _)]);
      intros H; by eapply bind_not_Done in H; [|left].
  - rewrite Hq. split; (split; [|by intros (? & [=] & _)]);
      intros H; by eapply bind_not_Done in H; [|right].
Qed.

(** X4.  The checks after a create and after a drop query return no error
    exactly when the query ended with a result set that has no rows. *)
Theorem executeAndExpectNoRows_iff
    (fuel : nat) (qeid : string) (conn : AthenaConn)
    (log : list StartQueryExecutionInput.t) :
  (executeAndExpectNoRowsWhenCreate fuel qeid conn log = (log, Done None)
   ↔ ∃ rs, queryExecutionResult fuel qeid conn log
             = (log, Done (Some rs, None))
           ∧ ResultSet.Rows rs = [])
  ∧ (executeAndExpectNoRowsWhenDrop fuel qeid conn log = (log, Done None)
     ↔ ∃ rs, queryExecutionResult fuel qeid conn log
               = (log, Done (Some rs, None))
             ∧ ResultSet.Rows rs = []).
Proof. apply executeAndExpectNoRows_iff_shared. Qed.

Lemma tableOf_rows (cells : list (list (option string))) :
  None ∉ ResultSet.Rows (tableOf cells).
Proof.
  unfold tableOf. cbn. by intros (row & [=] & _)%list_elem_of_fmap.
Qed.

Lemma tableOf_data (cells : list (list (option string))) :
  ¬ hasNilDatum (tableOf cells).
Proof.
  intros (row & (cell & [= ->] & _)%list_elem_of_fmap & Hnil).
  cbn in Hnil. by apply list_elem_of_fmap in Hnil as (? & [=] & _).
Qed.

Lemma holdsDatabase_matchingRow (rs : ResultSet.t) (dbName : string) :
  None ∉ ResultSet.Rows rs →
  holdsDatabase rs dbName ↔ matchingRow (ResultSet.Rows rs) dbName = Some true.
Proof.
  intros Hnil.
  destruct (matchingRow_found _ dbName Hnil) as (found & -> & Hiff).
  unfold holdsDatabase. rewrite <- Hiff. split; [by intros ->|by intros [=]].
Qed.

Lemma executeAndExpectMatchingRow_found_witness :
  executeAndExpectMatchingRow 10 "q-1" "sales"
    (resultConn (Some (tableOf [[Some "default"]; [None; Some "sales"]]))) []
  = ([], Done None)
  ↔ holdsDatabase (tableOf [[Some "default"]; [None; Some "sales"]]) "sales".
Proof.
  apply (executeAndExpectMatchingRow_found 10 "q-1" "sales"
           (resultConn (Some (tableOf [[Some "default"];
                                       [None; Some "sales"]]))) []).
  - reflexivity.
  - apply tableOf_rows.
Defined.

Lemma executeAndExpectMatchingRow_not_found_witness :
  (∀ text,
     flattenAthenaResultSet (Some (tableOf [[Some "default"]; [Some "logs"]]))
     = Some text →
     executeAndExpectMatchingRow 10 "q-1" "sales"
       (resultConn (Some (tableOf [[Some "default"]; [Some "logs"]]))) []
     = ([], Done (Some (Errorf ("Athena not found database: " +:+ "sales"
                                +:+ ", query result: " +:+ text)))))
  ∧ (hasNilDatum (tableOf [[Some "default"]; [Some "logs"]]) →
     executeAndExpectMatchingRow 10 "q-1" "sales"
       (resultConn (Some (tableOf [[Some "default"]; [Some "logs"]]))) []
     = ([], Panic)).
Proof.
  apply (executeAndExpectMatchingRow_not_found 10 "q-1" "sales"
           (resultConn (Some (tableOf [[Some "default"]; [Some "logs"]])))
           []).
  - reflexivity.
  - apply tableOf_rows.
  - rewrite holdsDatabase_matchingRow by apply tableOf_rows.
    vm_compute. discriminate.
Defined.

(** The two ways a search that fails can end, on concrete result sets. *)
Example database_not_listed :
  executeAndExpectMatchingRow 10 "q-1" "sales"
    (resultConn (Some (tableOf [[Some "default"]; [Some "logs"]]))) []
  = ([], Done (Some (Errorf
           ("Athena not found database: sales, query result: default"
            +:+ lineFeed +:+ "logs")))).
Proof. reflexivity. Qed.

Example database_not_listed_nil_datum :
  executeAndExpectMatchingRow 10 "q-1" "sales"
    (resultConn
       (Some (ResultSet.mk
                [Some (Row.mk [None; Some (Datum.mk (Some "default"))])])))
    []
  = ([], Panic).
Proof. reflexivity. Qed.

(** The search returns no error exactly when the query ended with a result
    set in which the loops reach a datum holding the name. *)
Lemma executeAndExpectMatchingRow_iff
    (fuel : nat) (qeid dbName : string) (conn : AthenaConn)
    (log : list StartQueryExecutionInput.t) :
  executeAndExpectMatchingRow fuel qeid dbName conn log = (log, Done None)
  ↔ ∃ rs, queryExecutionResult fuel qeid conn log
            = (log, Done (Some rs, None))
          ∧ matchingRow (ResultSet.Rows rs) dbName = Some true.
Proof.
  unfold executeAndExpectMatchingRow.
  destruct (queryExecutionResult_outcome fuel qeid conn log)
    as [[[[rs|] [e|]]| |] Hq].
  - rewrite (bind_run _ _ _ _ _ Hq), Hq.
    split; [done|]. by intros (? & [=] & _).
  - rewrite (bind_run _ _ _ _ _ Hq), Hq.
    cbn [fmap option_fmap option_map]. rewrite bind_must_Some.
    destruct (matchingRow (ResultSet.Rows rs) dbName) as [[|]|] eqn:Hfound.
    + rewrite bind_must_Some. split; [|done]. intros _. by exists rs.
    + rewrite bind_must_Some. split.
      * destruct (flattenAthenaResultSet (Some rs)) as [text|];
          [by rewrite bind_must_Some|by rewrite bind_must_None].
      * intros (rs' & [= <-] & Hrs). congruence.
    + rewrite bind_must_None. split; [done|].
      intros (rs' & [= <-] & Hrs). congruence.
  - rewrite (bind_run _ _ _ _ _ Hq), Hq.
    split; [done|]. by intros (? & [=] & _).
  - rewrite (bind_run _ _ _ _ _ Hq), Hq.
    cbn [fmap option_fmap option_map]. rewrite bind_must_None.
    split; [done|]. by intros (? & [=] & _).
  - rewrite Hq. split; [|by intros (? & [=] & _)].
    intros H. by eapply bind_not_Done in H; [|left].
  - rewrite Hq. split; [|by intros (? & [=] & _)].
    intros H. by eapply bind_not_Done in H; [|right].
Qed.

Lemma handler_outcome {A} (m : Handler A) log :
  silent m → ∃ outcome, m log = (log, outcome).
Proof.
  intros Hm. specialize (Hm log). destruct (m log) as [log' outcome].
  cbn in Hm. subst log'. by exists outcome.
Qed.

Lemma executeAndExpectNoRowsWhenCreate_silent (fuel : nat) (qeid : string)
    (conn : AthenaConn) :
  silent (executeAndExpectNoRowsWhenCreate fuel qeid conn).
Proof.
  unfold executeAndExpectNoRowsWhenCreate.
  apply silent_bind; [apply queryExecutionResult_silent|].
  intros [rs [e|]]; [apply silent_ret|].
  apply silent_bind; [apply silent_must|]. intros rows.
  destruct (negb _); [|apply silent_ret].
  apply silent_bind; [apply silent_must|]. intros ?. apply silent_ret.
Qed.

Lemma executeAndExpectMatchingRow_silent (fuel : nat) (qeid dbName : string)
    (conn : AthenaConn) :
  silent (executeAndExpectMatchingRow fuel qeid dbName conn).
Proof.
  unfold executeAndExpectMatchingRow.
  apply silent_bind; [apply queryExecutionResult_silent|].
  intros [rs [e|]]; [apply silent_ret|].
  apply silent_bind; [apply silent_must|]. intros rows.
  apply silent_bind; [apply silent_must|]. intros [|]; [apply silent_ret|].
  apply silent_bind; [apply silent_must|]. intros ?. apply silent_ret.
Qed.

(** ** The handlers, step by step *)

Section DatabaseHandlers.

Variable fuel : nat.
Variable d : ResourceData.
Variable conn : AthenaConn.
Variable name : string.
Variable force_destroy : bool.
Variable bucket : string.
Variable l : list Value.
Variable rc : ResultConfiguration.t.
Hypothesis Hd : databaseAttributes d name force_destroy bucket l.
Hypothesis Hrc : expandAthenaResultConfiguration bucket l = Some rc.

(** Each handler up to the service's answer to its submission. *)
Lemma delete_run (log : list StartQueryExecutionInput.t) :
  resourceAwsAthenaDatabaseDelete fuel d conn log
  = match StartQueryExecution conn (dropInput name force_destroy rc) with
    | (_, Some e) =>
        (log ++ [dropInput name force_destroy rc], Done (Some e))
    | (resp, None) =>
        (must resp ≫= λ resp,
           must (StartQueryExecutionOutput.QueryExecutionId resp) ≫= λ qeid,
             executeAndExpectNoRowsWhenDrop fuel qeid conn)
          (log ++ [dropInput name force_destroy rc])
    end.
Proof.
  destruct Hd as (Hname & Hforce & Hbucket & Henc & _).
  unfold resourceAwsAthenaDatabaseDelete.
  rewrite Hname, Hforce, Hbucket, Henc. cbn [asString asBool asList].
  rewrite !bind_must_Some, Hrc, bind_must_Some, bind_submit.
  rewrite dropDatabase_built. fold (dropInput name force_destroy rc).
  by destruct (StartQueryExecution conn _) as [resp [e|]].
Qed.

Lemma read_run (d' : ResourceData)
    (log : list StartQueryExecutionInput.t) :
  attributes d' = attributes d →
  resourceAwsAthenaDatabaseRead fuel d' conn log
  = match StartQueryExecution conn (showInput rc) with
    | (_, Some e) => (log ++ [showInput rc], Done (Some e))
    | (resp, None) =>
        (must resp ≫= λ resp,
           must (StartQueryExecutionOutput.QueryExecutionId resp) ≫= λ qeid,
             executeAndExpectMatchingRow fuel qeid name conn)
          (log ++ [showInput rc])
    end.
Proof.
  intros Hattr.
  destruct Hd as (Hname & _ & Hbucket & Henc & _).
  unfold resourceAwsAthenaDatabaseRead, Get in *. rewrite Hattr.
  rewrite Hname, Hbucket, Henc. cbn [asString asList].
  rewrite !bind_must_Some, Hrc, bind_must_Some, bind_submit.
  fold (showInput rc).
  destruct (StartQueryExecution conn _) as [[[[qeid|]]|] [e|]]; try done.
Qed.

Lemma read_log (d' : ResourceData) (log : list StartQueryExecutionInput.t) :
  attributes d' = attributes d →
  fst (resourceAwsAthenaDatabaseRead fuel d' conn log)
  = log ++ [showInput rc].
Proof.
  intros Hattr. rewrite (read_run d' log Hattr).
  destruct (StartQueryExecution conn _) as [[[[qeid|]]|] [e|]]; try done.
  rewrite bind_must_Some.
  cbn beta iota delta [StartQueryExecutionOutput.QueryExecutionId].
  rewrite bind_must_Some. apply executeAndExpectMatchingRow_silent.
Qed.

Lemma create_run (log : list StartQueryExecutionInput.t) :
  resourceAwsAthenaDatabaseCreate fuel d conn log
  = match StartQueryExecution conn (createInput name rc) with
    | (_, Some e) => (log ++ [createInput name rc], Done (d, Some e))
    | (resp, None) =>
        (must resp ≫= λ resp,
           must (StartQueryExecutionOutput.QueryExecutionId resp) ≫= λ qeid,
             executeAndExpectNoRowsWhenCreate fuel qeid conn ≫= λ err,
               match err with
               | Some e => hret (d, Some e)
               | None =>
                   resourceAwsAthenaDatabaseRead fuel (SetId d name) conn
                     ≫= λ err, hret (SetId d name, err)
               end)
          (log ++ [createInput name rc])
    end.
Proof.
  destruct Hd as (Hname & _ & Hbucket & Henc & _).
  unfold resourceAwsAthenaDatabaseCreate.
  rewrite Hname, Hbucket, Henc. cbn [asString asList].
  rewrite !bind_must_Some, Hrc, bind_must_Some, bind_submit.
  fold (createInput name rc).
  by destruct (StartQueryExecution conn _) as [resp [e|]].
Qed.

(** X5.  A submission the service refuses: each handler returns the
    service's error as it is, having submitted its one query and nothing
    else, and the create handler leaves the resource id as it was. *)
Theorem refused_submission
    (log : list StartQueryExecutionInput.t) (e : error) :
  (∀ input, snd (StartQueryExecution conn input) = Some e) →
  resourceAwsAthenaDatabaseCreate fuel d conn log
  = (log ++ [createInput name rc], Done (d, Some e))
  ∧ resourceAwsAthenaDatabaseRead fuel d conn log
    = (log ++ [showInput rc], Done (Some e))
  ∧ resourceAwsAthenaDatabaseUpdate fuel d conn log
    = (log ++ [showInput rc], Done (Some e))
  ∧ resourceAwsAthenaDatabaseDelete fuel d conn log
    = (log ++ [dropInput name force_destroy rc], Done (Some e)).
Proof.
  intros Hrefuse.
  assert (∀ input, ∃ resp, StartQueryExecution conn input = (resp, Some e))
    as Hanswer.
  { intros input. specialize (Hrefuse input).
    destruct (StartQueryExecution conn input) as [resp err].
    cbn in Hrefuse. subst err. by exists resp. }
  unfold resourceAwsAthenaDatabaseUpdate.
  rewrite create_run, (read_run d log eq_refl), delete_run.
  destruct (Hanswer (createInput name rc)) as [? ->].
  destruct (Hanswer (showInput rc)) as [? ->].
  by destruct (Hanswer (dropInput name force_destroy rc)) as [? ->].
Qed.

(** X6.  The delete handler returns no error exactly when the service
    accepts the drop query, the query ends with a result set, and that
    result set has no rows. *)
Theorem resourceAwsAthenaDatabaseDelete_succeeds_iff
    (log : list StartQueryExecutionInput.t) :
  resourceAwsAthenaDatabaseDelete fuel d conn log
  = (log ++ [dropInput name force_destroy rc], Done None)
  ↔ ∃ qeid rs,
      StartQueryExecution conn (dropInput name force_destroy rc)
      = accepted qeid
      ∧ queryExecutionResult fuel qeid conn
          (log ++ [dropInput name force_destroy rc])
        = (log ++ [dropInput name force_destroy rc], Done (Some rs, None))
      ∧ ResultSet.Rows rs = [].
Proof.
  rewrite delete_run. unfold accepted.
  destruct (StartQueryExecution conn _) as [[[[qeid|]]|] [e|]].
  - split; [done|]. by intros (? & ? & [=] & _).
  - rewrite bind_must_Some.
    cbn beta iota delta [StartQueryExecutionOutput.QueryExecutionId].
    rewrite bind_must_Some.
    rewrite (proj2 (executeAndExpectNoRows_iff_shared fuel qeid conn _)).
    split.
    + intros (rs & Hq & Hrows). by exists qeid, rs.
    + intros (qeid' & rs & [= <-] & Hq & Hrows). by exists rs.
  - split; [done|]. by intros (? & ? & [=] & _).
  - rewrite bind_must_Some.
    cbn beta iota delta [StartQueryExecutionOutput.QueryExecutionId].
    rewrite bind_must_None.
    split; [done|]. by intros (? & ? & [=] & _).
  - split; [done|]. by intros (? & ? & [=] & _).
  - rewrite bind_must_None. split; [done|]. by intros (? & ? & [=] & _).
Qed.

Lemma read_succeeds_iff (d' : ResourceData)
    (log : list StartQueryExecutionInput.t) :
  attributes d' = attributes d →
  resourceAwsAthenaDatabaseRead fuel d' conn log
  = (log ++ [showInput rc], Done None)
  ↔ ∃ qeid rs,
      StartQueryExecution conn (showInput rc) = accepted qeid
      ∧ queryExecutionResult fuel qeid conn (log ++ [showInput rc])
        = (log ++ [showInput rc], Done (Some rs, None))
      ∧ matchingRow (ResultSet.Rows rs) name = Some true.
Proof.
  intros Hattr. rewrite (read_run d' log Hattr). unfold accepted.
  destruct (StartQueryExecution conn _) as [[[[qeid|]]|] [e|]].
  - split; [done|]. by intros (? & ? & [=] & _).
  - rewrite bind_must_Some.
    cbn beta iota delta [StartQueryExecutionOutput.QueryExecutionId].
    rewrite bind_must_Some, executeAndExpectMatchingRow_iff.
    split.
    + intros (rs & Hq & Hrows). by exists qeid, rs.
    + intros (qeid' & rs & [= <-] & Hq & Hrows). by exists rs.
  - split; [done|]. by intros (? & ? & [=] & _).
  - rewrite bind_must_Some.
    cbn beta iota delta [StartQueryExecutionOutput.QueryExecutionId].
    rewrite bind_must_None.
    split; [done|]. by intros (? & ? & [=] & _).
  - split; [done|]. by intros (? & ? & [=] & _).
  - rewrite bind_must_None. split; [done|]. by intros (? & ? & [=] & _).
Qed.

(** X7.  The read handler, and the update handler, which is the same code,
    return no error exactly when the service accepts [show databases;], the
    query ends with a result set, and the search of its rows reaches a
    datum that holds the database's name. *)
Theorem resourceAwsAthenaDatabaseRead_succeeds_iff
    (log : list StartQueryExecutionInput.t) :
  (resourceAwsAthenaDatabaseRead fuel d conn log
   = (log ++ [showInput rc], Done None)
   ↔ ∃ qeid rs,
       StartQueryExecution conn (showInput rc) = accepted qeid
       ∧ queryExecutionResult fuel qeid conn (log ++ [showInput rc])
         = (log ++ [showInput rc], Done (Some rs, None))
       ∧ matchingRow (ResultSet.Rows rs) name = Some true)
  ∧ resourceAwsAthenaDatabaseUpdate fuel d conn log
    = resourceAwsAthenaDatabaseRead fuel d conn log.
Proof.
  split; [by apply read_succeeds_iff|done].
Qed.

(** X8.  The create handler sets the resource id to the database name
    exactly after the check of the create query has passed, and then ends
    as the read handler does: if the check fails the handler returns its
    error with the id as it was, and if the read that follows fails the
    handler returns that error with the id already set. *)
Theorem resourceAwsAthenaDatabaseCreate_then_read
    (log : list StartQueryExecutionInput.t) (qeid : string) :
  StartQueryExecution conn (createInput name rc) = accepted qeid →
  (∀ e,
     executeAndExpectNoRowsWhenCreate fuel qeid conn
       (log ++ [createInput name rc])
     = (log ++ [createInput name rc], Done (Some e)) →
     resourceAwsAthenaDatabaseCreate fuel d conn log
     = (log ++ [createInput name rc], Done (d, Some e)))
  ∧ (executeAndExpectNoRowsWhenCreate fuel qeid conn
       (log ++ [createInput name rc])
     = (log ++ [createInput name rc], Done None) →
     resourceAwsAthenaDatabaseCreate fuel d conn log
     = match resourceAwsAthenaDatabaseRead fuel (SetId d name) conn
               (log ++ [createInput name rc]) with
       | (log', Done err) => (log', Done (SetId d name, err))
       | (log', Panic) => (log', Panic)
       | (log', OutOfFuel) => (log', OutOfFuel)
       end).
Proof.
  intros Hstart. rewrite create_run, Hstart. unfold accepted.
  rewrite bind_must_Some.
  cbn beta iota delta [StartQueryExecutionOutput.QueryExecutionId].
  rewrite bind_must_Some. split.
  - intros e Hcheck. by rewrite (bind_run _ _ _ _ _ Hcheck).
  - intros Hcheck. rewrite (bind_run _ _ _ _ _ Hcheck).
    unfold mbind, Handler_bind, hbind.
    by destruct (resourceAwsAthenaDatabaseRead _ _ _ _) as [log' [err| |]].
Qed.

(** X9.  The create handler returns no error exactly when the service
    accepts the create query, that query ends with a result set without
    rows, the service accepts [show databases;], and the search of its
    result reaches a datum that holds the name; the resource id is then the
    name and the two queries were submitted in that order. *)
Theorem resourceAwsAthenaDatabaseCreate_succeeds_iff
    (log log' : list StartQueryExecutionInput.t) (d' : ResourceData) :
  resourceAwsAthenaDatabaseCreate fuel d conn log = (log', Done (d', None))
  ↔ d' = SetId d name
    ∧ log' = log ++ [createInput name rc; showInput rc]
    ∧ ∃ qeid rs qeid' rs',
        StartQueryExecution conn (createInput name rc) = accepted qeid
        ∧ queryExecutionResult fuel qeid conn (log ++ [createInput name rc])
          = (log ++ [createInput name rc], Done (Some rs, None))
        ∧ ResultSet.Rows rs = []
        ∧ StartQueryExecution conn (showInput rc) = accepted qeid'
        ∧ queryExecutionResult fuel qeid' conn
            (log ++ [createInput name rc; showInput rc])
          = (log ++ [createInput name rc; showInput rc],
             Done (Some rs', None))
        ∧ matchingRow (ResultSet.Rows rs') name = Some true.
Proof.
  rewrite create_run. unfold accepted.
  destruct (StartQueryExecution conn (createInput name rc))
    as [[[[qeid|]]|] [e|]].
  1,3,5: split; [done|]; by intros (_ & _ & ? & ? & ? & ? & [=] & _).
  2: { rewrite bind_must_Some.
       cbn beta iota delta [StartQueryExecutionOutput.QueryExecutionId].
       rewrite bind_must_None.
       split; [done|]. by intros (_ & _ & ? & ? & ? & ? & [=] & _). }
  2: { rewrite bind_must_None.
       split; [done|]. by intros (_ & _ & ? & ? & ? & ? & [=] & _). }
  rewrite bind_must_Some.
  cbn beta iota delta [StartQueryExecutionOutput.QueryExecutionId].
  rewrite bind_must_Some.
  pose proof (proj1 (executeAndExpectNoRows_iff_shared fuel qeid conn
                       (log ++ [createInput name rc]))) as Hcheck.
  destruct (handler_outcome _ (log ++ [createInput name rc])
              (executeAndExpectNoRowsWhenCreate_silent fuel qeid conn))
    as [[[e|]| |] Hc].
  - rewrite (bind_run _ _ _ _ _ Hc). split; [done|].
    intros (_ & _ & qeid0 & rs & ? & ? & [= <-] & Hq & Hrows & _).
    assert (executeAndExpectNoRowsWhenCreate fuel qeid conn
              (log ++ [createInput name rc])
            = (log ++ [createInput name rc], Done None)) as Hnone.
    { apply Hcheck. by exists rs. }
    congruence.
  - rewrite (bind_run _ _ _ _ _ Hc).
    apply Hcheck in Hc as (rs & Hq & Hrows).
    pose proof (read_succeeds_iff (SetId d name)
                  (log ++ [createInput name rc]) eq_refl) as Hread.
    pose proof (read_log (SetId d name) (log ++ [createInput name rc])
                  eq_refl) as Hlog.
    rewrite <- !app_assoc in Hread, Hlog. cbn [app] in Hread, Hlog.
    unfold mbind, Handler_bind, hbind.
    destruct (resourceAwsAthenaDatabaseRead fuel (SetId d name) conn
                (log ++ [createInput name rc])) as [log'' [err| |]];
      cbn [fst] in Hlog; subst log''.
    + split.
      * intros [= <- <- ->]. split; [done|]. split; [done|].
        destruct (proj1 Hread eq_refl) as (qeid' & rs' & Hs & Hq' & Hm).
        by exists qeid, rs, qeid', rs'.
      * intros (-> & -> & qeid0 & rs0 & qeid' & rs' & _ & _ & _ & Hs & Hq'
                & Hm).
        assert ((log ++ [createInput name rc; showInput rc], Done err)
                = (log ++ [createInput name rc; showInput rc],
                   @Done (option error) None)) as [= ->].
        { apply Hread. by exists qeid', rs'. }
        done.
    + split; [done|].
      intros (_ & _ & qeid0 & rs0 & qeid' & rs' & _ & _ & _ & Hs & Hq' & Hm).
      assert ((log ++ [createInput name rc; showInput rc], Panic)
              = (log ++ [createInput name rc; showInput rc],
                 @Done (option error) None)) as [=].
      apply Hread. by exists qeid', rs'.
    + split; [done|].
      intros (_ & _ & qeid0 & rs0 & qeid' & rs' & _ & _ & _ & Hs & Hq' & Hm).
      assert ((log ++ [createInput name rc; showInput rc], OutOfFuel)
              = (log ++ [createInput name rc; showInput rc],
                 @Done (option error) None)) as [=].
      apply Hread. by exists qeid', rs'.
  - split; [intros H; by eapply bind_not_Done in H; [|left]|].
    intros (_ & _ & qeid0 & rs & ? & ? & [= <-] & Hq & Hrows & _).
    assert (executeAndExpectNoRowsWhenCreate fuel qeid conn
              (log ++ [createInput name rc])
            = (log ++ [createInput name rc], Done None)) as Hnone.
    { apply Hcheck. by exists rs. }
    congruence.
  - split; [intros H; by eapply bind_not_Done in H; [|right]|].
    intros (_ & _ & qeid0 & rs & ? & ? & [= <-] & Hq & Hrows & _).
    assert (executeAndExpectNoRowsWhenCreate fuel qeid conn
              (log ++ [createInput name rc])
            = (log ++ [createInput name rc], Done None)) as Hnone.
    { apply Hcheck. by exists rs. }
    congruence.
Qed.

End DatabaseHandlers.

(** ** The handlers on worked services *)

Lemma databaseData_attributes (name : string) (force_destroy : bool)
    (bucket : string) (l : list Value) :
  Forall encryptionConfigurationElem l →
  databaseAttributes (databaseData name force_destroy bucket l)
    name force_destroy bucket l.
Proof. intros Hl. by repeat split. Qed.

Lemma refused_submission_witness :
  resourceAwsAthenaDatabaseCreate 10 (databaseData "sales" true "logs" [])
    (refusingConn (AwsErr "InvalidRequestException" "no such bucket")) []
  = ([] ++ [createInput "sales" (ResultConfiguration.mk (Some "s3://logs")
                                   None)],
     Done (databaseData "sales" true "logs" [],
           Some (AwsErr "InvalidRequestException" "no such bucket")))
  ∧ resourceAwsAthenaDatabaseRead 10 (databaseData "sales" true "logs" [])
      (refusingConn (AwsErr "InvalidRequestException" "no such bucket")) []
    = ([] ++ [showInput (ResultConfiguration.mk (Some "s3://logs") None)],
       Done (Some (AwsErr "InvalidRequestException" "no such bucket")))
  ∧ resourceAwsAthenaDatabaseUpdate 10 (databaseData "sales" true "logs" [])
      (refusingConn (AwsErr "InvalidRequestException" "no such bucket")) []
    = ([] ++ [showInput (ResultConfiguration.mk (Some "s3://logs") None)],
       Done (Some (AwsErr "InvalidRequestException" "no such bucket")))
  ∧ resourceAwsAthenaDatabaseDelete 10 (databaseData "sales" true "logs" [])
      (refusingConn (AwsErr "InvalidRequestException" "no such bucket")) []
    = ([] ++ [dropInput "sales" true
                (ResultConfiguration.mk (Some "s3://logs") None)],
       Done (Some (AwsErr "InvalidRequestException" "no such bucket"))).
Proof.
  apply (refused_submission 10 (databaseData "sales" true "logs" [])
           (refusingConn (AwsErr "InvalidRequestException" "no such bucket"))
           "sales" true "logs" []).
  - apply databaseData_attributes. constructor.
  - reflexivity.
  - reflexivity.
Defined.

Lemma resourceAwsAthenaDatabaseDelete_succeeds_iff_witness :
  resourceAwsAthenaDatabaseDelete 10 (databaseData "sales" false "logs" [])
    (catalogConn ["default"]) []
  = ([] ++ [dropInput "sales" false
              (ResultConfiguration.mk (Some "s3://logs") None)],
     Done None)
  ↔ ∃ qeid rs,
      StartQueryExecution (catalogConn ["default"])
        (dropInput "sales" false
           (ResultConfiguration.mk (Some "s3://logs") None))
      = accepted qeid
      ∧ queryExecutionResult 10 qeid (catalogConn ["default"])
          ([] ++ [dropInput "sales" false
                    (ResultConfiguration.mk (Some "s3://logs") None)])
        = ([] ++ [dropInput "sales" false
                    (ResultConfiguration.mk (Some "s3://logs") None)],
           Done (Some rs, None))
      ∧ ResultSet.Rows rs = [].
Proof.
  apply (resourceAwsAthenaDatabaseDelete_succeeds_iff 10
           (databaseData "sales" false "logs" []) (catalogConn ["default"])
           "sales" false "logs" []).
  - apply databaseData_attributes. constructor.
  - reflexivity.
Defined.

Lemma resourceAwsAthenaDatabaseRead_succeeds_iff_witness :
  (resourceAwsAthenaDatabaseRead 10 (databaseData "sales" false "logs" [])
     (catalogConn ["default"; "sales"]) []
   = ([] ++ [showInput (ResultConfiguration.mk (Some "s3://logs") None)],
      Done None)
   ↔ ∃ qeid rs,
       StartQueryExecution (catalogConn ["default"; "sales"])
         (showInput (ResultConfiguration.mk (Some "s3://logs") None))
       = accepted qeid
       ∧ queryExecutionResult 10 qeid (catalogConn ["default"; "sales"])
           ([] ++ [showInput (ResultConfiguration.mk (Some "s3://logs")
                                None)])
         = ([] ++ [showInput (ResultConfiguration.mk (Some "s3://logs")
                                None)],
            Done (Some rs, None))
       ∧ matchingRow (ResultSet.Rows rs) "sales" = Some true)
  ∧ resourceAwsAthenaDatabaseUpdate 10
      (databaseData "sales" false "logs" [])
      (catalogConn ["default"; "sales"]) []
    = resourceAwsAthenaDatabaseRead 10
        (databaseData "sales" false "logs" [])
        (catalogConn ["default"; "sales"]) [].
Proof.
  apply (resourceAwsAthenaDatabaseRead_succeeds_iff 10
           (databaseData "sales" false "logs" [])
           (catalogConn ["default"; "sales"]) "sales" false "logs" []).
  - apply databaseData_attributes. constructor.
  - reflexivity.
Defined.

(** A database the service lists is read without error; one it does not
    list is an error that quotes the list. *)
Example read_listed_database :
  resourceAwsAthenaDatabaseRead 10 (databaseData "sales" false "logs" [])
    (catalogConn ["default"; "sales"]) []
  = ([showInput (ResultConfiguration.mk (Some "s3://logs") None)],
     Done None).
Proof. vm_compute. reflexivity. Qed.

Example read_unlisted_database :
  snd (resourceAwsAthenaDatabaseRead 10
         (databaseData "sales" false "logs" [])
         (catalogConn ["default"; "logs"]) [])
  = Done (Some (Errorf
            ("Athena not found database: sales, query result: default"
             +:+ lineFeed +:+ "logs"))).
Proof. vm_compute. reflexivity. Qed.

Lemma resourceAwsAthenaDatabaseCreate_then_read_witness :
  (∀ e,
     executeAndExpectNoRowsWhenCreate 10 "create database `sales`;"
       (catalogConn ["default"])
       ([] ++ [createInput "sales"
                 (ResultConfiguration.mk (Some "s3://logs") None)])
     = ([] ++ [createInput "sales"
                 (ResultConfiguration.mk (Some "s3://logs") None)],
        Done (Some e)) →
     resourceAwsAthenaDatabaseCreate 10
       (databaseData "sales" false "logs" []) (catalogConn ["default"]) []
     = ([] ++ [createInput "sales"
                 (ResultConfiguration.mk (Some "s3://logs") None)],
        Done (databaseData "sales" false "logs" [], Some e)))
  ∧ (executeAndExpectNoRowsWhenCreate 10 "create database `sales`;"
       (catalogConn ["default"])
       ([] ++ [createInput "sales"
                 (ResultConfiguration.mk (Some "s3://logs") None)])
     = ([] ++ [createInput "sales"
                 (ResultConfiguration.mk (Some "s3://logs") None)],
        Done None) →
     resourceAwsAthenaDatabaseCreate 10
       (databaseData "sales" false "logs" []) (catalogConn ["default"]) []
     = match resourceAwsAthenaDatabaseRead 10
               (SetId (databaseData "sales" false "logs" []) "sales")
               (catalogConn ["default"])
               ([] ++ [createInput "sales"
                         (ResultConfiguration.mk (Some "s3://logs") None)])
       with
       | (log', Done err) =>
           (log', Done (SetId (databaseData "sales" false "logs" []) "sales",
                        err))
       | (log', Panic) => (log', Panic)
       | (log', OutOfFuel) => (log', OutOfFuel)
       end).
Proof.
  apply (resourceAwsAthenaDatabaseCreate_then_read 10
           (databaseData "sales" false "logs" []) (catalogConn ["default"])
           "sales" false "logs" []).
  - apply databaseData_attributes. constructor.
  - reflexivity.
  - reflexivity.
Defined.

(** A database the service does not list after the create query: the create
    handler returns the read's error, and the id is set all the same. *)
Example create_unlisted_database :
  resourceAwsAthenaDatabaseCreate 10
    (mkResourceData "" (attributes (databaseData "sales" false "logs" [])))
    (catalogConn ["default"]) []
  = ([createInput "sales" (ResultConfiguration.mk (Some "s3://logs") None);
      showInput (ResultConfiguration.mk (Some "s3://logs") None)],
     Done (databaseData "sales" false "logs" [],
           Some (Errorf
             "Athena not found database: sales, query result: default"))).
Proof. vm_compute. reflexivity. Qed.

Lemma resourceAwsAthenaDatabaseCreate_succeeds_iff_witness :
  resourceAwsAthenaDatabaseCreate 10
    (mkResourceData "" (attributes (databaseData "sales" false "logs" [])))
    (catalogConn ["default"; "sales"]) []
  = ([createInput "sales" (ResultConfiguration.mk (Some "s3://logs") None);
      showInput (ResultConfiguration.mk (Some "s3://logs") None)],
     Done (databaseData "sales" false "logs" [], None))
  ↔ databaseData "sales" false "logs" []
    = SetId (mkResourceData ""
               (attributes (databaseData "sales" false "logs" []))) "sales"
    ∧ [createInput "sales" (ResultConfiguration.mk (Some "s3://logs") None);
       showInput (ResultConfiguration.mk (Some "s3://logs") None)]
      = [] ++ [createInput "sales"
                 (ResultConfiguration.mk (Some "s3://logs") None);
               showInput (ResultConfiguration.mk (Some "s3://logs") None)]
    ∧ ∃ qeid rs qeid' rs',
        StartQueryExecution (catalogConn ["default"; "sales"])
          (createInput "sales"
             (ResultConfiguration.mk (Some "s3://logs") None))
        = accepted qeid
        ∧ queryExecutionResult 10 qeid (catalogConn ["default"; "sales"])
            ([] ++ [createInput "sales"
                      (ResultConfiguration.mk (Some "s3://logs") None)])
          = ([] ++ [createInput "sales"
                      (ResultConfiguration.mk (Some "s3://logs") None)],
             Done (Some rs, None))
        ∧ ResultSet.Rows rs = []
        ∧ StartQueryExecution (catalogConn ["default"; "sales"])
            (showInput (ResultConfiguration.mk (Some "s3://logs") None))
          = accepted qeid'
        ∧ queryExecutionResult 10 qeid' (catalogConn ["default"; "sales"])
            ([] ++ [createInput "sales"
                      (ResultConfiguration.mk (Some "s3://logs") None);
                    showInput
                      (ResultConfiguration.mk (Some "s3://logs") None)])
          = ([] ++ [createInput "sales"
                      (ResultConfiguration.mk (Some "s3://logs") None);
                    showInput
                      (ResultConfiguration.mk (Some "s3://logs") None)],
             Done (Some rs', None))
        ∧ matchingRow (ResultSet.Rows rs') "sales" = Some true.
Proof.
  apply (resourceAwsAthenaDatabaseCreate_succeeds_iff 10
           (mkResourceData ""
              (attributes (databaseData "sales" false "logs" [])))
           (catalogConn ["default"; "sales"]) "sales" false "logs" []).
  - apply (databaseData_attributes "sales" false "logs" []). constructor.
  - reflexivity.
Defined.

Example create_listed_database :
  resourceAwsAthenaDatabaseCreate 10
    (mkResourceData "" (attributes (databaseData "sales" false "logs" [])))
    (catalogConn ["default"; "sales"]) []
  = ([createInput "sales" (ResultConfiguration.mk (Some "s3://logs") None);
      showInput (ResultConfiguration.mk (Some "s3://logs") None)],
     Done (databaseData "sales" false "logs" [], None)).
Proof. vm_compute. reflexivity. Qed.

(** ** Errors of the wait and of the result request *)

Lemma queryExecutionResult_error (fuel : nat) (qeid : string)
    (conn : AthenaConn) (log : list StartQueryExecutionInput.t) (e : error) :
  (∃ run, waitForQuery fuel qeid conn = Some run ∧ returned run = inr e)
  ∨ (∃ run result resp,
       waitForQuery fuel qeid conn = Some run
       ∧ returned run = inl result
       ∧ GetQueryResults conn (GetQueryResultsInput.mk (Some qeid))
         = (resp, Some e)) →
  queryExecutionResult fuel qeid conn log = (log, Done (None, Some e)).
Proof.
  unfold queryExecutionResult, waitForQuery.
  intros [(run & -> & Hret)|(run & result & resp & -> & Hret & Hres)].
  - rewrite (bind_run _ _ log log run) by done. by rewrite Hret.
  - rewrite (bind_run _ _ log log run) by done. by rewrite Hret, Hres.
Qed.

(** X10.  An error of the wait, or of the request for the results once the
    wait has succeeded, reaches the caller of [queryExecutionResult]
    unchanged and with no result set, and each of the three checks built on
    it returns that same error. *)
Theorem query_error_passes_through (fuel : nat) (qeid dbName : string)
    (conn : AthenaConn) (log : list StartQueryExecutionInput.t) (e : error) :
  (∃ run, waitForQuery fuel qeid conn = Some run ∧ returned run = inr e)
  ∨ (∃ run result resp,
       waitForQuery fuel qeid conn = Some run
       ∧ returned run = inl result
       ∧ GetQueryResults conn (GetQueryResultsInput.mk (Some qeid))
         = (resp, Some e)) →
  queryExecutionResult fuel qeid conn log = (log, Done (None, Some e))
  ∧ executeAndExpectNoRowsWhenCreate fuel qeid conn log
    = (log, Done (Some e))
  ∧ executeAndExpectMatchingRow fuel qeid dbName conn log
    = (log, Done (Some e))
  ∧ executeAndExpectNoRowsWhenDrop fuel qeid conn log
    = (log, Done (Some e)).
Proof.
  intros Hq%(queryExecutionResult_error _ _ _ log).
  unfold executeAndExpectNoRowsWhenCreate, executeAndExpectMatchingRow,
    executeAndExpectNoRowsWhenDrop.
  by rewrite !(bind_run _ _ _ _ _ Hq).
Qed.

Lemma query_error_passes_through_witness :
  queryExecutionResult 10 "q-1" syntaxErrorQuery []
  = ([], Done (None, Some (Errorf "reason: syntax error")))
  ∧ executeAndExpectNoRowsWhenCreate 10 "q-1" syntaxErrorQuery []
    = ([], Done (Some (Errorf "reason: syntax error")))
  ∧ executeAndExpectMatchingRow 10 "q-1" "sales" syntaxErrorQuery []
    = ([], Done (Some (Errorf "reason: syntax error")))
  ∧ executeAndExpectNoRowsWhenDrop 10 "q-1" syntaxErrorQuery []
    = ([], Done (Some (Errorf "reason: syntax error"))).
Proof.
  apply (query_error_passes_through 10 "q-1" "sales" syntaxErrorQuery []).
  left. eexists. split; reflexivity.
Defined.

(** A drop query that fails: the delete handler returns the reason. *)
Example delete_failed_query :
  snd (resourceAwsAthenaDatabaseDelete 10
         (databaseData "sales" false "logs" []) syntaxErrorQuery [])
  = Done (Some (Errorf "reason: syntax error")).
Proof. vm_compute. reflexivity. Qed.

(** ** What the probe reports *)

(** X11.  The probe reports an error only under the status [failed] (the
    request failed) or [FAILED] (the query failed and gave a reason), and
    the wait of the resource accepts neither as pending or as target; it
    reports a nil result only under the status [failed] or the empty
    status; and with a result and no error the status is the state the
    service gave. *)
Theorem queryExecutionStateRefreshFunc_report
    (qeid : string) (conn : AthenaConn) (k : nat) :
  ∃ result status err,
    queryExecutionStateRefreshFunc qeid conn k = (result, status, err)
    ∧ (is_Some err →
       (status = "failed" ∨ status = QueryExecutionStateFailed)
       ∧ (status ∉ pendingStatuses (athenaSpec qeid conn))
       ∧ (status ∉ targetStatuses (athenaSpec qeid conn)))
    ∧ (result = None → status = "failed" ∨ status = "")
    ∧ (is_Some result → err = None →
       ∃ st, statusContainer result = Some st
             ∧ status = StringValue (QueryExecutionStatus.State st)).
Proof.
  unfold queryExecutionStateRefreshFunc.
  destruct (GetQueryExecution conn k _) as [out [e|]].
  - eexists _, _, _. split; [done|]. split; [|split].
    + intros _. split; [by left|]. split.
      * by intros [H | H]%athenaSpec_pending.
      * by intros H%athenaSpec_target.
    + intros _. by left.
    + by intros [? [=]].
  - destruct out as [[[[[st|]]|]]|].
    2-4: eexists _, _, _; split; [done|]; split; [by intros [? [=]]|];
         split; [intros _; by right|by intros [? [=]]].
    eexists _, _, _. split; [done|]. split; [|split].
    + destruct (String.eqb_spec
                  (StringValue (QueryExecutionStatus.State st))
                  QueryExecutionStateFailed) as [Heq|Hne]; cbn [andb].
      * rewrite Heq. intros _. split; [by right|]. split.
        -- by intros [H | H]%athenaSpec_pending.
        -- by intros H%athenaSpec_target.
      * by intros [? [=]].
    + done.
    + intros _ _. by exists st.
Qed.

(** ** The wait always ends *)

Section WaitEnds.

Context {R : Type}.
Variable spec : PollSpec.
Variable probe : StatusProbe R.
Variable latency : nat → N.

(** A probe call that does not keep the session polling ends it. *)
Lemma pollLoop_ends (fuel k : nat) :
  keepsPolling spec probe latency k = false →
  ∃ ret,
    pollLoop spec probe latency (S fuel) k (clockBefore spec latency k)
    = Some (mkPollRun (S k) (clockAfter spec latency k) ret).
Proof.
  unfold keepsPolling. cbn [pollLoop]. fold (clockAfter spec latency k).
  destruct (probe k) as [[result status] [e|]]; [by eexists|].
  destruct (classify spec status); [|by eexists..].
  intros ->%negb_false_iff. by eexists.
Qed.

(** If the elapsed time at the check after some call exceeds the timeout,
    the session ends at that call or before, whatever the probe returns. *)
Lemma WaitForTerminal_ends (k : nat) :
  (timeout spec < clockAfter spec latency k)%Z →
  ∃ n ret, n ≤ k ∧ ∀ fuel, n < fuel →
    WaitForTerminal spec probe latency fuel
    = Some (mkPollRun (S n) (clockAfter spec latency n) ret).
Proof.
  intros Hk.
  assert (keepsPolling spec probe latency k = false) as Hstop.
  { unfold keepsPolling. destruct (probe k) as [[result status] [e|]];
      [done|]. destruct (classify spec status); [|done..].
    by apply negb_false_iff, Z.ltb_lt. }
  destruct (least_index (λ j, keepsPolling spec probe latency j = false)
              k Hstop) as (n & Hle & Hn & Hleast).
  destruct (pollLoop_ends 0 n Hn) as [ret Hret].
  exists n, ret. split; [done|]. intros fuel Hfuel.
  replace fuel with (n + S (fuel - S n)) by lia.
  rewrite WaitForTerminal_reaches.
  - destruct (pollLoop_ends (fuel - S n) n Hn) as [ret' Hret'].
    rewrite Hret'.
    by rewrite (pollLoop_deterministic _ _ _ _ _ _ _ _ _ Hret Hret').
  - intros j Hj. specialize (Hleast j Hj).
    by destruct (keepsPolling spec probe latency j).
Qed.

End WaitEnds.

(** Whatever the service answers, and however long its answers take,
    the wait of [queryExecutionResult] (three seconds of delay and of
    interval, ten minutes of timeout) ends after at most 201 status
    requests: 201 iterations are enough for every connection, so that none
    of the handlers is cut short by the model's bound. *)
Theorem waitForQuery_ends (qeid : string) (conn : AthenaConn) (fuel : nat) :
  201 ≤ fuel →
  (∃ run, waitForQuery fuel qeid conn = Some run ∧ probeCalls run ≤ 201)
  ∧ ∀ log, ∃ outcome,
      queryExecutionResult fuel qeid conn log = (log, Done outcome)
      ∨ queryExecutionResult fuel qeid conn log = (log, Panic).
Proof.
  intros Hfuel.
  assert (∃ run, waitForQuery fuel qeid conn = Some run
                 ∧ probeCalls run ≤ 201) as (run & Hrun & Hcalls).
  { destruct (WaitForTerminal_ends (athenaSpec qeid conn)
                (queryExecutionStateRefreshFunc qeid conn)
                (GetQueryExecutionTime conn) 200) as (n & ret & Hn & Hend).
    - pose proof (clockAfter_grows (athenaSpec qeid conn)
                    (GetQueryExecutionTime conn) 200) as Hgrow.
      eapply Z.lt_le_trans; [|exact Hgrow]. by vm_compute.
    - eexists. split; [apply Hend; lia|]. cbn. lia. }
  split; [by exists run|]. intros log.
  unfold queryExecutionResult. fold (waitForQuery fuel qeid conn).
  rewrite (bind_run _ _ log log run) by (by rewrite Hrun).
  destruct (returned run); [|by eexists; left].
  destruct (GetQueryResults conn _) as [[resp|] [e|]].
  - eexists. by left.
  - eexists. rewrite bind_must_Some. by left.
  - eexists. by left.
  - exists (None, None). rewrite bind_must_None. by right.
Qed.

Lemma waitForQuery_ends_witness :
  (∃ run, waitForQuery 201 "q-1" stuckQuery = Some run
          ∧ probeCalls run ≤ 201)
  ∧ ∀ log, ∃ outcome,
      queryExecutionResult 201 "q-1" stuckQuery log = (log, Done outcome)
      ∨ queryExecutionResult 201 "q-1" stuckQuery log = (log, Panic).
Proof.
  apply (waitForQuery_ends "q-1" stuckQuery 201). lia.
Defined.

(** ** Names the schema accepts stay inside their quotes *)

Lemma countChar_append (c : Ascii.ascii) (s t : string) :
  countChar c (s +:+ t) = countChar c s + countChar c t.
Proof.
  induction s as [|x s IH]; [done|].
  rewrite append_cons. cbn [countChar]. rewrite IH. lia.
Qed.

Lemma countChar_name (c : Ascii.ascii) (name : string) :
  nameChar c = false →
  forallb nameChar (String.list_ascii_of_string name) = true →
  countChar c name = 0.
Proof.
  intros Hc. induction name as [|x name IH]; [done|].
  cbn [String.list_ascii_of_string forallb countChar].
  intros [Hx Hname]%andb_true_iff. rewrite IH by done.
  destruct (Ascii.eqb_spec x c) as [->|]; [congruence|done].
Qed.

(** X12.  For a name the schema's regular expression accepts, the create
    and the drop statement hold exactly two backquotes, those around the
    name, and exactly one semicolon, the one that ends the statement: the
    name can neither close its quote nor begin a second statement. *)
Theorem validName_stays_quoted (name : string) (force_destroy : bool)
    (rc : ResultConfiguration.t) :
  validName name = true →
  ∃ create drop,
    StartQueryExecutionInput.QueryString (createInput name rc) = Some create
    ∧ StartQueryExecutionInput.QueryString
        (dropInput name force_destroy rc) = Some drop
    ∧ countChar "`" create = 2 ∧ countChar ";" create = 1
    ∧ countChar "`" drop = 2 ∧ countChar ";" drop = 1.
Proof.
  intros [_ Hname]%andb_true_iff.
  eexists _, _. split; [done|]. split; [done|].
  unfold dropDatabase. destruct force_destroy;
    rewrite !countChar_append, !(countChar_name _ name) by done;
    by repeat split.
Qed.

Lemma validName_stays_quoted_witness :
  ∃ create drop,
    StartQueryExecutionInput.QueryString
      (createInput "sales_2021"
         (ResultConfiguration.mk (Some "s3://logs") None)) = Some create
    ∧ StartQueryExecutionInput.QueryString
        (dropInput "sales_2021" true
           (ResultConfiguration.mk (Some "s3://logs") None)) = Some drop
    ∧ countChar "`" create = 2 ∧ countChar ";" create = 1
    ∧ countChar "`" drop = 2 ∧ countChar ";" drop = 1.
Proof.
  apply (validName_stays_quoted "sales_2021" true
           (ResultConfiguration.mk (Some "s3://logs") None)).
  reflexivity.
Defined.

(** The handlers themselves do not check the name: one the schema would
    refuse closes the quote and adds a statement of its own. *)
Example unchecked_name :
  validName "a`; drop database `b" = false
  ∧ countChar "`" (dropDatabase "a`; drop database `b" false) = 4
  ∧ countChar ";" (dropDatabase "a`; drop database `b" false) = 2.
Proof. by vm_compute. Qed.

(** * The other handlers of the Route53 health check *)

Section Route53Runs.

Context {Tags TagMap SchemaSet : Type}.
Variable P : Provider Tags TagMap SchemaSet.
Variable conn : Route53Api Tags.

(** How the pieces of a handler run. *)
Lemma run_data {B} (k : ResourceData → Route53Handler Tags B) st :
  (data ≫= k) st = k (fst st) st.
Proof. reflexivity. Qed.

Lemma run_ret {A B} (a : A) (k : A → Route53Handler Tags B) st :
  (rret a ≫= k) st = k a st.
Proof. reflexivity. Qed.

Lemma run_must_Some {A B} (a : A) (k : A → Route53Handler Tags B) st :
  (rmust (Some a) ≫= k) st = k a st.
Proof. reflexivity. Qed.

Lemma run_must_None {A B} (k : A → Route53Handler Tags B) st :
  (rmust None ≫= k) st = (st, Panic).
Proof. reflexivity. Qed.

Lemma run_call {A B} c (a : A) (k : A → Route53Handler Tags B) d log :
  (call c a ≫= k) (d, log) = k a (d, log ++ [c]).
Proof. reflexivity. Qed.

Lemma run_setId {B} id (k : unit → Route53Handler Tags B) d log :
  (setId id ≫= k) (d, log) = k tt (SetId d id, log).
Proof. reflexivity. Qed.

Lemma run_set {B} key value (k : option error → Route53Handler Tags B)
    d log :
  (set P key value ≫= k) (d, log)
  = k (snd (Set' P d key value)) (fst (Set' P d key value), log).
Proof.
  unfold set, mbind, Route53Handler_bind, rbind. cbn [fst snd].
  by destruct (Set' P d key value).
Qed.

Lemma run_set_last key value d log :
  set P key value (d, log)
  = ((fst (Set' P d key value), log), Done (snd (Set' P d key value))).
Proof. unfold set. cbn [fst snd]. by destruct (Set' P d key value). Qed.

Lemma run_assoc {A B C} (m : Route53Handler Tags A)
    (f : A → Route53Handler Tags B) (k : B → Route53Handler Tags C) st :
  ((m ≫= f) ≫= k) st = (m ≫= λ a, f a ≫= k) st.
Proof.
  unfold mbind, Route53Handler_bind, rbind.
  by destruct (m st) as [st' [a| |]].
Qed.

Ltac run_set_step :=
  rewrite run_set;
  match goal with
  | |- context [Set' ?P ?d ?key ?value] =>
      let d' := fresh "d" in
      let err := fresh "err" in
      destruct (Set' P d key value) as [d' err]; cbn [fst snd]
  end.

(** X13.  When [GetHealthCheck] fails, the read makes no other call.  If
    the error says the health check does not exist, the read clears the id
    of the resource data, leaves their attributes alone and returns no
    error; any other error is returned as it is, not wrapped, and the
    resource data stay as they were. *)
Theorem resourceAwsRoute53HealthCheckRead_gone d log out e :
  GetHealthCheck conn (getInput d) = (out, Some e) →
  resourceAwsRoute53HealthCheckRead P conn (d, log)
  = if isAWSErr P (Some e) ErrCodeNoSuchHealthCheck ""
    then ((SetId d "", log ++ [CallGetHealthCheck (getInput d)]), Done None)
    else ((d, log ++ [CallGetHealthCheck (getInput d)]), Done (Some e)).
Proof.
  intros Hget. unfold resourceAwsRoute53HealthCheckRead.
  rewrite run_data. cbn [fst]. rewrite run_call.
  fold (getInput d). rewrite Hget. cbn beta iota.
  destruct (isAWSErr P (Some e) ErrCodeNoSuchHealthCheck ""); [|reflexivity].
  by rewrite run_setId.
Qed.

Lemma healthCheckRead_log d log :
  ∃ rest,
    snd (fst (resourceAwsRoute53HealthCheckRead P conn (d, log)))
    = log ++ CallGetHealthCheck (getInput d) :: rest
    ∧ (rest = []
       ∨ ∃ id, rest = [CallListTags id r53.TagResourceTypeHealthcheck]).
Proof.
  unfold resourceAwsRoute53HealthCheckRead.
  rewrite run_data. cbn [fst]. rewrite run_call. fold (getInput d).
  destruct (GetHealthCheck conn (getInput d)) as [read [e|]].
  { destruct (isAWSErr P (Some e) ErrCodeNoSuchHealthCheck "").
    - rewrite run_setId. exists []. by split; [|left].
    - exists []. by split; [|left]. }
  destruct read as [read|]; [|exists []; by split; [|left]].
  destruct (r53.GetHealthCheckOutput.HealthCheck read) as [hc|];
    [rewrite run_must_Some|rewrite run_must_None; exists []; by split; [|left]].
  destruct (r53.HealthCheck.HealthCheckConfig hc) as [cfg|];
    [rewrite run_must_Some|rewrite run_must_None; exists []; by split; [|left]].
  do 12 run_set_step.
  destruct err10 as [e|]; [exists []; by split; [|left]|].
  do 4 run_set_step.
  destruct (r53.HealthCheckConfig.AlarmIdentifier cfg) as [alarm|];
    [rewrite run_assoc; do 2 run_set_step|rewrite run_ret];
    rewrite run_data; cbn [fst]; rewrite run_call.
  all: match goal with
       | |- context [Route53ListTags conn ?id ?kind] =>
           destruct (Route53ListTags conn id kind) as [tags [e|]]
       end.
  all: try (eexists; split;
            [unfold rret; cbn [fst snd]; rewrite <- app_assoc; reflexivity
            |right; by eexists]).
  all: run_set_step.
  all: match goal with
       | |- context [match ?err with Some _ => _ | None => _ end] =>
           destruct err
       end.
  all: try (eexists; split;
            [unfold rret; cbn [fst snd]; rewrite <- app_assoc; reflexivity
            |right; by eexists]).
  all: run_set_step.
  all: match goal with
       | |- context [match ?err with Some _ => _ | None => _ end] =>
           destruct err
       end.
  all: try (eexists; split;
            [unfold rret; cbn [fst snd]; rewrite <- app_assoc; reflexivity
            |right; by eexists]).
  all: rewrite run_data; cbn [fst]; run_set_step.
  all: eexists; split;
         [unfold rret; cbn [fst snd]; rewrite <- app_assoc; reflexivity
         |right; by eexists].
Qed.

Lemma okField_Some {T} (conv : Value → option T) vok x :
  okField conv vok = Some (Some x) → snd vok = true ∧ conv (fst vok) = Some x.
Proof.
  unfold okField. destruct (snd vok); [|done].
  destruct (conv (fst vok)); cbn; naive_solver.
Qed.

Lemma okField_None {T} (conv : Value → option T) vok :
  okField conv vok = Some None → snd vok = false.
Proof.
  unfold okField. destruct (snd vok); [|done].
  destruct (conv (fst vok)); cbn; naive_solver.
Qed.

Ltac must_step H :=
  match type of H with
  | (rmust ?o ≫= _) _ = _ =>
      let E := fresh "E" in
      destruct o as [?|] eqn:E;
      [rewrite run_must_Some in H
      |rewrite run_must_None in H; left; by rewrite <- H]
  end.

Lemma healthCheckCreate_run d log :
  resourceAwsRoute53HealthCheckCreate P conn (d, log) = ((d, log), Panic)
  ∨ ∃ m type cfg ref,
      asMap (Get d "tags") = Some m
      ∧ asString (Get d "type") = Some type
      ∧ r53.HealthCheckConfig.Type' cfg = Some type
      ∧ exclusiveFields type cfg
      ∧ callerReference P d ref
      ∧ let input := r53.CreateHealthCheckInput.mk (Some ref) (Some cfg) in
        let log1 := log ++ [CallCreateHealthCheck input] in
        resourceAwsRoute53HealthCheckCreate P conn (d, log)
        = match CreateHealthCheck conn input with
          | (_, Some e) => ((d, log1), Done (Some e))
          | (resp, None) =>
              match resp ≫= r53.CreateHealthCheckOutput.HealthCheck with
              | None => ((d, log1), Panic)
              | Some hc =>
                  let id := StringValue (r53.HealthCheck.Id hc) in
                  let c :=
                    CallUpdateTags id r53.TagResourceTypeHealthcheck
                      TagsNil (TagsOf (mergedTags P m)) in
                  match
                    Route53UpdateTags conn id r53.TagResourceTypeHealthcheck
                      TagsNil (TagsOf (mergedTags P m))
                  with
                  | Some e =>
                      ((SetId d id, log1 ++ [c]),
                       Done (Some (Wrapf
                               ("error setting Route53 Health Check ("
                                +:+ id +:+ ") tags: ") e)))
                  | None =>
                      resourceAwsRoute53HealthCheckRead P conn
                        (SetId d id, log1 ++ [c])
                  end
              end
          end.
Proof.
  destruct (resourceAwsRoute53HealthCheckCreate P conn (d, log))
    as [st' r] eqn:Hrun.
  unfold resourceAwsRoute53HealthCheckCreate in Hrun.
  rewrite run_data in Hrun. cbn [fst] in Hrun.
  destruct (asMap (Get d "tags")) as [m|] eqn:Hm;
    [|left; by rewrite <- Hrun].
  cbn [fmap option_fmap option_map] in Hrun. rewrite run_must_Some in Hrun.
  do 11 must_step Hrun.
  must_step Hrun.
  destruct p as [ChildHealthChecks HealthThreshold].
  must_step Hrun.
  destruct p as [AlarmIdentifier InsufficientDataHealthStatus].
  do 3 must_step Hrun.
  rewrite run_call in Hrun.
  match type of Hrun with
  | context [CreateHealthCheck conn
               (r53.CreateHealthCheckInput.mk (Some ?ref) (Some ?cfg))] =>
      right; exists m, s, cfg, ref
  end.
  split; [done|]. split; [done|]. split; [done|]. split.
  { unfold exclusiveFields. cbn [r53.HealthCheckConfig.MeasureLatency
      r53.HealthCheckConfig.AlarmIdentifier
      r53.HealthCheckConfig.InsufficientDataHealthStatus
      r53.HealthCheckConfig.ChildHealthChecks
      r53.HealthCheckConfig.HealthThreshold].
    destruct (String.eqb_spec s r53.HealthCheckTypeCalculated) as [->|Hc].
    - cbn in E7, E11. split; [naive_solver|]. split; [done|]. done.
    - destruct (String.eqb_spec s r53.HealthCheckTypeCloudwatchMetric)
        as [->|Hw].
      + cbn [negb andb] in E7.
        destruct (okField asString (GetOk P d "cloudwatch_alarm_name"));
          [|done].
        destruct (okField asString (GetOk P d "cloudwatch_alarm_region"));
          [|done].
        destruct (okField asString
                    (GetOk P d "insufficient_data_health_status")); [|done].
        cbn in E11. split; [done|]. split; [naive_solver|]. done.
      + split; [done|]. split; [done|]. naive_solver. }
  split.
  { unfold callerReference. destruct o10 as [v|].
    - right. exists v. by apply okField_Some in E13 as [? ?].
    - left. by apply okField_None in E13. }
  cbn zeta. rewrite <- Hrun.
  match goal with
  | |- context [CreateHealthCheck conn ?i] =>
      destruct (CreateHealthCheck conn i) as [resp [e|]]
  end; [reflexivity|].
  destruct resp as [resp|]; [rewrite run_must_Some|by rewrite run_must_None].
  cbn [mbind option_bind].
  destruct (r53.CreateHealthCheckOutput.HealthCheck resp) as [hc|];
    [rewrite run_must_Some|by rewrite run_must_None].
  rewrite run_setId, run_data. cbn [fst SetId Id]. rewrite run_call.
  by destruct (Route53UpdateTags conn _ _ _ _).
Qed.

Lemma changedField_iff {T} (conv : Value → option T) changed v o :
  changedField conv changed v = Some o → o ≠ None ↔ changed = true.
Proof.
  unfold changedField. destruct changed.
  - destruct (conv v); cbn; naive_solver.
  - naive_solver.
Qed.

Lemma healthCheckUpdate_run d log :
  resourceAwsRoute53HealthCheckUpdate P conn (d, log) = ((d, log), Panic)
  ∨ ∃ input,
      r53.UpdateHealthCheckInput.HealthCheckId input = Some (Id d)
      ∧ onlyChanged P d input
      ∧ (∀ alarm,
           r53.UpdateHealthCheckInput.AlarmIdentifier input = Some alarm →
           ∃ name region,
             asString (Get d "cloudwatch_alarm_name") = Some name
             ∧ asString (Get d "cloudwatch_alarm_region") = Some region
             ∧ alarm = r53.AlarmIdentifier.mk (Some name) (Some region))
      ∧ let log1 := log ++ [CallUpdateHealthCheck input] in
        resourceAwsRoute53HealthCheckUpdate P conn (d, log)
        = match UpdateHealthCheck conn input with
          | Some e => ((d, log1), Done (Some e))
          | None =>
              if HasChange P d "tags_all"
              then
                let o := fst (GetChange P d "tags_all") in
                let n := snd (GetChange P d "tags_all") in
                let c :=
                  CallUpdateTags (Id d) r53.TagResourceTypeHealthcheck
                    (TagsValue o) (TagsValue n) in
                match
                  Route53UpdateTags conn (Id d)
                    r53.TagResourceTypeHealthcheck (TagsValue o) (TagsValue n)
                with
                | Some e =>
                    ((d, log1 ++ [c]),
                     Done (Some (Wrapf
                             ("error updating Route53 Health Check ("
                              +:+ Id d +:+ ") tags: ") e)))
                | None =>
                    resourceAwsRoute53HealthCheckRead P conn (d, log1 ++ [c])
                end
              else resourceAwsRoute53HealthCheckRead P conn (d, log1)
          end.
Proof.
  destruct (resourceAwsRoute53HealthCheckUpdate P conn (d, log))
    as [st' r] eqn:Hrun.
  unfold resourceAwsRoute53HealthCheckUpdate in Hrun.
  rewrite run_data in Hrun. cbn [fst] in Hrun.
  do 13 must_step Hrun.
  rewrite run_call in Hrun.
  match type of Hrun with
  | context [UpdateHealthCheck conn ?i] => right; exists i
  end.
  split; [done|]. split.
  { unfold onlyChanged.
    cbn [r53.UpdateHealthCheckInput.FailureThreshold
         r53.UpdateHealthCheckInput.FullyQualifiedDomainName
         r53.UpdateHealthCheckInput.Port
         r53.UpdateHealthCheckInput.ResourcePath
         r53.UpdateHealthCheckInput.Inverted
         r53.UpdateHealthCheckInput.ChildHealthChecks
         r53.UpdateHealthCheckInput.HealthThreshold
         r53.UpdateHealthCheckInput.SearchString
         r53.UpdateHealthCheckInput.AlarmIdentifier
         r53.UpdateHealthCheckInput.InsufficientDataHealthStatus
         r53.UpdateHealthCheckInput.EnableSNI
         r53.UpdateHealthCheckInput.Regions
         r53.UpdateHealthCheckInput.Disabled].
    repeat split; try (eapply changedField_iff; eassumption);
      try (intros Hne; eapply changedField_iff; eassumption).
    - intros Hne.
      destruct (HasChanges P d
                  ["cloudwatch_alarm_name"; "cloudwatch_alarm_region"]);
        [done|]. naive_solver.
    - intros Hch. rewrite Hch in E7.
      destruct (asString (Get d "cloudwatch_alarm_name")); [|done].
      destruct (asString (Get d "cloudwatch_alarm_region")); [|done].
      cbn in E7. naive_solver. }
  split.
  { cbn [r53.UpdateHealthCheckInput.AlarmIdentifier]. intros alarm ->.
    destruct (HasChanges P d
                ["cloudwatch_alarm_name"; "cloudwatch_alarm_region"]);
      [|done].
    destruct (asString (Get d "cloudwatch_alarm_name")) as [name|]; [|done].
    destruct (asString (Get d "cloudwatch_alarm_region")) as [region|];
      [|done].
    cbn in E7. exists name, region. naive_solver. }
  cbn zeta. rewrite <- Hrun.
  match goal with
  | |- context [UpdateHealthCheck conn ?i] =>
      destruct (UpdateHealthCheck conn i) as [e|]
  end; [reflexivity|].
  destruct (HasChange P d "tags_all").
  - destruct (GetChange P d "tags_all") as [o' n']. cbn [fst snd].
    rewrite run_call. by destruct (Route53UpdateTags conn _ _ _ _).
  - by rewrite run_ret.
Qed.

Ltac run_set_in H :=
  rewrite run_set in H;
  match type of H with
  | context [Set' ?P ?d ?key ?value] =>
      let d' := fresh "d" in
      let err := fresh "err" in
      destruct (Set' P d key value) as [d' err] eqn:?; cbn [fst snd] in H
  end.

Ltac run_set_named H d' err E :=
  rewrite run_set in H;
  match type of H with
  | context [Set' ?P ?d ?key ?value] =>
      destruct (Set' P d key value) as [d' err] eqn:E; cbn [fst snd] in H
  end.

Lemma healthCheckRead_leaves d log st' r :
  resourceAwsRoute53HealthCheckRead P conn (d, log) = (st', r) →
  (∃ out e, GetHealthCheck conn (getInput d) = (out, Some e)
            ∧ r = Done (if isAWSErr P (Some e) ErrCodeNoSuchHealthCheck ""
                        then None else Some e))
  ∨ (GetHealthCheck conn (getInput d) = (None, None) ∧ r = Done None)
  ∨ (∃ read, GetHealthCheck conn (getInput d) = (Some read, None)
             ∧ r53.GetHealthCheckOutput.HealthCheck read
               ≫= r53.HealthCheck.HealthCheckConfig = None
             ∧ r = Panic ∧ fst st' = d)
  ∨ (∃ read hc cfg,
       GetHealthCheck conn (getInput d) = (Some read, None)
       ∧ r53.GetHealthCheckOutput.HealthCheck read = Some hc
       ∧ r53.HealthCheck.HealthCheckConfig hc = Some cfg
       ∧ ((∃ d1 v e,
             snd (Set' P d1 "child_healthchecks" v) = Some e
             ∧ r = Done (Some (Wrapf "error setting child_healthchecks: " e)))
          ∨ (∃ d2 e,
               snd (Route53ListTags conn (Id d2)
                      r53.TagResourceTypeHealthcheck) = Some e
               ∧ r = Done (Some (Wrapf
                             ("error listing tags for Route53 Health Check ("
                              +:+ Id d2 +:+ "): ") e)))
          ∨ (∃ d3 v e,
               snd (Set' P d3 "tags" v) = Some e
               ∧ r = Done (Some (Wrapf "error setting tags: " e)))
          ∨ (∃ d4 v e,
               snd (Set' P d4 "tags_all" v) = Some e
               ∧ r = Done (Some (Wrapf "error setting tags_all: " e)))
          ∨ r = Done None)).
Proof.
  intros Hrun. unfold resourceAwsRoute53HealthCheckRead in Hrun.
  rewrite run_data in Hrun. cbn [fst] in Hrun. rewrite run_call in Hrun.
  fold (getInput d) in Hrun.
  destruct (GetHealthCheck conn (getInput d)) as [read [e|]].
  { left. exists read, e. split; [done|].
    destruct (isAWSErr P (Some e) ErrCodeNoSuchHealthCheck "").
    - rewrite run_setId in Hrun. by injection Hrun as <- <-.
    - by injection Hrun as <- <-. }
  right. destruct read as [read|];
    [|left; split; [done|]; by injection Hrun as <- <-].
  right. destruct (r53.GetHealthCheckOutput.HealthCheck read) as [hc|] eqn:Hhc;
    [rewrite run_must_Some in Hrun
    |rewrite run_must_None in Hrun; left; exists read; rewrite Hhc;
     by injection Hrun as <- <-].
  destruct (r53.HealthCheck.HealthCheckConfig hc) as [cfg|] eqn:Hcfg;
    [rewrite run_must_Some in Hrun
    |rewrite run_must_None in Hrun; left; exists read; rewrite Hhc; cbn;
     rewrite Hcfg; by injection Hrun as <- <-].
  right. exists read, hc, cfg. split; [done|]. split; [done|]. split; [done|].
  do 11 run_set_in Hrun. run_set_named Hrun dc errc Hc.
  destruct errc as [e|].
  { left. eexists _, _, e. erewrite Hc. split; [done|].
    by injection Hrun as <- <-. }
  right. do 4 run_set_in Hrun.
  assert (∃ dt, (data ≫= λ d : ResourceData,
               call (CallListTags (Id d) r53.TagResourceTypeHealthcheck)
                 (Route53ListTags conn (Id d) r53.TagResourceTypeHealthcheck)
               ≫= λ pat : Tags * option error,
                    match pat with
                    | (tags, Some e) =>
                        rret
                          (Some
                             (Wrapf
                                ("error listing tags for Route53 Health Check ("
                                 +:+ Id d +:+ "): ")
                                e))
                    | (tags, None) =>
                        set P "tags"
                          (ArgTagMap (withoutDefaults P (ignoreTags P tags)))
                        ≫= λ err0 : option error,
                             match err0 with
                             | Some e =>
                                 rret (Some (Wrapf "error setting tags: " e))
                             | None =>
                                 set P "tags_all"
                                   (ArgTagMap (tagMap P (ignoreTags P tags)))
                                 ≫= λ err1 : option error,
                                      match err1 with
                                      | Some e =>
                                          rret
                                            (Some
                                               (Wrapf
                                                 "error setting tags_all: " e))
                                      | None =>
                                          data
                                          ≫= λ d0 : ResourceData,
                                               set P "arn"
                                                 (ArgString
                                                 (ARNString P
                                                 {|
                                                 r53.ARN.Partition :=
                                                 partition P;
                                                 r53.ARN.Service := "route53";
                                                 r53.ARN.Region := "";
                                                 r53.ARN.AccountID := "";
                                                 r53.ARN.Resource :=
                                                 "healthcheck/" +:+ Id d0
                                                 |}))
                                               ≫=
                                               λ _ : option error,
                                                 rret None
                                      end
                             end
                    end) (dt, log ++ [CallGetHealthCheck (getInput d)])
                 = (st', r)) as [dt Htail].
  { destruct (r53.HealthCheckConfig.AlarmIdentifier cfg) as [alarm|].
    - rewrite run_assoc in Hrun. do 2 run_set_in Hrun. by eexists.
    - rewrite run_ret in Hrun. by eexists. }
  clear Hrun. rewrite run_data in Htail. cbn [fst] in Htail.
  rewrite run_call in Htail.
  destruct (Route53ListTags conn (Id dt) r53.TagResourceTypeHealthcheck)
    as [tags [e|]] eqn:Hlist.
  { left. exists dt, e. rewrite Hlist. split; [done|].
    by injection Htail as <- <-. }
  right. run_set_named Htail dg errg Hg. destruct errg as [e|].
  { left. eexists _, _, e. erewrite Hg. split; [done|].
    by injection Htail as <- <-. }
  right. run_set_named Htail da erra Ha. destruct erra as [e|].
  { left. eexists _, _, e. erewrite Ha. split; [done|].
    by injection Htail as <- <-. }
  right. rewrite run_data in Htail. cbn [fst] in Htail.
  run_set_in Htail. by injection Htail as <- <-.
Qed.

(** X14.  [resourceAwsRoute53HealthCheckRead] only reads from the
    service: its first call is [GetHealthCheck] for the id of the resource
    data, and the only other call it can make is one [Route53ListTags] for
    a health check. *)
Theorem resourceAwsRoute53HealthCheckRead_calls d log :
  ∃ rest,
    snd (fst (resourceAwsRoute53HealthCheckRead P conn (d, log)))
    = log ++ CallGetHealthCheck (getInput d) :: rest
    ∧ (rest = []
       ∨ ∃ id, rest = [CallListTags id r53.TagResourceTypeHealthcheck]).
Proof. apply healthCheckRead_log. Qed.

(** X15.  When [GetHealthCheck] returns a health check with its
    configuration, the tags can be listed and [d.Set] succeeds for
    [child_healthchecks], [tags] and [tags_all], the read returns no error,
    whatever [d.Set] returns for the other attributes: those errors are
    dropped. *)
Theorem resourceAwsRoute53HealthCheckRead_ignores_set_errors d log read cfg :
  GetHealthCheck conn (getInput d) = (Some read, None) →
  r53.GetHealthCheckOutput.HealthCheck read
    ≫= r53.HealthCheck.HealthCheckConfig = Some cfg →
  (∀ id, snd (Route53ListTags conn id r53.TagResourceTypeHealthcheck)
         = None) →
  (∀ d' v, snd (Set' P d' "child_healthchecks" v) = None) →
  (∀ d' v, snd (Set' P d' "tags" v) = None) →
  (∀ d' v, snd (Set' P d' "tags_all" v) = None) →
  snd (resourceAwsRoute53HealthCheckRead P conn (d, log)) = Done None.
Proof.
  intros Hget Hcfg Hlist Hchild Htags Hall.
  destruct (resourceAwsRoute53HealthCheckRead P conn (d, log))
    as [st' r] eqn:Hrun.
  apply healthCheckRead_leaves in Hrun. cbn [snd].
  destruct Hrun as [(out & e & Hg & _)|[[Hg _]|[(read' & Hg & Hno & _)|Hrun]]].
  - by rewrite Hget in Hg.
  - by rewrite Hget in Hg.
  - rewrite Hget in Hg. injection Hg as <-. by rewrite Hcfg in Hno.
  - destruct Hrun as (_ & _ & _ & _ & _ & _ & Hrun).
    destruct Hrun as [(d1 & v & e & He & _)|[(d1 & e & He & _)
      |[(d1 & v & e & He & _)|[(d1 & v & e & He & _)|Hr]]]].
    + by rewrite Hchild in He.
    + by rewrite Hlist in He.
    + by rewrite Htags in He.
    + by rewrite Hall in He.
    + done.
Qed.

(** X16.  The read panics exactly when [GetHealthCheck] returns, without an
    error, an answer that has no health check or no configuration; an error
    it returns is the error of [GetHealthCheck], unchanged, or an error
    wrapped with one of four texts. *)
Theorem resourceAwsRoute53HealthCheckRead_outcome d log :
  (snd (resourceAwsRoute53HealthCheckRead P conn (d, log)) = Panic
   ↔ ∃ read, GetHealthCheck conn (getInput d) = (Some read, None)
             ∧ r53.GetHealthCheckOutput.HealthCheck read
               ≫= r53.HealthCheck.HealthCheckConfig = None)
  ∧ (∀ e, snd (resourceAwsRoute53HealthCheckRead P conn (d, log))
          = Done (Some e) →
          snd (GetHealthCheck conn (getInput d)) = Some e
          ∨ ∃ id msg cause, msg ∈ readWrapTexts id ∧ e = Wrapf msg cause)
  ∧ snd (resourceAwsRoute53HealthCheckRead P conn (d, log)) ≠ OutOfFuel.
Proof.
  destruct (resourceAwsRoute53HealthCheckRead P conn (d, log))
    as [st' r] eqn:Hrun.
  apply healthCheckRead_leaves in Hrun. cbn [snd]. unfold readWrapTexts.
  destruct Hrun as [(out & e & Hg & ->)|[[Hg ->]|[(read' & Hg & Hno & -> & _)
    |Hrun]]].
  - split; [|split; [|done]].
    + split; [done|]. intros (read & Hg' & _). by rewrite Hg in Hg'.
    + intros e'. rewrite Hg. cbn [snd].
      destruct (isAWSErr P (Some e) ErrCodeNoSuchHealthCheck "");
        [done|]. intros [= <-]. by left.
  - split; [|split; [|done]]; [|done].
    split; [done|]. intros (read & Hg' & _). by rewrite Hg in Hg'.
  - split; [|split; [|done]]; [|done].
    split; [|done]. intros _. by exists read'.
  - destruct Hrun as (read & hc & cfg & Hg & Hhc & Hcfg & Hrun).
    assert (¬ ∃ read0,
              GetHealthCheck conn (getInput d) = (Some read0, None)
              ∧ r53.GetHealthCheckOutput.HealthCheck read0
                ≫= r53.HealthCheck.HealthCheckConfig = None) as Hnot.
    { intros (read0 & Hg' & Hno). rewrite Hg in Hg'. injection Hg' as <-.
      rewrite Hhc in Hno. cbn in Hno. by rewrite Hcfg in Hno. }
    destruct Hrun as [(d1 & v & e & He & ->)|[(d1 & e & He & ->)
      |[(d1 & v & e & He & ->)|[(d1 & v & e & He & ->)| ->]]]].
    all: split; [split; [done|by intros ?]|split; [|done]].
    all: intros e'; try done; intros [= <-]; right.
    + exists "", "error setting child_healthchecks: ", e.
      split; [apply list_elem_of_here|done].
    + eexists (Id d1), _, e.
      split; [apply list_elem_of_further, list_elem_of_here|done].
    + exists "", "error setting tags: ", e.
      split; [do 2 apply list_elem_of_further; apply list_elem_of_here|done].
    + exists "", "error setting tags_all: ", e.
      split; [do 3 apply list_elem_of_further; apply list_elem_of_here|done].
Qed.

(** The first call of a creation, and the calls after it. *)
Lemma healthCheckCreate_first_call d log :
  resourceAwsRoute53HealthCheckCreate P conn (d, log) = ((d, log), Panic)
  ∨ ∃ type cfg ref rest,
      asString (Get d "type") = Some type
      ∧ r53.HealthCheckConfig.Type' cfg = Some type
      ∧ exclusiveFields type cfg
      ∧ callerReference P d ref
      ∧ snd (fst (resourceAwsRoute53HealthCheckCreate P conn (d, log)))
        = log ++ CallCreateHealthCheck
                   (r53.CreateHealthCheckInput.mk (Some ref) (Some cfg))
                 :: rest
      ∧ ∀ input, CallCreateHealthCheck input ∉ rest.
Proof.
  destruct (healthCheckCreate_run d log)
    as [Hp|(m & type & cfg & ref & Hm & Htype & Hcfg & Hex & Href & Hrun)];
    [by left|right].
  exists type, cfg, ref. cbn zeta in Hrun. rewrite Hrun. clear Hrun.
  destruct (CreateHealthCheck conn _) as [resp [e|]].
  { exists []. repeat (split; [done|]). intros input Hin.
    by apply elem_of_nil in Hin. }
  destruct (resp ≫= r53.CreateHealthCheckOutput.HealthCheck) as [hc|].
  2:{ exists []. repeat (split; [done|]). intros input Hin.
      by apply elem_of_nil in Hin. }
  destruct (Route53UpdateTags conn _ _ _ _) as [e|].
  { eexists [_]. repeat (split; [done|]). split.
    - cbn [fst snd]. by rewrite <- app_assoc.
    - intros input Hin. by apply list_elem_of_singleton in Hin. }
  match goal with
  | |- context [resourceAwsRoute53HealthCheckRead P conn (?d', ?log')] =>
      destruct (healthCheckRead_log d' log') as (rest & Hlog & Hrest)
  end.
  rewrite Hlog. eexists (_ :: _ :: rest).
  repeat (split; [done|]). split.
  - by rewrite <- !app_assoc.
  - intros input Hin. apply elem_of_cons in Hin as [?|Hin]; [done|].
    apply elem_of_cons in Hin as [?|Hin]; [done|].
    destruct Hrest as [->|[id ->]].
    + by apply elem_of_nil in Hin.
    + by apply list_elem_of_singleton in Hin.
Qed.

(** X17.  [resourceAwsRoute53HealthCheckCreate] either panics before it
    calls the service, or its first call is the creation request; the
    request carries the type of the resource data, latency measuring only
    for an endpoint check, child checks only for a calculated check and an
    alarm only for a CloudWatch check, and the unique id as caller
    reference, after the reference name when there is one.  No later call
    of the run creates a health check. *)
Theorem resourceAwsRoute53HealthCheckCreate_request d log :
  resourceAwsRoute53HealthCheckCreate P conn (d, log) = ((d, log), Panic)
  ∨ ∃ type cfg ref rest,
      asString (Get d "type") = Some type
      ∧ r53.HealthCheckConfig.Type' cfg = Some type
      ∧ exclusiveFields type cfg
      ∧ callerReference P d ref
      ∧ snd (fst (resourceAwsRoute53HealthCheckCreate P conn (d, log)))
        = log ++ CallCreateHealthCheck
                   (r53.CreateHealthCheckInput.mk (Some ref) (Some cfg))
                 :: rest
      ∧ ∀ input, CallCreateHealthCheck input ∉ rest.
Proof. apply healthCheckCreate_first_call. Qed.

(** X22.  The schema's bound on the reference name fits the caller
    reference into the 64 characters the service allows: when the unique
    id is [terraform-] and a suffix of the declared length, and the
    reference name, if there is one, is within the schema's bound, the
    caller reference of the creation request has at most 64 characters. *)
Theorem resourceAwsRoute53HealthCheckCreate_reference_length d log
    (UniqueIDSuffixLength : Z) (suffix : string) :
  UniqueId P = "terraform-" +:+ suffix →
  Z.of_nat (String.length suffix) = UniqueIDSuffixLength →
  (UniqueIDSuffixLength ≤ 53)%Z →
  (∀ v, snd (GetOk P d "reference_name") = true →
        asString (fst (GetOk P d "reference_name")) = Some v →
        (Z.of_nat (String.length v)
         ≤ referenceNameLimit UniqueIDSuffixLength)%Z) →
  resourceAwsRoute53HealthCheckCreate P conn (d, log) = ((d, log), Panic)
  ∨ ∃ ref cfg rest,
      snd (fst (resourceAwsRoute53HealthCheckCreate P conn (d, log)))
      = log ++ CallCreateHealthCheck
                 (r53.CreateHealthCheckInput.mk (Some ref) (Some cfg))
               :: rest
      ∧ (Z.of_nat (String.length ref) ≤ 64)%Z.
Proof.
  intros Hid Hsuffix Hle Hname.
  destruct (healthCheckCreate_first_call d log)
    as [Hp|(type & cfg & ref & rest & _ & _ & _ & Href & Hlog & _)];
    [by left|right].
  exists ref, cfg, rest. split; [done|].
  assert (String.length (UniqueId P) = 10 + String.length suffix) as Hlen.
  { rewrite Hid, length_append. reflexivity. }
  unfold referenceNameLimit in Hname.
  destruct Href as [[_ ->]|(v & Hok & Hv & ->)].
  - lia.
  - specialize (Hname v Hok Hv). rewrite !length_append.
    change (String.length "-") with 1. lia.
Qed.



(** X20.  [resourceAwsRoute53HealthCheckUpdate] either panics before it
    calls the service, or its first call is an update request for the id
    of the resource data that carries a field exactly when its attribute
    has changed; the alarm is sent whole, with its name and its region,
    when either of the two has changed. *)
Theorem resourceAwsRoute53HealthCheckUpdate_request d log :
  resourceAwsRoute53HealthCheckUpdate P conn (d, log) = ((d, log), Panic)
  ∨ ∃ input rest,
      r53.UpdateHealthCheckInput.HealthCheckId input = Some (Id d)
      ∧ onlyChanged P d input
      ∧ (∀ alarm,
           r53.UpdateHealthCheckInput.AlarmIdentifier input = Some alarm →
           ∃ name region,
             asString (Get d "cloudwatch_alarm_name") = Some name
             ∧ asString (Get d "cloudwatch_alarm_region") = Some region
             ∧ alarm = r53.AlarmIdentifier.mk (Some name) (Some region))
      ∧ snd (fst (resourceAwsRoute53HealthCheckUpdate P conn (d, log)))
        = log ++ CallUpdateHealthCheck input :: rest
      ∧ ∀ input', CallUpdateHealthCheck input' ∉ rest.
Proof.
  destruct (healthCheckUpdate_run d log)
    as [Hp|(input & Hid & Hch & Halarm & Hrun)]; [by left|right].
  exists input. cbn zeta in Hrun. rewrite Hrun. clear Hrun.
  assert (∀ (d' : ResourceData) (log' : list (Route53Call Tags)),
            (∃ more, log' = log ++ CallUpdateHealthCheck input :: more
                     ∧ ∀ input', CallUpdateHealthCheck input' ∉ more) →
            ∃ rest,
              snd (fst (resourceAwsRoute53HealthCheckRead P conn (d', log')))
              = log ++ CallUpdateHealthCheck input :: rest
              ∧ ∀ input', CallUpdateHealthCheck input' ∉ rest) as Hread.
  { intros d' log' (more & -> & Hmore).
    destruct (healthCheckRead_log d' (log ++ CallUpdateHealthCheck input
                                        :: more)) as (rest & -> & Hrest).
    exists (more ++ CallGetHealthCheck (getInput d') :: rest). split.
    - by rewrite <- app_assoc.
    - intros input' Hin. apply elem_of_app in Hin as [Hin|Hin];
        [by apply Hmore in Hin|].
      apply elem_of_cons in Hin as [?|Hin]; [done|].
      destruct Hrest as [->|[id ->]].
      + by apply elem_of_nil in Hin.
      + by apply list_elem_of_singleton in Hin. }
  destruct (UpdateHealthCheck conn input) as [e|].
  { exists []. repeat (split; [done|]). intros input' Hin.
    by apply elem_of_nil in Hin. }
  destruct (HasChange P d "tags_all").
  - cbn zeta. destruct (Route53UpdateTags conn _ _ _ _) as [e|].
    + eexists [_]. repeat (split; [done|]). split.
      * cbn [fst snd]. by rewrite <- app_assoc.
      * intros input' Hin. by apply list_elem_of_singleton in Hin.
    + match goal with
      | |- context [resourceAwsRoute53HealthCheckRead P conn (?d', ?log')] =>
          destruct (Hread d' log') as (rest & Hlog & Hrest)
      end.
      { eexists [_]. split; [by rewrite <- app_assoc|].
        intros input' Hin. by apply list_elem_of_singleton in Hin. }
      exists rest. by repeat (split; [done|]).
  - match goal with
    | |- context [resourceAwsRoute53HealthCheckRead P conn (?d', ?log')] =>
        destruct (Hread d' log') as (rest & Hlog & Hrest)
    end.
    { exists []. split; [done|]. intros input' Hin.
      by apply elem_of_nil in Hin. }
    exists rest. by repeat (split; [done|]).
Qed.


End Route53Runs.

(** ** Worked runs of the health-check handlers *)

(** A health check that no longer exists is dropped from the state. *)
Lemma resourceAwsRoute53HealthCheckRead_gone_witness :
  resourceAwsRoute53HealthCheckRead (plainProvider []) oneCheckService
    (healthCheckData "hc-9" "HTTP" [], [])
  = ((SetId (healthCheckData "hc-9" "HTTP" []) "",
      [CallGetHealthCheck (getInput (healthCheckData "hc-9" "HTTP" []))]),
     Done None).
Proof.
  eapply eq_trans.
  { apply (resourceAwsRoute53HealthCheckRead_gone (plainProvider [])
             oneCheckService (healthCheckData "hc-9" "HTTP" []) [] None
             (AwsErr "NoSuchHealthCheck" "No health check with that ID")).
    reflexivity. }
  reflexivity.
Defined.

(** Any other error of [GetHealthCheck] comes back as it is. *)
Example read_throttled :
  resourceAwsRoute53HealthCheckRead (plainProvider [])
    (refusingService (AwsErr "Throttling" "Rate exceeded"))
    (healthCheckData "hc-1" "HTTP" [], [])
  = ((healthCheckData "hc-1" "HTTP" [],
      [CallGetHealthCheck (getInput (healthCheckData "hc-1" "HTTP" []))]),
     Done (Some (AwsErr "Throttling" "Rate exceeded"))).
Proof. vm_compute. reflexivity. Qed.

(** The read of the health check ["hc-1"] makes its two calls. *)
Example read_two_calls :
  snd (fst (resourceAwsRoute53HealthCheckRead (plainProvider [])
              oneCheckService (healthCheckData "hc-1" "HTTP" [], [])))
  = [CallGetHealthCheck (getInput (healthCheckData "hc-1" "HTTP" []));
     CallListTags "hc-1" "healthcheck"].
Proof. vm_compute. reflexivity. Qed.

(** Errors of [d.Set] for the scalar attributes do not fail the read. *)
Lemma resourceAwsRoute53HealthCheckRead_ignores_set_errors_witness :
  snd (resourceAwsRoute53HealthCheckRead (pickyProvider (Errorf "read-only"))
         oneCheckService (healthCheckData "hc-1" "HTTP" [], []))
  = Done None.
Proof.
  eapply (resourceAwsRoute53HealthCheckRead_ignores_set_errors
            (pickyProvider (Errorf "read-only")) oneCheckService
            (healthCheckData "hc-1" "HTTP" []) []).
  - reflexivity.
  - reflexivity.
  - intros id. reflexivity.
  - intros d' v. reflexivity.
  - intros d' v. reflexivity.
  - intros d' v. reflexivity.
Defined.

(** A service whose answer carries no health check makes the read panic. *)
Example read_empty_answer :
  snd (resourceAwsRoute53HealthCheckRead (plainProvider [])
         {| CreateHealthCheck := CreateHealthCheck oneCheckService;
            UpdateHealthCheck := UpdateHealthCheck oneCheckService;
            GetHealthCheck := λ input,
              (Some (r53.GetHealthCheckOutput.mk None), None);
            Route53UpdateTags := Route53UpdateTags oneCheckService;
            Route53ListTags := Route53ListTags oneCheckService |}
         (healthCheckData "hc-1" "HTTP" [], []))
  = Panic.
Proof. vm_compute. reflexivity. Qed.

(** A calculated health check: latency measuring is left out of the request
    although the resource data ask for it. *)
Example create_calculated_check :
  snd (fst (resourceAwsRoute53HealthCheckCreate (plainProvider [])
              oneCheckService
              (healthCheckData "" "CALCULATED"
                 [("measure_latency", VBool true);
                  ("child_health_threshold", VInt 1);
                  ("child_healthchecks", VList [VString "hc-2"]);
                  ("reference_name", VString "web")], [])))
  = [CallCreateHealthCheck
       (r53.CreateHealthCheckInput.mk
          (Some "web-terraform-20211031120000000000000001")
          (Some (r53.HealthCheckConfig.mk (Some "CALCULATED") None None None
                   None None None None None None None
                   (Some [Some "hc-2"]) (Some 1%Z) None None None None)));
     CallUpdateTags "hc-1" "healthcheck" TagsNil (TagsOf []);
     CallGetHealthCheck (r53.GetHealthCheckInput.mk (Some "hc-1"));
     CallListTags "hc-1" "healthcheck"].
Proof. vm_compute. reflexivity. Qed.


Example create_refused :
  resourceAwsRoute53HealthCheckCreate (plainProvider [])
    (refusingService (AwsErr "Throttling" "Rate exceeded"))
    (healthCheckData "" "HTTP" [("port", VInt 80)], [])
  = ((healthCheckData "" "HTTP" [("port", VInt 80)],
      [CallCreateHealthCheck
         (r53.CreateHealthCheckInput.mk
            (Some "terraform-20211031120000000000000001")
            (Some (r53.HealthCheckConfig.mk (Some "HTTP") None None None
                     None None (Some 80%Z) None None None None None None
                     None None None None)))]),
     Done (Some (AwsErr "Throttling" "Rate exceeded"))).
Proof. vm_compute. reflexivity. Qed.

Example create_untagged :
  let run :=
    resourceAwsRoute53HealthCheckCreate (plainProvider [])
      (untaggableService (AwsErr "Throttling" "Rate exceeded"))
      (healthCheckData "" "HTTP" [], []) in
  Id (fst (fst run)) = "hc-1"
  ∧ snd run
    = Done (Some (Wrapf "error setting Route53 Health Check (hc-1) tags: "
                    (AwsErr "Throttling" "Rate exceeded")))
  ∧ length (snd (fst run)) = 2.
Proof. vm_compute. done. Qed.


Example create_sets_attributes :
  let run :=
    resourceAwsRoute53HealthCheckCreate (plainProvider []) oneCheckService
      (healthCheckData "" "HTTP" [], []) in
  snd run = Done None
  ∧ Id (fst (fst run)) = "hc-1"
  ∧ attributes (fst (fst run)) !! "arn"
    = Some (VString "arn:aws:route53:::healthcheck/hc-1")
  ∧ attributes (fst (fst run)) !! "fqdn" = Some (VString "example.com").
Proof. vm_compute. done. Qed.

(** An update after the port and the alarm region have changed. *)
Example update_changed_fields :
  snd (fst (resourceAwsRoute53HealthCheckUpdate
              (plainProvider ["port"; "cloudwatch_alarm_region"])
              oneCheckService
              (healthCheckData "hc-1" "CLOUDWATCH_METRIC"
                 [("port", VInt 8080); ("fqdn", VString "example.com");
                  ("cloudwatch_alarm_name", VString "cpu");
                  ("cloudwatch_alarm_region", VString "eu-west-1")], [])))
  = [CallUpdateHealthCheck
       (r53.UpdateHealthCheckInput.mk (Some "hc-1") None None (Some 8080%Z)
          None None None None None
          (Some (r53.AlarmIdentifier.mk (Some "cpu") (Some "eu-west-1")))
          None None None None);
     CallGetHealthCheck (r53.GetHealthCheckInput.mk (Some "hc-1"));
     CallListTags "hc-1" "healthcheck"].
Proof. vm_compute. reflexivity. Qed.

(** An update whose changed attribute has the wrong type panics before any
    call. *)
Example update_wrong_type :
  resourceAwsRoute53HealthCheckUpdate (plainProvider ["port"])
    oneCheckService (healthCheckData "hc-1" "HTTP" [("port", VString "80")],
                     [])
  = ((healthCheckData "hc-1" "HTTP" [("port", VString "80")], []), Panic).
Proof. vm_compute. reflexivity. Qed.

(** A refused update, and an update whose tags cannot be set. *)
Example update_refused :
  resourceAwsRoute53HealthCheckUpdate (plainProvider ["tags_all"])
    (refusingService (AwsErr "NoSuchHealthCheck" "gone"))
    (healthCheckData "hc-1" "HTTP" [], [])
  = ((healthCheckData "hc-1" "HTTP" [],
      [CallUpdateHealthCheck
         (r53.UpdateHealthCheckInput.mk (Some "hc-1") None None None None
            None None None None None None None None None)]),
     Done (Some (AwsErr "NoSuchHealthCheck" "gone"))).
Proof. vm_compute. reflexivity. Qed.

Example update_untagged :
  let run :=
    resourceAwsRoute53HealthCheckUpdate (plainProvider ["tags_all"])
      (untaggableService (AwsErr "Throttling" "Rate exceeded"))
      (healthCheckData "hc-1" "HTTP" [], []) in
  snd run
  = Done (Some (Wrapf "error updating Route53 Health Check (hc-1) tags: "
                  (AwsErr "Throttling" "Rate exceeded")))
  ∧ length (snd (fst run)) = 2.
Proof. vm_compute. done. Qed.

(** With the SDK's suffix of 26 characters a reference name of up to 27
    characters fits. *)
Lemma resourceAwsRoute53HealthCheckCreate_reference_length_witness :
  resourceAwsRoute53HealthCheckCreate (plainProvider []) oneCheckService
    (healthCheckData "" "HTTP"
       [("reference_name", VString "abcdefghijklmnopqrstuvwxyz0")], [])
  = ((healthCheckData "" "HTTP"
        [("reference_name", VString "abcdefghijklmnopqrstuvwxyz0")], []),
     Panic)
  ∨ ∃ ref cfg rest,
      snd (fst (resourceAwsRoute53HealthCheckCreate (plainProvider [])
                  oneCheckService
                  (healthCheckData "" "HTTP"
                     [("reference_name",
                       VString "abcdefghijklmnopqrstuvwxyz0")], [])))
      = [] ++ CallCreateHealthCheck
                (r53.CreateHealthCheckInput.mk (Some ref) (Some cfg))
              :: rest
      ∧ (Z.of_nat (String.length ref) ≤ 64)%Z.
Proof.
  apply (resourceAwsRoute53HealthCheckCreate_reference_length
           (plainProvider []) oneCheckService
           (healthCheckData "" "HTTP"
              [("reference_name", VString "abcdefghijklmnopqrstuvwxyz0")])
           [] 26%Z "20211031120000000000000001").
  - reflexivity.
  - reflexivity.
  - lia.
  - intros v _. vm_compute. intros [= <-]. discriminate.
Defined.

(** The longest reference name gives a caller reference of exactly 64
    characters. *)
Example create_longest_reference :
  match
    snd (fst (resourceAwsRoute53HealthCheckCreate (plainProvider [])
                oneCheckService
                (healthCheckData "" "HTTP"
                   [("reference_name",
                     VString "abcdefghijklmnopqrstuvwxyz0")], [])))
  with
  | CallCreateHealthCheck input :: _ =>
      String.length
        (StringValue (r53.CreateHealthCheckInput.CallerReference input))
  | _ => 0
  end = 64.
Proof. vm_compute. reflexivity. Qed.
